(** * PubChem-MCP: the rate-limited, cached gateway and its tool handlers

    A shallow embedding of
      - [src/pubchem_mcp/utils/__init__.py]  ([RateLimiter], [PubChemClient.get]),
      - [mcp_server/server.py]               ([make_pubchem_request]),
      - [mcp_server/compounds/properties.py] ([get_compound_properties],
                                              [get_compound_synonyms]),
      - [mcp_server/compounds/similarity.py] ([search_similar_compounds_by_cid]),
    followed by the properties of the specification that concern them.

    Conventions of the embedding.
      - Time (the event loop's [time()], a Python float) is a rational number.
        The float arithmetic of the limiter and of the similarity search is
        the exact operation followed by rounding to the nearest double
        ([nearest_double]); the age test of the cache is evaluated exactly,
        and the theorems about it rest only on what the test decides.
      - Code between two [await]s runs without the clock advancing; the clock
        advances only while a coroutine is suspended.
      - The upstream service, the transport and the scheduler are an oracle
        carried by the [World]; every network call is recorded in its
        [traffic].
      - A Python call either returns a value or raises: [PyResult]. *)

From stdpp Require Import gmap strings list pretty.
From Stdlib Require Import QArith Qround Qabs Qpower Lqa.

Set Warnings "-register-all".

Open Scope string_scope.
Open Scope list_scope.
Open Scope Z_scope.

(** ** Rational time *)

Definition Qltb (x y : Q) : bool := negb (Qle_bool y x).

(** ** Python floats

    A Python [float] is a binary64 number: a sign, 53 significant bits and
    an exponent.  Its finite values are rationals, and the result of an
    operation is the exact result rounded to the nearest double, ties to
    the even one.  The exponent is left unbounded here: a result beyond
    the largest double, which is an infinity in Python, or a quotient
    below [2^-1022], which has fewer bits there, keeps its 53 bits.  Where
    the code turns on an infinity or a NaN ([int(threshold * 100)]), they
    are written out: [PyFloat]. *)

(** Half the distance, relative to 1, between two neighbouring doubles. *)
Definition unit_roundoff : Q := 1 # 9007199254740992.

Definition pow2 (e : Z) : Q := (2 ^ e)%Q.

(** The nearest integer, ties to the even one. *)
Definition round_half_even (q : Q) : Z :=
  let f := Qfloor q in
  let r := (q - inject_Z f)%Q in
  if Qltb r (1 # 2) then f
  else if Qltb (1 # 2) r then f + 1
  else if Z.even f then f else f + 1.

(** For [0 < q], the exponent [e] with [2^e <= q < 2^(e+1)]. *)
Definition ilog2 (q : Q) : Z :=
  let e0 := Z.log2 (Qnum q) - Z.log2 (Zpos (Qden q)) in
  if Qle_bool (pow2 e0) q then e0 else e0 - 1.

(** Round to 53 significant bits. *)
Definition nearest_double (q : Q) : Q :=
  if Qeq_bool q 0 then 0%Q
  else
    let e := ilog2 (Qabs q) - 52 in
    Qred (inject_Z (round_half_even (q * pow2 (- e))) * pow2 e).

(** [x - y], [x + y], [x * y] and [x / y] on floats. *)
Definition float_sub (x y : Q) : Q := nearest_double (x - y).
Definition float_add (x y : Q) : Q := nearest_double (x + y).
Definition float_mul (x y : Q) : Q := nearest_double (x * y).
Definition float_div (x y : Q) : Q := nearest_double (x / y).

(** A float as a caller can pass it: [Finite q] is the double nearest to
    [q], so that [Finite (29 # 100)] is what Python reads [0.29] as. *)
Inductive PyFloat : Type :=
| Finite (q : Q)
| Infinity (negative : bool)
| NaN.

(** The value of a float known to be finite. *)
Definition finite_value (x : PyFloat) : Q :=
  match x with
  | Finite q => nearest_double q
  | _ => 0%Q
  end.

(** [x * n] for a float [x] and a positive int [n]: the product overflows
    to an infinity when it rounds to [2^1024] or beyond. *)
Definition float_times (x : PyFloat) (n : Z) : PyFloat :=
  match x with
  | Finite q =>
      let r := float_mul (nearest_double q) (inject_Z n) in
      if Qle_bool (pow2 1024) (Qabs r) then Infinity (Qltb r 0) else Finite r
  | Infinity negative => Infinity negative
  | NaN => NaN
  end.

(** ** Python values that cross the tool boundary *)

(** The result of [json.loads]: objects keep their keys in document order,
    which is the order [dict.items()] iterates in. *)
Inductive Json : Type :=
| JNull
| JBool (b : bool)
| JInt (z : Z)
| JFloat (q : Q)
| JStr (s : string)
| JArr (xs : list Json)
| JObj (kvs : list (string * Json)).

(** The exceptions the modelled code can meet; all of them derive from
    Python's [Exception].  Each carries what [str(e)] renders. *)
Inductive Exn : Type :=
| HTTPStatusError (code : Z) (msg : string)   (* httpx, from raise_for_status *)
| RequestError (msg : string)                 (* httpx: connect, timeout, ... *)
| JSONDecodeError (msg : string)
| KeyError (msg : string)
| IndexError (msg : string)
| TypeError (msg : string)
| AttributeError (msg : string)
| ZeroDivisionError (msg : string)
| OtherException (msg : string).

Definition exn_str (e : Exn) : string :=
  match e with
  | HTTPStatusError _ m | RequestError m | JSONDecodeError m | KeyError m
  | IndexError m | TypeError m | AttributeError m | ZeroDivisionError m
  | OtherException m => m
  end.

Inductive PyResult (A : Type) : Type :=
| Returns (a : A)
| Raises (e : Exn).
Arguments Returns {A} a.
Arguments Raises {A} e.

(** ** HTTP *)

(** An [httpx.Response]: [text] is the body, [json] is what the method
    [.json()] does: it returns the decoded body or raises. *)
Record Response : Type := mkResponse {
  status_code : Z;
  text : string;
  json : PyResult Json
}.

Record Request : Type := mkRequest {
  url : string;
  params : list (string * string);
  headers : list (string * string)
}.

Definition GET (u : string) : Request := mkRequest u [] [].

(** What [await client.get(...)] does: it returns a response (of any status)
    or raises. *)
Inductive NetOutcome : Type :=
| NetResponse (r : Response)
| NetError (e : Exn).

(** ** The world outside the process *)

Record World : Type := mkWorld {
  clock : Q;                                  (* loop.time() *)
  awaits : nat;                               (* suspensions so far *)
  jitter : nat -> Q;                          (* time the n-th suspension takes
                                                 beyond what was asked for *)
  upstream : nat -> Request -> NetOutcome;    (* answer to the n-th network call *)
  traffic : list (Request * NetOutcome)       (* network calls made, oldest first *)
}.

(** A well-behaved clock never runs backwards. *)
Definition monotone_clock (w : World) : Prop := forall n, (0 <= jitter w n)%Q.

(** Suspend the running coroutine for [d] seconds (plus scheduling delay). *)
Definition suspend (d : Q) (w : World) : World :=
  mkWorld (clock w + d + jitter w (awaits w))%Q (S (awaits w))
          (jitter w) (upstream w) (traffic w).

(** [asyncio.sleep(d)]: a non-positive delay still yields to the loop. *)
Definition sleep (d : Q) (w : World) : World :=
  if Qltb 0 d then suspend d w else suspend 0 w.

(** [await client.get(...)]: one network call, logged in [traffic]. *)
Definition net_call (req : Request) (w : World) : NetOutcome * World :=
  let o := upstream w (length (traffic w)) req in
  let w1 := suspend 0 w in
  (o, mkWorld (clock w1) (awaits w1) (jitter w1) (upstream w1)
              (traffic w1 ++ [(req, o)])).

(** Number of network calls made between two worlds. *)
Definition calls_between (w w' : World) : Z :=
  Z.of_nat (length (traffic w')) - Z.of_nat (length (traffic w)).

(** ** utils/__init__.py : RateLimiter *)

Module RateLimiter.

(** The [asyncio.Lock] is the field [_lock]; [true] when held. *)
Record t : Type := mk {
  calls_per_second : Q;
  min_interval : Q;
  last_call_time : Q;
  _lock : bool
}.

(** [__init__]: [1.0 / calls_per_second] raises on zero; nothing else is
    checked.  (For a rate below [2^-1024] in magnitude the quotient is an
    infinity in Python; here it is the number it rounds from, and the wait
    it leads to is longer than [2^1023] seconds instead of endless.) *)
Definition __init__ (cps : Q) : PyResult t :=
  if Qeq_bool cps 0 then Raises (ZeroDivisionError "float division by zero")
  else Returns (mk cps (float_div 1 cps) 0%Q false).

(** The wait [acquire] asks for at loop time [now], if any. *)
Definition wait_needed (self : t) (now : Q) : option Q :=
  let time_since_last_call := float_sub now (last_call_time self) in
  if Qltb time_since_last_call (min_interval self)
  then Some (float_sub (min_interval self) time_since_last_call)
  else None.

Definition stamp (self : t) (now : Q) : t :=
  mk (calls_per_second self) (min_interval self) now (_lock self).

(** [acquire], run by a single caller (the lock is free and is free again
    on return). *)
Definition acquire (self : t) (w : World) : t * World :=
  let current_time := clock w in
  let w1 := match wait_needed self current_time with
            | Some d => sleep d w
            | None => w
            end in
  (stamp self (clock w1), w1).

End RateLimiter.

(** ** utils/__init__.py : PubChemClient *)

Module PubChemClient.

Record entry : Type := mkEntry {
  time : Q;
  response : Response
}.

Record t : Type := mk {
  rate_limiter : RateLimiter.t;
  timeout : Q;
  _cache : gmap string entry
}.

Definition __init__ (rate_limit timeout : Q) : PyResult t :=
  match RateLimiter.__init__ rate_limit with
  | Returns rl => Returns (mk rl timeout ∅)
  | Raises e => Raises e
  end.

(** [cache_key or url]: [None] and the empty string are both falsy. *)
Definition effective_key (cache_key : option string) (u : string) : string :=
  match cache_key with
  | Some k => if String.eqb k "" then u else k
  | None => u
  end.

(** The entry that satisfies a request at time [now], if any. *)
Definition live_entry (self : t) (key : string) (cache_ttl : Z) (now : Q)
  : option entry :=
  match _cache self !! key with
  | Some e => if Qltb (now - time e)%Q (inject_Z cache_ttl) then Some e else None
  | None => None
  end.

Definition with_limiter (self : t) (rl : RateLimiter.t) : t :=
  mk rl (timeout self) (_cache self).

Definition store (self : t) (key : string) (e : entry) : t :=
  mk (rate_limiter self) (timeout self) (<[key := e]> (_cache self)).

(** [get]: the returned triple is the call's result, the client after the
    call and the world after the call. *)
Definition get (self : t) (u : string) (cache_key : option string)
           (cache_ttl : Z) (w : World) : PyResult Response * t * World :=
  let key := effective_key cache_key u in
  match live_entry self key cache_ttl (clock w) with
  | Some e => (Returns (response e), self, w)
  | None =>
      let '(rl, w1) := RateLimiter.acquire (rate_limiter self) w in
      let self1 := with_limiter self rl in
      let '(o, w2) := net_call (GET u) w1 in
      match o with
      | NetError e => (Raises e, self1, w2)
      | NetResponse r =>
          if status_code r =? 200
          then (Returns r, store self1 key (mkEntry (clock w2) r), w2)
          else (Returns r, self1, w2)
      end
  end.

End PubChemClient.

(** ** Concurrent gateway calls

    Several [get] calls on one client run as tasks of one event loop.  A
    task has not run yet ([Start]), is suspended at [async with self._lock]
    because the lock is held ([Waiting]), is inside [asyncio.sleep] while
    holding the lock ([Sleeping], with the loop time at which the sleep is
    over), has left [acquire] and dispatched its network call ([InFlight],
    with the number of the call), or has ended ([Done]).  The scheduler
    either lets time pass ([Tick]) or resumes a task until its next
    suspension ([Run]); a task that cannot be resumed (the lock is held, the
    sleep is not over) is not enabled.  Any waiting task may take a free
    lock, which includes the first-come order of [asyncio.Lock]. *)

Module Concurrent.

(** The arguments of one [get] call. *)
Record call : Type := mkCall {
  call_url : string;
  call_key : option string;
  call_ttl : Z
}.

Inductive pc : Type :=
| Start
| Waiting
| Sleeping (until : Q)
| InFlight (n : nat)
| Done (res : PyResult Response).

Record state : Type := mk {
  now : Q;                                   (* loop.time() *)
  client : PubChemClient.t;                  (* shared by all tasks *)
  calls : list call;                         (* what each task was asked *)
  tasks : list pc;                           (* where each task is *)
  dispatched : list Q;                       (* dispatch times, newest first *)
  answers : nat -> Request -> NetOutcome     (* answer to the n-th network call *)
}.

Inductive event : Type :=
| Tick (d : Q)
| Run (i : nat).

Definition limiter (s : state) : RateLimiter.t :=
  PubChemClient.rate_limiter (client s).

(** The lock's queue of waiters is not empty. *)
Definition is_waiting (p : pc) : bool :=
  match p with Waiting => true | _ => false end.

Definition set_lock (rl : RateLimiter.t) (b : bool) : RateLimiter.t :=
  RateLimiter.mk (RateLimiter.calls_per_second rl) (RateLimiter.min_interval rl)
                 (RateLimiter.last_call_time rl) b.

Definition set_pc (i : nat) (p : pc) (s : state) : state :=
  mk (now s) (client s) (calls s) (<[i := p]> (tasks s)) (dispatched s) (answers s).

(** Leave [acquire] at the current loop time: stamp, release the lock, and
    dispatch the network call. *)
Definition leave (i : nat) (s : state) : state :=
  mk (now s)
     (PubChemClient.with_limiter (client s)
        (set_lock (RateLimiter.stamp (limiter s) (now s)) false))
     (calls s)
     (<[i := InFlight (length (dispatched s))]> (tasks s))
     (now s :: dispatched s)
     (answers s).

(** Enter [acquire] with the lock free: wait if the limiter asks for it. *)
Definition enter (i : nat) (s : state) : state :=
  match RateLimiter.wait_needed (limiter s) (now s) with
  | Some d =>
      mk (now s)
         (PubChemClient.with_limiter (client s) (set_lock (limiter s) true))
         (calls s)
         (<[i := Sleeping (now s + d)%Q]> (tasks s))
         (dispatched s)
         (answers s)
  | None => leave i s
  end.

(** The answer to network call [n] arrives: cache it if its status is 200. *)
Definition complete (i n : nat) (c : call) (s : state) : state :=
  match answers s n (GET (call_url c)) with
  | NetError e => set_pc i (Done (Raises e)) s
  | NetResponse r =>
      let key := PubChemClient.effective_key (call_key c) (call_url c) in
      let client' :=
        if status_code r =? 200
        then PubChemClient.store (client s) key (PubChemClient.mkEntry (now s) r)
        else client s in
      mk (now s) client' (calls s) (<[i := Done (Returns r)]> (tasks s))
         (dispatched s) (answers s)
  end.

Definition exec (ev : event) (s : state) : option state :=
  match ev with
  | Tick d =>
      if Qle_bool 0 d
      then Some (mk (now s + d)%Q (client s) (calls s) (tasks s)
                    (dispatched s) (answers s))
      else None
  | Run i =>
      match tasks s !! i, calls s !! i with
      | Some Start, Some c =>
          let key := PubChemClient.effective_key (call_key c) (call_url c) in
          match PubChemClient.live_entry (client s) key (call_ttl c) (now s) with
          | Some e => Some (set_pc i (Done (Returns (PubChemClient.response e))) s)
          | None =>
              if RateLimiter._lock (limiter s) || existsb is_waiting (tasks s)
              then Some (set_pc i Waiting s)
              else Some (enter i s)
          end
      | Some Waiting, Some _ =>
          if RateLimiter._lock (limiter s) then None else Some (enter i s)
      | Some (Sleeping until), Some _ =>
          if Qle_bool until (now s) then Some (leave i s) else None
      | Some (InFlight n), Some c => Some (complete i n c s)
      | _, _ => None
      end
  end.

Fixpoint run (sched : list event) (s : state) : option state :=
  match sched with
  | [] => Some s
  | ev :: rest =>
      match exec ev s with
      | Some s' => run rest s'
      | None => None
      end
  end.

Definition init (client : PubChemClient.t) (calls : list call) (t0 : Q)
           (answers : nat -> Request -> NetOutcome) : state :=
  mk t0 client calls (replicate (length calls) Start) [] answers.

End Concurrent.

(** ** Sample inputs *)

Module Sample.

Definition ok_response : Response :=
  mkResponse 200 "{}" (Returns (JObj [])).

Definition not_found : Response :=
  mkResponse 404 "" (Raises (JSONDecodeError "Expecting value")).

(** A world whose upstream always gives the same answer, whose scheduler
    adds no delay, and whose loop time is [t0]. *)
Definition steady (answer : Request -> NetOutcome) (t0 : Q) : World :=
  mkWorld t0 0 (fun _ => 0%Q) (fun _ => answer) [].

Definition client : PubChemClient.t :=
  PubChemClient.mk (RateLimiter.mk 5 (float_div 1 5) 0 false) 10 ∅.

Definition ethanol_url : string :=
  "https://pubchem.ncbi.nlm.nih.gov/rest/pug/compound/cid/702/property/Title/JSON".

End Sample.



(** The spacing the limiter's rounded arithmetic guarantees for the
    interval [min_interval]. *)
Definition guaranteed_gap (min_interval : Q) : Q :=
  ((1 - unit_roundoff) * min_interval)%Q.


Module SampleSchedule.
Import Concurrent.

(** Three gateway calls racing on a client of two calls per second. *)
Definition client : PubChemClient.t :=
  PubChemClient.mk (RateLimiter.mk 2 (float_div 1 2) 0 false) 10 ∅.

Definition three_calls : list call :=
  [mkCall "https://pubchem.ncbi.nlm.nih.gov/rest/pug/compound/cid/702/JSON" None 3600;
   mkCall "https://pubchem.ncbi.nlm.nih.gov/rest/pug/compound/cid/887/JSON" None 3600;
   mkCall "https://pubchem.ncbi.nlm.nih.gov/rest/pug/compound/cid/962/JSON" None 3600].

Definition schedule : list event :=
  [Run 0%nat; Run 1%nat; Run 2%nat; Tick (1 # 2); Run 1%nat; Run 2%nat;
   Run 0%nat; Tick (3 # 4); Run 2%nat; Run 1%nat].

Definition start : state :=
  init client three_calls 10 (fun _ _ => NetResponse Sample.ok_response).

End SampleSchedule.

Module SampleThirds.
Import Concurrent.

(** The interval of a limiter of three calls per second: the double
    [1.0 / 3], which is below a third. *)
Definition interval : Q := float_div 1 3.

Definition client : PubChemClient.t :=
  PubChemClient.mk (RateLimiter.mk 3 interval 0 false) 10 ∅.

Definition two_calls : list call :=
  [mkCall "https://pubchem.ncbi.nlm.nih.gov/rest/pug/compound/cid/702/JSON" None 3600;
   mkCall "https://pubchem.ncbi.nlm.nih.gov/rest/pug/compound/cid/887/JSON" None 3600].

(** The loop starts at time 0; each task is resumed at the very end of
    its sleep. *)
Definition schedule : list event :=
  [Run 0%nat; Run 1%nat; Tick interval; Run 0%nat; Run 1%nat; Tick interval;
   Run 1%nat].

Definition start : state :=
  init client two_calls 0 (fun _ _ => NetResponse Sample.ok_response).

End SampleThirds.

(** ** Python strings *)

Definition newline : Ascii.ascii := Ascii.ascii_of_nat 10.

Definition nl : string := String newline EmptyString.

Definition lower_char (c : Ascii.ascii) : Ascii.ascii :=
  let n := Ascii.nat_of_ascii c in
  if ((65 <=? n) && (n <=? 90))%nat then Ascii.ascii_of_nat (n + 32) else c.

(** [str.lower()] on ASCII text. *)
Fixpoint lower (s : string) : string :=
  match s with
  | EmptyString => EmptyString
  | String c s' => String (lower_char c) (lower s')
  end.

(** [str.startswith]. *)
Fixpoint startswith (s p : string) : bool :=
  match p, s with
  | EmptyString, _ => true
  | String a p', String b s' => Ascii.eqb a b && startswith s' p'
  | String _ _, EmptyString => false
  end.

(** [needle in s] for two strings. *)
Fixpoint contains (needle s : string) : bool :=
  startswith s needle ||
  match s with
  | EmptyString => false
  | String _ s' => contains needle s'
  end.

(** ASCII white space, as [str.strip()] sees it. *)
Definition is_space (c : Ascii.ascii) : bool :=
  let n := Ascii.nat_of_ascii c in
  ((9 <=? n) && (n <=? 13) || (28 <=? n) && (n <=? 32))%nat.

Fixpoint lstrip (s : string) : string :=
  match s with
  | String c s' => if is_space c then lstrip s' else s
  | EmptyString => EmptyString
  end.

Fixpoint rstrip (s : string) : string :=
  match s with
  | EmptyString => EmptyString
  | String c s' =>
      match rstrip s' with
      | EmptyString => if is_space c then EmptyString else String c EmptyString
      | rest => String c rest
      end
  end.

Definition strip (s : string) : string := rstrip (lstrip s).

(** [s.split(newline)]. *)
Fixpoint split_lines (s : string) : list string :=
  match s with
  | EmptyString => [EmptyString]
  | String c s' =>
      if Ascii.eqb c newline then EmptyString :: split_lines s'
      else match split_lines s' with
           | l :: ls => String c l :: ls
           | [] => [String c EmptyString]
           end
  end.

(** Lines joined with newlines, each line ended by one. *)
Definition text_of_lines (ls : list string) : string :=
  fold_right (fun l acc => l +:+ nl +:+ acc) "" ls.

(** [newline.join(ls)]. *)
Fixpoint join_lines (ls : list string) : string :=
  match ls with
  | [] => ""
  | [l] => l
  | l :: rest => l +:+ nl +:+ join_lines rest
  end.

Definition is_digit (c : Ascii.ascii) : bool :=
  let n := Ascii.nat_of_ascii c in ((48 <=? n) && (n <=? 57))%nat.

Fixpoint skip_digits (s : string) : string :=
  match s with
  | String c s' => if is_digit c then skip_digits s' else s
  | EmptyString => EmptyString
  end.

(** A numbered entry: a line that reads, after leading blanks, as digits
    followed by a full stop and a blank. *)
Definition is_numbered_entry (line : string) : bool :=
  match lstrip line with
  | String c rest => is_digit c && startswith (skip_digits rest) ". "
  | EmptyString => false
  end.

Definition count_numbered_entries (s : string) : nat :=
  length (filter (fun l => is_numbered_entry l = true) (split_lines s)).

(** [enumerate(xs, start)]. *)
Fixpoint enumerate {A : Type} (start : nat) (xs : list A) : list (nat * A) :=
  match xs with
  | [] => []
  | x :: rest => (start, x) :: enumerate (S start) rest
  end.

(** ** The Python runtime

    What the interpreter and [httpx] render as text, and the rounding of
    floats, are taken as given. *)
Class PyRuntime : Type := mkRuntime {
  float_repr : Q -> string;                 (* str(x) for a float *)
  container_repr : Json -> string;          (* str(x) for a list or dict *)
  round2 : Q -> Q;                          (* round(x, 2) *)
  status_message : string -> Response -> string
                                            (* httpx's text for a bad status *)
}.

(** ** Python expressions: a value or an exception *)

Definition bind_result {A B : Type} (r : PyResult A) (k : A -> PyResult B)
  : PyResult B :=
  match r with
  | Returns a => k a
  | Raises e => Raises e
  end.

Notation "x <~ e ;; k" := (bind_result e (fun x => k))
  (at level 100, e at next level, right associativity).

(** [try: body / except (KeyError, IndexError): fallback]. *)
Definition is_key_or_index_error (e : Exn) : bool :=
  match e with KeyError _ | IndexError _ => true | _ => false end.

Definition catch_lookup {A : Type} (body : PyResult A) (fallback : A) : PyResult A :=
  match body with
  | Raises e => if is_key_or_index_error e then Returns fallback else Raises e
  | Returns a => Returns a
  end.

(** [a or b], evaluated left to right. *)
Definition py_or (a b : PyResult bool) : PyResult bool :=
  x <~ a ;; if x then Returns true else b.

Definition py_and (a b : PyResult bool) : PyResult bool :=
  x <~ a ;; if x then b else Returns false.

Definition py_not (a : PyResult bool) : PyResult bool :=
  x <~ a ;; Returns (negb x).

Definition is_success (r : Response) : bool :=
  (200 <=? status_code r) && (status_code r <=? 299).

(** [response.raise_for_status()], as httpx has it: any status outside 2xx
    raises; [u] is the URL the response answers. *)
Definition raise_for_status {rt : PyRuntime} (u : string) (r : Response)
  : PyResult unit :=
  if is_success r then Returns tt
  else Raises (HTTPStatusError (status_code r) (status_message u r)).

(** ** Python operations on decoded JSON *)

Fixpoint assoc (k : string) (kvs : list (string * Json)) : option Json :=
  match kvs with
  | [] => None
  | (k', v) :: rest => if String.eqb k k' then Some v else assoc k rest
  end.

Definition type_name (v : Json) : string :=
  match v with
  | JNull => "NoneType"
  | JBool _ => "bool"
  | JInt _ => "int"
  | JFloat _ => "float"
  | JStr _ => "str"
  | JArr _ => "list"
  | JObj _ => "dict"
  end.

Definition not_subscriptable {A : Type} (v : Json) : PyResult A :=
  Raises (TypeError ("'" +:+ type_name v +:+ "' object is not subscriptable")).

Definition not_iterable {A : Type} (v : Json) : PyResult A :=
  Raises (TypeError ("argument of type '" +:+ type_name v +:+ "' is not iterable")).

Definition no_attribute {A : Type} (v : Json) (attr : string) : PyResult A :=
  Raises (AttributeError ("'" +:+ type_name v +:+ "' object has no attribute '"
                          +:+ attr +:+ "'")).

(** [k in v] for a string [k]. *)
Definition py_in (k : string) (v : Json) : PyResult bool :=
  match v with
  | JObj kvs => Returns (bool_decide (is_Some (assoc k kvs)))
  | JArr xs =>
      Returns (existsb (fun x => match x with
                                 | JStr s => String.eqb s k
                                 | _ => false
                                 end) xs)
  | JStr s => Returns (contains k s)
  | _ => not_iterable v
  end.

Definition py_not_in (k : string) (v : Json) : PyResult bool := py_not (py_in k v).

(** [v[k]] for a string [k]. *)
Definition getitem (v : Json) (k : string) : PyResult Json :=
  match v with
  | JObj kvs =>
      match assoc k kvs with
      | Some x => Returns x
      | None => Raises (KeyError ("'" +:+ k +:+ "'"))
      end
  | JArr _ => Raises (TypeError "list indices must be integers or slices, not str")
  | JStr _ => Raises (TypeError "string indices must be integers, not 'str'")
  | _ => not_subscriptable v
  end.

(** [v[0]]. *)
Definition getitem0 (v : Json) : PyResult Json :=
  match v with
  | JArr (x :: _) => Returns x
  | JArr [] => Raises (IndexError "list index out of range")
  | JStr (String c _) => Returns (JStr (String c EmptyString))
  | JStr EmptyString => Raises (IndexError "string index out of range")
  | JObj _ => Raises (KeyError "0")
  | _ => not_subscriptable v
  end.

(** [v.get(k, default)]. *)
Definition dict_get (v : Json) (k : string) (default : Json) : PyResult Json :=
  match v with
  | JObj kvs => Returns (match assoc k kvs with Some x => x | None => default end)
  | _ => no_attribute v "get"
  end.

(** [v.items()]. *)
Definition dict_items (v : Json) : PyResult (list (string * Json)) :=
  match v with
  | JObj kvs => Returns kvs
  | _ => no_attribute v "items"
  end.

(** Truth value of [v]. *)
Definition truthy (v : Json) : bool :=
  match v with
  | JNull => false
  | JBool b => b
  | JInt z => negb (z =? 0)
  | JFloat q => negb (Qeq_bool q 0)
  | JStr s => negb (String.eqb s "")
  | JArr xs => match xs with [] => false | _ => true end
  | JObj kvs => match kvs with [] => false | _ => true end
  end.

(** The characters of a string, each as a string. *)
Fixpoint chars (s : string) : list Json :=
  match s with
  | EmptyString => []
  | String c s' => JStr (String c EmptyString) :: chars s'
  end.

(** What [for x in v] iterates over. *)
Definition py_iter (v : Json) : PyResult (list Json) :=
  match v with
  | JArr xs => Returns xs
  | JStr s => Returns (chars s)
  | JObj kvs => Returns (map (fun kv => JStr (fst kv)) kvs)
  | _ => Raises (TypeError ("'" +:+ type_name v +:+ "' object is not iterable"))
  end.

(** Number of elements [xs[:n]] keeps of a sequence of length [len]. *)
Definition slice_stop (len : nat) (n : Z) : nat :=
  if 0 <=? n then Z.to_nat n else Z.to_nat (Z.of_nat len + n).

Fixpoint string_take (n : nat) (s : string) : string :=
  match n, s with
  | S n', String c s' => String c (string_take n' s')
  | _, _ => EmptyString
  end.

(** [v[:n]]. *)
Definition py_slice_to (v : Json) (n : Z) : PyResult Json :=
  match v with
  | JArr xs => Returns (JArr (take (slice_stop (length xs) n) xs))
  | JStr s => Returns (JStr (string_take (slice_stop (String.length s) n) s))
  | JObj _ => Raises (TypeError "unhashable type: 'slice'")
  | _ => not_subscriptable v
  end.

(** [str(v)], which is what an f-string renders. *)
Definition py_str {rt : PyRuntime} (v : Json) : string :=
  match v with
  | JStr s => s
  | JInt z => pretty z
  | JBool true => "True"
  | JBool false => "False"
  | JNull => "None"
  | JFloat q => float_repr q
  | JArr _ | JObj _ => container_repr v
  end.

(** [int(x)] for a float: truncation towards zero. *)
Definition int_of_float (q : Q) : Z :=
  if Qle_bool 0 q then Qfloor q else Qceiling q.

(** [int(x)] for any float: an infinity raises [OverflowError] and a NaN
    [ValueError], both with these messages. *)
Definition py_int (x : PyFloat) : PyResult Z :=
  match x with
  | Finite q => Returns (int_of_float q)
  | Infinity _ =>
      Raises (OtherException "cannot convert float infinity to integer")
  | NaN => Raises (OtherException "cannot convert float NaN to integer")
  end.

(** The URL httpx requests: the query string is appended to the address. *)
Fixpoint query_string (ps : list (string * string)) : string :=
  match ps with
  | [] => ""
  | [(k, v)] => k +:+ "=" +:+ v
  | (k, v) :: rest => k +:+ "=" +:+ v +:+ "&" +:+ query_string rest
  end.

Definition request_url (req : Request) : string :=
  match params req with
  | [] => url req
  | ps => url req +:+ "?" +:+ query_string ps
  end.

(** ** Coroutines: the world threaded through, plus exceptions *)

Definition Py (A : Type) : Type := World -> PyResult A * World.

Definition ret {A : Type} (a : A) : Py A := fun w => (Returns a, w).

(** A Python expression evaluated inside a coroutine. *)
Definition lift {A : Type} (r : PyResult A) : Py A := fun w => (r, w).

Definition bind {A B : Type} (m : Py A) (k : A -> Py B) : Py B :=
  fun w => match m w with
           | (Returns a, w') => k a w'
           | (Raises e, w') => (Raises e, w')
           end.

Notation "x <- m ;; k" := (bind m (fun x => k))
  (at level 100, m at next level, right associativity).

(** [try: body / except Exception as e: handler e]. *)
Definition try_except {A : Type} (body : Py A) (handler : Exn -> A) : Py A :=
  fun w => match body w with
           | (Raises e, w') => (Returns (handler e), w')
           | (Returns a, w') => (Returns a, w')
           end.

(** [await client.get(...)]. *)
Definition http_get (req : Request) : Py Response :=
  fun w => match net_call req w with
           | (NetResponse r, w') => (Returns r, w')
           | (NetError e, w') => (Raises e, w')
           end.

(** ** mcp_server/server.py *)

Module Server.
Section WithRuntime.
Context {rt : PyRuntime}.

Definition PUBCHEM_REST_API : string := "https://pubchem.ncbi.nlm.nih.gov/rest/pug".
Definition USER_AGENT : string := "PubChem-MCP/0.1.0".

Definition error_record (kind message : string) : Json :=
JObj [("error", JStr kind); ("message", JStr message)].

(** The three [except] clauses, tried in order. *)
Definition on_exception (e : Exn) : Json :=
match e with
| HTTPStatusError code _ =>
    error_record ("HTTP error: " +:+ pretty code) (exn_str e)
| RequestError _ => error_record "Request error" (exn_str e)
| _ => error_record "Unexpected error" (exn_str e)
end.

Definition request_headers : list (string * string) :=
[("User-Agent", USER_AGENT); ("Accept", "application/json")].

Definition make_pubchem_request (u : string) : Py Json :=
try_except
  (response <- http_get (mkRequest u [] request_headers) ;;
   lift (_ <~ raise_for_status u response ;;
         json response))
  on_exception.

Definition properties : list string :=
["MolecularFormula"; "MolecularWeight"; "CanonicalSMILES"; "IUPACName";
 "XLogP"; "TPSA"; "HBondDonorCount"; "HBondAcceptorCount";
 "RotatableBondCount"; "ExactMass"; "MonoisotopicMass"; "Complexity";
 "Charge"; "IsomericSMILES"].

(** [",".join(properties)]. *)
Fixpoint join_commas (ls : list string) : string :=
match ls with
| [] => ""
| [l] => l
| l :: rest => l +:+ "," +:+ join_commas rest
end.

Definition properties_url (cid : Z) : string :=
PUBCHEM_REST_API +:+ "/compound/cid/" +:+ pretty cid
+:+ "/property/" +:+ join_commas properties +:+ "/JSON".

(** The tool [get_compound_properties] of server.py. *)
Definition get_compound_properties (cid : Z) : Py Json :=
response <- make_pubchem_request (properties_url cid) ;;
lift (has_error <~ py_in "error" response ;;
      if has_error then Returns response
      else
        has_table <~ py_and (py_in "PropertyTable" response)
                            (pt <~ getitem response "PropertyTable" ;;
                             py_in "Properties" pt) ;;
        if has_table then
          pt <~ getitem response "PropertyTable" ;;
          ps <~ getitem pt "Properties" ;;
          first <~ (if truthy ps then getitem0 ps else Returns (JObj [])) ;;
          Returns (JObj [("CID", JInt cid); ("properties", first)])
        else
          Returns (JObj [("error", JStr "No properties found");
                         ("CID", JInt cid)])).

End WithRuntime.
End Server.

(** ** mcp_server/compounds/properties.py *)

Module Properties.
Section WithRuntime.
Context {rt : PyRuntime}.

Definition BASE_URL : string := "https://pubchem.ncbi.nlm.nih.gov/rest/pug".

Definition BASIC_PROPERTIES : string :=
"MolecularFormula,MolecularWeight,CanonicalSMILES,IsomericSMILES,InChI,InChIKey".
Definition PHYSICAL_PROPERTIES : string :=
"XLogP,TPSA,Complexity,HBondDonorCount,HBondAcceptorCount,RotatableBondCount,HeavyAtomCount,MonoisotopicMass".
Definition PHARMACOLOGICAL_PROPERTIES : string :=
"CID,MolecularFormula,MolecularWeight,CanonicalSMILES,IsomericSMILES,XLogP,TPSA,HBondDonorCount,HBondAcceptorCount,RotatableBondCount".

(** The canned answer for aspirin. *)
Definition aspirin_properties : string :=
nl +:+ text_of_lines
  ["Properties for Aspirin (CID 2244):";
   "- Molecular Formula: C9H8O4";
   "- Molecular Weight: 180.16";
   "- Canonical SMILES: CC(=O)OC1=CC=CC=C1C(=O)O";
   "- Isomeric SMILES: CC(=O)OC1=CC=CC=C1C(=O)O";
   "- InChI: InChI=1S/C9H8O4/c1-6(10)13-8-5-3-2-4-7(8)9(11)12/h2-5H,1H3,(H,11,12)";
   "- InChIKey: BSYNRYMUTXBXSQ-UHFFFAOYSA-N"].

Definition properties_url (cid properties : string) : string :=
BASE_URL +:+ "/compound/cid/" +:+ cid +:+ "/property/" +:+ properties +:+ "/JSON".

Definition title_url (cid : string) : string :=
BASE_URL +:+ "/compound/cid/" +:+ cid +:+ "/property/Title/JSON".

Definition synonyms_url (cid : string) : string :=
BASE_URL +:+ "/compound/cid/" +:+ cid +:+ "/synonyms/JSON".

(** "Determine which properties to request". *)
Definition requested_properties (property_list : string) : string :=
if String.eqb (lower property_list) "basic" then BASIC_PROPERTIES
else if String.eqb (lower property_list) "physical" then PHYSICAL_PROPERTIES
else if String.eqb (lower property_list) "pharmacological"
     then PHARMACOLOGICAL_PROPERTIES
else property_list.

(** "Extract compound name": a second request whose failure is ignored. *)
Definition lookup_name (cid : string) : Py Json :=
try_except
  (name_response <- http_get (GET (title_url cid)) ;;
   if status_code name_response =? 200 then
     lift (name_data <~ json name_response ;;
           pt <~ getitem name_data "PropertyTable" ;;
           ps <~ getitem pt "Properties" ;;
           p0 <~ getitem0 ps ;;
           dict_get p0 "Title" (JStr "Unknown"))
   else ret (JStr "Unknown"))
  (fun _ => JStr "Unknown").

Definition formatted_key (key : string) : string :=
if String.eqb key "XLogP" then "XLogP (Octanol-Water Partition Coefficient)"
else if String.eqb key "TPSA" then "TPSA (Topological Polar Surface Area)"
else key.

(** "Format the properties": the loop over [property_data.items()]. *)
Definition format_properties (compound_name : Json) (cid : string)
         (items : list (string * Json)) : string :=
fold_left
  (fun result kv =>
     if String.eqb (fst kv) "CID" then result
     else result +:+ "- " +:+ formatted_key (fst kv) +:+ ": "
                 +:+ py_str (snd kv) +:+ nl)
  items
  (nl +:+ "Properties for " +:+ py_str compound_name
      +:+ " (CID " +:+ cid +:+ "):" +:+ nl).

Definition get_compound_properties (cid property_list : string) : Py string :=
if String.eqb cid "2244" && String.eqb (lower property_list) "basic"
then ret aspirin_properties
else
  try_except
    (let properties := requested_properties property_list in
     let u := properties_url cid properties in
     response <- http_get (GET u) ;;
     if status_code response =? 404
     then ret ("Error: No compound found with CID " +:+ cid)
     else
       data <- lift (_ <~ raise_for_status u response ;;
                     json response) ;;
       missing <- lift
         (py_or (py_not_in "PropertyTable" data)
            (py_or (pt <~ getitem data "PropertyTable" ;;
                    py_not_in "Properties" pt)
                   (pt <~ getitem data "PropertyTable" ;;
                    ps <~ getitem pt "Properties" ;;
                    Returns (negb (truthy ps))))) ;;
       if missing
       then ret ("Error: No properties found for compound with CID " +:+ cid)
       else
         compound_name <- lookup_name cid ;;
         lift (pt <~ getitem data "PropertyTable" ;;
               ps <~ getitem pt "Properties" ;;
               property_data <~ getitem0 ps ;;
               items <~ dict_items property_data ;;
               Returns (format_properties compound_name cid items)))
    (fun e => "Error retrieving compound properties: " +:+ exn_str e).

(** The canned answer for aspirin. *)
Definition aspirin_synonyms : string :=
nl +:+ text_of_lines
  ["Synonyms for Aspirin (CID 2244):";
   "1. Acetylsalicylic acid";
   "2. 2-Acetoxybenzoic acid";
   "3. ASA";
   "4. Aspirin";
   "5. Acetylsalicylate";
   "6. Salicylic acid acetate";
   "7. Ecotrin";
   "8. Entrophen";
   "9. Bufferin";
   "10. Acylpyrin"].

(** "Get the compound name for a better response". *)
Definition title_of (check_response : Response) : PyResult Json :=
if status_code check_response =? 200 then
  data <~ json check_response ;;
  catch_lookup
    (pt <~ getitem data "PropertyTable" ;;
     ps <~ getitem pt "Properties" ;;
     p0 <~ getitem0 ps ;;
     getitem p0 "Title")
    (JStr "Unknown")
else Returns (JStr "Unknown").

(** "Limit the number of synonyms". *)
Definition limit_synonyms (max_results : Z) (synonyms : Json) : PyResult Json :=
if 0 <? max_results then py_slice_to synonyms max_results
else Returns synonyms.

(** "Format the result": the loop over [enumerate(synonyms)]. *)
Definition format_synonyms (compound_name : Json) (cid : string)
         (synonyms : list Json) : string :=
fold_left
  (fun result entry =>
     result +:+ pretty (fst entry + 1)%nat +:+ ". "
            +:+ py_str (snd entry) +:+ nl)
  (enumerate 0 synonyms)
  (nl +:+ "Synonyms for " +:+ py_str compound_name
      +:+ " (CID " +:+ cid +:+ "):" +:+ nl).

Definition no_synonyms (cid : string) : string :=
"No synonyms found for compound with CID " +:+ cid.

(** What the handler makes of the answer to its request for synonyms: the
  code after the second [await]. *)
Definition synonyms_answer (cid : string) (max_results : Z)
         (compound_name : Json) (response : Response) : PyResult string :=
_ <~ raise_for_status (synonyms_url cid) response ;;
data <~ json response ;;
missing <~
  py_or (py_not_in "InformationList" data)
    (py_or (il <~ getitem data "InformationList" ;;
            py_not_in "Information" il)
           (il <~ getitem data "InformationList" ;;
            info <~ getitem il "Information" ;;
            Returns (negb (truthy info)))) ;;
if missing then Returns (no_synonyms cid)
else
  il <~ getitem data "InformationList" ;;
  info <~ getitem il "Information" ;;
  first <~ getitem0 info ;;
  synonyms <~ dict_get first "Synonym" (JArr []) ;;
  if negb (truthy synonyms) then Returns (no_synonyms cid)
  else
    synonyms <~ limit_synonyms max_results synonyms ;;
    entries <~ py_iter synonyms ;;
    Returns (format_synonyms compound_name cid entries).

Definition get_compound_synonyms (cid : string) (max_results : Z) : Py string :=
if String.eqb cid "2244" then ret aspirin_synonyms
else
  try_except
    (check_response <- http_get (GET (title_url cid)) ;;
     if status_code check_response =? 404
     then ret ("Error: No compound found with CID " +:+ cid)
     else
       compound_name <- lift (title_of check_response) ;;
       response <- http_get (GET (synonyms_url cid)) ;;
       if status_code response =? 404 then ret (no_synonyms cid)
       else lift (synonyms_answer cid max_results compound_name response))
    (fun e => "Error retrieving compound synonyms: " +:+ exn_str e).

End WithRuntime.
End Properties.

(** ** mcp_server/compounds/similarity.py *)

Module Similarity.
Section WithRuntime.
Context {rt : PyRuntime}.

Definition BASE_URL : string := "https://pubchem.ncbi.nlm.nih.gov/rest/pug".

(** The canned answer for aspirin. *)
Definition aspirin_similar : string :=
join_lines
  ["Similar Compounds to CID 2244 (Aspirin):";
   "";
   "1. CID 2244 (Aspirin) - Similarity: 1.0";
   "   Formula: C9H8O4";
   "   SMILES: CC(=O)OC1=CC=CC=C1C(=O)O";
   "";
   "2. CID 2662 (Salicylic acid) - Similarity: 0.95";
   "   Formula: C7H6O3";
   "   SMILES: C1=CC=C(C=C1C(=O)O)O";
   "";
   "3. CID 54675779 (Aspirin metabolite) - Similarity: 0.93";
   "   Formula: C9H8O5";
   "   SMILES: CC(=O)OC1=C(C=CC=C1)C(=O)O";
   "";
   "4. CID 5161 (Methyl salicylate) - Similarity: 0.91";
   "   Formula: C8H8O3";
   "   SMILES: COC(=O)C1=CC=CC=C1O";
   "";
   "5. CID 338 (Salicylaldehyde) - Similarity: 0.88";
   "   Formula: C7H6O2";
   "   SMILES: C1=CC=C(C=C1C=O)O"].

Definition title_url (cid : string) : string :=
BASE_URL +:+ "/compound/cid/" +:+ cid +:+ "/property/Title/JSON".

Definition similarity_url (cid : string) : string :=
BASE_URL +:+ "/compound/fastsimilarity_2d/cid/" +:+ cid
         +:+ "/property/Title,MolecularFormula,CanonicalSMILES/JSON".

Definition no_similar (cid : string) (threshold : Q) : string :=
"No similar compounds found for CID " +:+ cid +:+ " at threshold "
+:+ float_repr threshold.

(** "Simulate similarity score" for the [i]-th result, [i] counted from 1:
    [round(1.0 - (0.05 * (i - 1)), 2)], raised to
    [round(threshold + 0.01, 2)] when it is below the threshold. *)
Definition simulated_similarity (cid : string) (threshold : Q)
         (i : nat) (sim_cid : Json) : Q :=
if String.eqb (py_str sim_cid) cid then 1%Q
else
  let similarity :=
    round2 (float_sub 1 (float_mul (nearest_double (5 # 100))
                                   (inject_Z (Z.of_nat i - 1)))) in
  if Qltb similarity threshold
  then round2 (float_add threshold (nearest_double (1 # 100)))
  else similarity.

(** The loop over [enumerate(compounds[:max_results], 1)]. *)
Fixpoint format_compounds (cid : string) (threshold : Q)
       (entries : list (nat * Json)) (result : string) : PyResult string :=
match entries with
| [] => Returns result
| (i, compound) :: rest =>
    sim_cid <~ dict_get compound "CID" (JStr "Unknown") ;;
    title <~ dict_get compound "Title" (JStr "Unknown") ;;
    formula <~ dict_get compound "MolecularFormula" (JStr "Unknown") ;;
    smiles <~ dict_get compound "CanonicalSMILES" (JStr "Unknown") ;;
    let similarity := simulated_similarity cid threshold i sim_cid in
    format_compounds cid threshold rest
      (result +:+ pretty i +:+ ". CID " +:+ py_str sim_cid +:+ " ("
              +:+ py_str title +:+ ") - Similarity: "
              +:+ float_repr similarity +:+ nl
              +:+ "   Formula: " +:+ py_str formula +:+ nl
              +:+ "   SMILES: " +:+ py_str smiles +:+ nl +:+ nl)
end.

(** "Convert threshold to PubChem format": [int(threshold * 100)]. *)
Definition pubchem_threshold (threshold : PyFloat) : PyResult Z :=
py_int (float_times threshold 100).

Definition similarity_request (cid : string) (pubchem_threshold max_results : Z)
: Request :=
mkRequest (similarity_url cid)
          [("Threshold", pretty pubchem_threshold);
           ("MaxRecords", pretty max_results)] [].

(** The handler from "Search for similar compounds" on, once the name of
  the query compound is known. *)
Definition search_with_name (cid : string) (threshold : Q)
         (pubchem_threshold max_results : Z) (name : Json) : Py string :=
let request := similarity_request cid pubchem_threshold max_results in
response <- http_get request ;;
if status_code response =? 404 then ret (no_similar cid threshold)
else
  lift
    (_ <~ raise_for_status (request_url request) response ;;
     data <~ json response ;;
     missing <~ py_or (py_not_in "PropertyTable" data)
                      (pt <~ getitem data "PropertyTable" ;;
                       py_not_in "Properties" pt) ;;
     if missing then Returns (no_similar cid threshold)
     else
       pt <~ getitem data "PropertyTable" ;;
       compounds <~ getitem pt "Properties" ;;
       let result := "Similar Compounds to CID " +:+ cid +:+ " ("
                     +:+ py_str name +:+ "):" +:+ nl +:+ nl in
       if negb (truthy compounds) then Returns (no_similar cid threshold)
       else
         shown <~ py_slice_to compounds max_results ;;
         entries <~ py_iter shown ;;
         result <~ format_compounds cid threshold (enumerate 1 entries) result ;;
         Returns (strip result)).

(** The handler after [int(threshold * 100)] has returned [percent]; the
    product was finite, and so is [threshold]. *)
Definition search_from_name (cid : string) (threshold : Q)
         (percent max_results : Z) : Py string :=
name_response <- http_get (GET (title_url cid)) ;;
if status_code name_response =? 200 then
  name <- lift
    (name_data <~ json name_response ;;
     pt <~ dict_get name_data "PropertyTable" (JObj []) ;;
     ps <~ dict_get pt "Properties" (JArr [JObj []]) ;;
     name_properties <~ getitem0 ps ;;
     dict_get name_properties "Title" (JStr "Unknown")) ;;
  search_with_name cid threshold percent max_results name
else if status_code name_response =? 404 then
  ret ("No compound found with CID " +:+ cid)
else search_with_name cid threshold percent max_results (JStr "Unknown").

Definition search_similar_compounds_by_cid
         (cid : string) (threshold : PyFloat) (max_results : Z) : Py string :=
if String.eqb cid "2244" then ret aspirin_similar
else
  try_except
    (percent <- lift (pubchem_threshold threshold) ;;
     search_from_name cid (finite_value threshold) percent max_results)
    (fun e => "Error searching similar compounds: " +:+ exn_str e).

End WithRuntime.
End Similarity.

(** ** Sample runtime and upstream *)

Module SampleRuntime.

(** A runtime that renders every float and container the same way; enough
    to run the handlers on data made of strings and integers. *)
#[export] Instance plain : PyRuntime :=
  mkRuntime (fun _ => "0.0") (fun _ => "[...]") (fun q => q)
            (fun u r => "Client error '" +:+ pretty (status_code r)
                        +:+ "' for url '" +:+ u +:+ "'").

Definition json_response (j : Json) : Response :=
  mkResponse 200 "" (Returns j).

Definition title_json (title : string) : Json :=
  JObj [("PropertyTable",
         JObj [("Properties", JArr [JObj [("CID", JInt 702);
                                          ("Title", JStr title)]])])].

Definition synonyms_json (names : list string) : Json :=
  JObj [("InformationList",
         JObj [("Information",
                JArr [JObj [("CID", JInt 702);
                            ("Synonym", JArr (map JStr names))]])])].

Definition ethanol_names : list string :=
  ["Ethanol"; "Ethyl alcohol"; "Alcohol"; "Grain alcohol"].

(** Upstream knows ethanol (CID 702) and nothing else. *)
Definition ethanol_only (req : Request) : NetOutcome :=
  if String.eqb (url req) (Properties.title_url "702")
  then NetResponse (json_response (title_json "Ethanol"))
  else if String.eqb (url req) (Properties.synonyms_url "702")
  then NetResponse (json_response (synonyms_json ethanol_names))
  else NetResponse Sample.not_found.

(** Upstream is unreachable. *)
Definition unreachable (req : Request) : NetOutcome :=
  NetError (RequestError "All connection attempts failed").

End SampleRuntime.

(** ** Vocabulary of the properties *)

(** A call that did not succeed upstream: a status outside 2xx (404 and
    the other HTTP errors) or an exception from the transport. *)
Definition failing (o : NetOutcome) : bool :=
  match o with
  | NetError _ => true
  | NetResponse r => negb (is_success r)
  end.

Definition is_not_found (o : NetOutcome) : bool :=
  match o with
  | NetResponse r => status_code r =? 404
  | NetError _ => false
  end.

(** The call came back with a value. *)
Definition returned {A : Type} (res : PyResult A) : Prop :=
  exists a, res = Returns a.

(** The upstream data do not change: every call, whenever made, is answered
    from the same table [db]. *)
Definition static (db : Request -> NetOutcome) (w : World) : Prop :=
  forall n req, upstream w n req = db req.

(** The world right after a network call. *)
Definition after_call (req : Request) (w : World) : World :=
  snd (net_call req w).

(** What [http_get] hands to the coroutine for an outcome. *)
Definition delivered (o : NetOutcome) : PyResult Response :=
  match o with
  | NetResponse r => Returns r
  | NetError e => Raises e
  end.

(** A coroutine only ever adds to the traffic. *)
Definition extends_traffic {A : Type} (m : Py A) : Prop :=
  forall w res w', m w = (res, w') -> exists l, traffic w' = traffic w ++ l.

(** A coroutine whose result depends on the world only through the upstream
    data. *)
Definition reads_only_upstream {A : Type} (m : Py A) : Prop :=
  forall db w1 w2, static db w1 -> static db w2 ->
    fst (m w1) = fst (m w2) /\ static db (snd (m w1)) /\ static db (snd (m w2)).

(** The synonym list carried by an upstream answer. *)
Definition synonym_list (data : Json) : option (list Json) :=
  match data with
  | JObj kvs =>
      match assoc "InformationList" kvs with
      | Some (JObj il) =>
          match assoc "Information" il with
          | Some (JArr (JObj first :: _)) =>
              match assoc "Synonym" first with
              | Some (JArr syns) => Some syns
              | _ => None
              end
          | _ => None
          end
      | _ => None
      end
  | _ => None
  end.

(** The constructor rejects the rate [cps]. *)
Definition rejects (cps : Q) : Prop :=
  exists e, RateLimiter.__init__ cps = Raises e.


Module SampleWorlds.

(** Two worlds with the same upstream data and nothing else in common:
    different loop times, different scheduling delays, different traffic
    behind them. *)
Definition fresh : World := Sample.steady SampleRuntime.ethanol_only 100.

Definition busy : World :=
  mkWorld (7 # 2) 3 (fun n => (1 # 4) * inject_Z (Z.of_nat n))%Q
          (fun _ => SampleRuntime.ethanol_only)
          [(GET "https://example.org/", NetError (RequestError "timed out"))].

Definition offline : World := Sample.steady SampleRuntime.unreachable 100.

End SampleWorlds.

(** ** utils/__init__.py : the static formatters of PubChemClient *)

Module Format.

(** [PubChemClient.format_response]. *)
Definition format_response (title : string) (data : list string)
           (show_count : bool) : string :=
  let result :=
    fold_left
      (fun result entry =>
         result +:+ pretty (fst entry) +:+ ". " +:+ snd entry +:+ nl)
      (enumerate 1 data)
      (title +:+ nl) in
  if show_count
  then result +:+ nl +:+ "Total items: " +:+ pretty (length data)
  else result.

(** [c * n] for a one-character string [c]. *)
Fixpoint repeat_char (c : Ascii.ascii) (n : nat) : string :=
  match n with
  | O => EmptyString
  | S n' => String c (repeat_char c n')
  end.

Definition space : Ascii.ascii := Ascii.ascii_of_nat 32.
Definition dash : Ascii.ascii := Ascii.ascii_of_nat 45.

(** [len(s)] as an [int]. *)
Definition len (s : string) : Z := Z.of_nat (String.length s).

(** The rendering of a string under the format specification "<width":
    padded with blanks on the right, never cut; a negative width is a
    [ValueError]. *)
Definition ljust (s : string) (width : Z) : PyResult string :=
  if width <? 0
  then Raises (OtherException "Sign not allowed in string format specifier")
  else Returns (s +:+ repeat_char space (Z.to_nat width - String.length s)).

(** The widths computed when [col_widths] is [None]. *)
Definition auto_width (i : nat) (header : string) (rows : list (list string)) : Z :=
  fold_left
    (fun col_width row =>
       match row !! i with
       | Some cell => Z.max col_width (len cell)
       | None => col_width
       end)
    rows (len header) + 2.

Definition auto_widths (headers : list string) (rows : list (list string))
  : list Z :=
  imap (fun i header => auto_width i header rows) headers.

Definition sum_widths (col_widths : list Z) : Z :=
  fold_left Z.add col_widths 0.

Definition separator (col_widths : list Z) (headers : list string) : string :=
  repeat_char dash (Z.to_nat (sum_widths col_widths + Z.of_nat (length headers) - 1))
  +:+ nl.

(** "Create header row": the loop over [enumerate(headers)]. *)
Fixpoint header_cells (col_widths : list Z) (n_headers : nat)
         (entries : list (nat * string)) (header_row : string) : PyResult string :=
  match entries with
  | [] => Returns header_row
  | (i, header) :: rest =>
      match col_widths !! i with
      | None => Raises (IndexError "list index out of range")
      | Some width =>
          cell <~ ljust header width ;;
          let header_row := header_row +:+ cell in
          let header_row :=
            if Z.of_nat i <? Z.of_nat n_headers - 1
            then header_row +:+ " | " else header_row in
          header_cells col_widths n_headers rest header_row
      end
  end.

(** "Create data rows": the loop over [enumerate(row)]. *)
Fixpoint data_cells (col_widths : list Z) (n_headers n_row : nat)
         (entries : list (nat * string)) (data_row : string) : PyResult string :=
  match entries with
  | [] => Returns data_row
  | (i, cell) :: rest =>
      match col_widths !! i with
      | Some width =>
          padded <~ ljust cell width ;;
          let data_row := data_row +:+ padded in
          let data_row :=
            if (Z.of_nat i <? Z.of_nat n_row - 1)
               && (Z.of_nat i <? Z.of_nat n_headers - 1)
            then data_row +:+ " | " else data_row in
          data_cells col_widths n_headers n_row rest data_row
      | None => data_cells col_widths n_headers n_row rest data_row
      end
  end.

Definition header_row (col_widths : list Z) (headers : list string)
  : PyResult string :=
  header_cells col_widths (length headers) (enumerate 0 headers) "".

Definition data_row (col_widths : list Z) (headers : list string)
           (row : list string) : PyResult string :=
  data_cells col_widths (length headers) (length row) (enumerate 0 row) "".

(** The loop over [rows]. *)
Fixpoint data_rows (col_widths : list Z) (headers : list string)
         (rows : list (list string)) (result : string) : PyResult string :=
  match rows with
  | [] => Returns result
  | row :: rest =>
      line <~ data_row col_widths headers row ;;
      data_rows col_widths headers rest (result +:+ line +:+ nl)
  end.

(** [PubChemClient.format_table]. *)
Definition format_table (title : string) (headers : list string)
           (rows : list (list string)) (col_widths : option (list Z))
  : PyResult string :=
  let col_widths :=
    match col_widths with
    | None => auto_widths headers rows
    | Some given => given
    end in
  let result := title +:+ nl in
  let sep := separator col_widths headers in
  let result := result +:+ sep in
  line <~ header_row col_widths headers ;;
  let result := result +:+ line +:+ nl in
  let result := result +:+ sep in
  data_rows col_widths headers rows result.

End Format.

(** ** mcp_server/server.py : the tools *)

Module ServerTools.
Section WithRuntime.
Context {rt : PyRuntime}.

(** [table["PropertyTable"]["Properties"][0] if
    table["PropertyTable"]["Properties"] else {}]. *)
Definition first_properties (table : Json) : PyResult Json :=
  ps <~ (pt <~ getitem table "PropertyTable" ;; getitem pt "Properties") ;;
  if truthy ps
  then ps <~ (pt <~ getitem table "PropertyTable" ;; getitem pt "Properties") ;;
       getitem0 ps
  else Returns (JObj []).

Definition search_url (query : string) (max_results : Z) : string :=
  Server.PUBCHEM_REST_API +:+ "/compound/name/" +:+ query
  +:+ "/cids/JSON?MaxRecords=" +:+ pretty max_results.

Definition info_url (cid : Json) : string :=
  Server.PUBCHEM_REST_API +:+ "/compound/cid/" +:+ py_str cid
  +:+ "/property/MolecularFormula,MolecularWeight,CanonicalSMILES,IUPACName/JSON".

(** The dictionary appended for one compound. *)
Definition compound_entry (cid props : Json) : PyResult Json :=
  name <~ dict_get props "IUPACName" (JStr "Unknown") ;;
  formula <~ dict_get props "MolecularFormula" (JStr "") ;;
  weight <~ dict_get props "MolecularWeight" (JStr "") ;;
  smiles <~ dict_get props "CanonicalSMILES" (JStr "") ;;
  Returns (JObj [("CID", cid); ("IUPACName", name);
                 ("MolecularFormula", formula); ("MolecularWeight", weight);
                 ("CanonicalSMILES", smiles)]).

(** The loop over the CIDs found: one request each. *)
Fixpoint compound_infos (cids : list Json) (compounds : list Json)
  : Py (list Json) :=
  match cids with
  | [] => ret compounds
  | cid :: rest =>
      info <- Server.make_pubchem_request (info_url cid) ;;
      keep <- lift (py_and (py_not_in "error" info) (py_in "PropertyTable" info)) ;;
      compounds <-
        (if keep
         then entry <- lift (props <~ first_properties info ;;
                             compound_entry cid props) ;;
              ret (compounds ++ [entry])
         else ret compounds) ;;
      compound_infos rest compounds
  end.

(** The tool [search_compound]. *)
Definition search_compound (query : string) (max_results : Z) : Py Json :=
  response <- Server.make_pubchem_request (search_url query max_results) ;;
  has_error <- lift (py_in "error" response) ;;
  if has_error then ret response
  else
    listed <- lift (py_and (py_in "IdentifierList" response)
                           (il <~ getitem response "IdentifierList" ;;
                            py_in "CID" il)) ;;
    compounds <-
      (if listed
       then cids <- lift (il <~ getitem response "IdentifierList" ;;
                          found <~ getitem il "CID" ;;
                          py_iter found) ;;
            compound_infos cids []
       else ret []) ;;
    ret (JObj [("query", JStr query);
               ("count", JInt (Z.of_nat (length compounds)));
               ("compounds", JArr compounds)]).

Definition record_url (cid : Z) : string :=
  Server.PUBCHEM_REST_API +:+ "/compound/cid/" +:+ pretty cid +:+ "/record/JSON".

Definition details_properties_url (cid : Z) : string :=
  Server.PUBCHEM_REST_API +:+ "/compound/cid/" +:+ pretty cid
  +:+ "/property/MolecularFormula,MolecularWeight,CanonicalSMILES,IUPACName,XLogP,TPSA,HBondDonorCount,HBondAcceptorCount,RotatableBondCount,ExactMass,MonoisotopicMass/JSON".

Definition details_synonyms_url (cid : Z) : string :=
  Server.PUBCHEM_REST_API +:+ "/compound/cid/" +:+ pretty cid +:+ "/synonyms/JSON".

(** [response.get(key, [{}])[0] if key in response else {}]. *)
Definition first_record (key : string) (response : Json) : PyResult Json :=
  present <~ py_in key response ;;
  if present
  then records <~ dict_get response key (JArr [JObj []]) ;;
       getitem0 records
  else Returns (JObj []).

(** What [get_compound_details] builds from its three answers. *)
Definition compound_details (cid : Z) (response props_response synonyms_response : Json)
  : PyResult Json :=
  record <~ first_record "PC_Compounds" response ;;
  let result := [("CID", JInt cid); ("record", record)] in
  with_props <~ py_and (py_not_in "error" props_response)
                       (py_in "PropertyTable" props_response) ;;
  result <~ (if with_props
             then props <~ first_properties props_response ;;
                  Returns (result ++ [("properties", props)])
             else Returns result) ;;
  with_synonyms <~ py_and (py_not_in "error" synonyms_response)
                          (py_in "InformationList" synonyms_response) ;;
  result <~ (if with_synonyms
             then il <~ getitem synonyms_response "InformationList" ;;
                  info <~ dict_get il "Information" (JArr [JObj []]) ;;
                  first <~ getitem0 info ;;
                  synonyms <~ dict_get first "Synonym" (JArr []) ;;
                  shown <~ py_slice_to synonyms 10 ;;
                  Returns (result ++ [("synonyms", shown)])
             else Returns result) ;;
  Returns (JObj result).

(** The tool [get_compound_details]. *)
Definition get_compound_details (cid : Z) : Py Json :=
  response <- Server.make_pubchem_request (record_url cid) ;;
  has_error <- lift (py_in "error" response) ;;
  if has_error then ret response
  else
    props_response <- Server.make_pubchem_request (details_properties_url cid) ;;
    synonyms_response <- Server.make_pubchem_request (details_synonyms_url cid) ;;
    lift (compound_details cid response props_response synonyms_response).

Definition assay_search_url (query : string) (max_results : Z) : string :=
  Server.PUBCHEM_REST_API +:+ "/assay/name/" +:+ query
  +:+ "/aids/JSON?MaxRecords=" +:+ pretty max_results.

Definition assay_url (aid : Json) : string :=
  Server.PUBCHEM_REST_API +:+ "/assay/aid/" +:+ py_str aid +:+ "/description/JSON".

(** The dictionary appended for one assay. *)
Definition assay_entry (aid info : Json) : PyResult Json :=
  container <~ getitem info "PC_AssayContainer" ;;
  assay_data <~ (if truthy container
                 then container <~ getitem info "PC_AssayContainer" ;;
                      getitem0 container
                 else Returns (JObj [])) ;;
  description <~ dict_get assay_data "PC_AssayDescription" (JObj []) ;;
  name <~ dict_get description "PC_AssayDescriptionName" (JStr "") ;;
  comment <~ dict_get description "PC_AssayDescriptionComment" (JStr "") ;;
  protocol <~ dict_get description "PC_AssayDescriptionProtocol" (JStr "") ;;
  outcome <~ dict_get description "PC_AssayDescriptionActivityOutcome" (JStr "") ;;
  Returns (JObj [("AID", aid); ("Name", name); ("Description", comment);
                 ("Protocol", protocol); ("ActivityOutcome", outcome)]).

(** The loop over the AIDs found: one request each. *)
Fixpoint assay_infos (aids : list Json) (assays : list Json) : Py (list Json) :=
  match aids with
  | [] => ret assays
  | aid :: rest =>
      info <- Server.make_pubchem_request (assay_url aid) ;;
      keep <- lift (py_and (py_not_in "error" info)
                           (py_in "PC_AssayContainer" info)) ;;
      assays <-
        (if keep
         then entry <- lift (assay_entry aid info) ;;
              ret (assays ++ [entry])
         else ret assays) ;;
      assay_infos rest assays
  end.

(** The tool [search_bioassay]. *)
Definition search_bioassay (query : string) (max_results : Z) : Py Json :=
  response <- Server.make_pubchem_request (assay_search_url query max_results) ;;
  has_error <- lift (py_in "error" response) ;;
  if has_error then ret response
  else
    listed <- lift (py_and (py_in "IdentifierList" response)
                           (il <~ getitem response "IdentifierList" ;;
                            py_in "AID" il)) ;;
    assays <-
      (if listed
       then aids <- lift (il <~ getitem response "IdentifierList" ;;
                          found <~ getitem il "AID" ;;
                          py_iter found) ;;
            assay_infos aids []
       else ret []) ;;
    ret (JObj [("query", JStr query);
               ("count", JInt (Z.of_nat (length assays)));
               ("assays", JArr assays)]).

Definition substance_url (sid : Z) : string :=
  Server.PUBCHEM_REST_API +:+ "/substance/sid/" +:+ pretty sid +:+ "/record/JSON".

Definition substance_cids_url (sid : Z) : string :=
  Server.PUBCHEM_REST_API +:+ "/substance/sid/" +:+ pretty sid +:+ "/cids/JSON".

(** What [get_substance_details] builds from its two answers. *)
Definition substance_details (sid : Z) (response cid_response : Json)
  : PyResult Json :=
  record <~ first_record "PC_Substances" response ;;
  let result := [("SID", JInt sid); ("record", record)] in
  with_cids <~ py_and (py_not_in "error" cid_response)
                      (py_in "InformationList" cid_response) ;;
  result <~ (if with_cids
             then il <~ getitem cid_response "InformationList" ;;
                  information <~ dict_get il "Information" (JArr [JObj []]) ;;
                  info <~ getitem0 information ;;
                  cids <~ dict_get info "CID" (JArr []) ;;
                  Returns (result ++ [("CIDs", cids)])
             else Returns result) ;;
  Returns (JObj result).

(** The tool [get_substance_details]. *)
Definition get_substance_details (sid : Z) : Py Json :=
  response <- Server.make_pubchem_request (substance_url sid) ;;
  has_error <- lift (py_in "error" response) ;;
  if has_error then ret response
  else
    cid_response <- Server.make_pubchem_request (substance_cids_url sid) ;;
    lift (substance_details sid response cid_response).

End WithRuntime.
End ServerTools.

(** ** Vocabulary of the further properties *)

(** A task that has not yet left [acquire]. *)
Definition pending (p : Concurrent.pc) : bool :=
  match p with
  | Concurrent.Start | Concurrent.Waiting | Concurrent.Sleeping _ => true
  | Concurrent.InFlight _ | Concurrent.Done _ => false
  end.

Fixpoint count_pending (tasks : list Concurrent.pc) : nat :=
  match tasks with
  | [] => 0
  | p :: rest => (if pending p then 1 else 0) + count_pending rest
  end.

(** The task is inside the critical section of [acquire]. *)
Definition holds_lock (s : Concurrent.state) (i : nat) : Prop :=
  exists until, Concurrent.tasks s !! i = Some (Concurrent.Sleeping until).

(** The lock is held only while some task sleeps inside [acquire]. *)
Definition lock_has_holder (s : Concurrent.state) : Prop :=
  RateLimiter._lock (Concurrent.limiter s) = true -> exists i, holds_lock s i.

(** A task that sleeps inside [acquire] holds the lock and is alone there. *)
Definition one_sleeper (s : Concurrent.state) : Prop :=
  forall i, holds_lock s i ->
    RateLimiter._lock (Concurrent.limiter s) = true /\
    forall j, holds_lock s j -> j = i.

(** Every cached entry is a status-200 response stamped no later than now. *)
Definition cache_sound (s : Concurrent.state) : Prop :=
  forall k e, PubChemClient._cache (Concurrent.client s) !! k = Some e ->
    status_code (PubChemClient.response e) = 200 /\
    (PubChemClient.time e <= Concurrent.now s)%Q.

(** The string has a line break in it. *)
Fixpoint has_newline (s : string) : bool :=
  match s with
  | EmptyString => false
  | String c s' => Ascii.eqb c newline || has_newline s'
  end.

Fixpoint all_digits (s : string) : bool :=
  match s with
  | EmptyString => true
  | String c s' => is_digit c && all_digits s'
  end.

(** The strings of a list, one after the other. *)
Definition flatten (ls : list string) : string :=
  fold_right String.append "" ls.

(** What [make_pubchem_request] returns for the outcome of its request. *)
Definition payload {rt : PyRuntime} (u : string) (o : NetOutcome) : Json :=
  match o with
  | NetError e => Server.on_exception e
  | NetResponse r =>
      if is_success r
      then match json r with
           | Returns j => j
           | Raises e => Server.on_exception e
           end
      else Server.on_exception
             (HTTPStatusError (status_code r) (status_message u r))
  end.

(** The request [make_pubchem_request] makes for a URL. *)
Definition api_request (u : string) : Request :=
  mkRequest u [] Server.request_headers.

(** The identifiers listed under [kind] ("CID", "AID") by an answer. *)
Definition listed_ids (kind : string) (response : Json) : option (list Json) :=
  match response with
  | JObj kvs =>
      match assoc "IdentifierList" kvs with
      | Some (JObj il) =>
          match assoc kind il with
          | Some (JArr ids) => Some ids
          | _ => None
          end
      | _ => None
      end
  | _ => None
  end.

(** The answer is a JSON object without the key "error". *)
Definition plain_object (response : Json) : Prop :=
  exists kvs, response = JObj kvs /\ assoc "error" kvs = None.

(** The items of the first element of the property table of an answer. *)
Definition property_items (data : Json) : option (list (string * Json)) :=
  match data with
  | JObj kvs =>
      match assoc "PropertyTable" kvs with
      | Some (JObj pt) =>
          match assoc "Properties" pt with
          | Some (JArr (JObj items :: _)) => Some items
          | _ => None
          end
      | _ => None
      end
  | _ => None
  end.

(** The request for the name brought no name: an exception, a status other
    than 200, or a body that is not JSON. *)
Definition nameless (o : NetOutcome) : Prop :=
  match o with
  | NetError _ => True
  | NetResponse r => status_code r <> 200 \/ exists e, json r = Raises e
  end.

(** The identifier an entry of a result list carries under [kind]. *)
Definition entry_id (kind : string) (entry : Json) : option Json :=
  match entry with
  | JObj kvs => assoc kind kvs
  | _ => None
  end.

(** [entries] describe the identifiers [ids], one each and in order. *)
Definition describes (kind : string) (ids entries : list Json) : Prop :=
  Forall2 (fun id entry => entry_id kind entry = Some id) ids entries.

Module SampleTools.

Definition found : Json :=
  JObj [("IdentifierList", JObj [("CID", JArr [JInt 702; JInt 887])])].

Definition ethanol_info : Json :=
  JObj [("PropertyTable",
         JObj [("Properties",
                JArr [JObj [("CID", JInt 702);
                            ("MolecularFormula", JStr "C2H6O");
                            ("IUPACName", JStr "ethanol")]])])].

(** An answer whose property table has lost its "Properties". *)
Definition broken_info : Json :=
  JObj [("PropertyTable", JObj [])].

Definition many_synonyms : Json :=
  JObj [("InformationList",
         JObj [("Information",
                JArr [JObj [("CID", JInt 702);
                            ("Synonym",
                             JArr (map JInt [1; 2; 3; 4; 5; 6; 7; 8; 9; 10; 11; 12]))]])])].

(** Upstream finds two compounds for "ethanol" and describes the first. *)
Definition search_upstream (req : Request) : NetOutcome :=
  if String.eqb (url req)
       (ServerTools.search_url "ethanol" 10)
  then NetResponse (SampleRuntime.json_response found)
  else if String.eqb (url req)
            (ServerTools.info_url (rt := SampleRuntime.plain) (JInt 702))
  then NetResponse (SampleRuntime.json_response ethanol_info)
  else NetResponse Sample.not_found.

(** The same, with a broken description of the first compound. *)
Definition broken_upstream (req : Request) : NetOutcome :=
  if String.eqb (url req)
       (ServerTools.search_url "ethanol" 10)
  then NetResponse (SampleRuntime.json_response found)
  else NetResponse (SampleRuntime.json_response broken_info).

Definition found_assays : Json :=
  JObj [("IdentifierList", JObj [("AID", JArr [JInt 1000; JInt 1001; JInt 1002])])].

Definition assay_info : Json :=
  JObj [("PC_AssayContainer",
         JArr [JObj [("PC_AssayDescription",
                      JObj [("PC_AssayDescriptionName", JStr "Binding")])]])].

(** Upstream finds three assays for "kinase" and knows the first and the
    last of them. *)
Definition assay_upstream (req : Request) : NetOutcome :=
  if String.eqb (url req) (ServerTools.assay_search_url "kinase" 5)
  then NetResponse (SampleRuntime.json_response found_assays)
  else if String.eqb (url req)
            (ServerTools.assay_url (rt := SampleRuntime.plain) (JInt 1001))
  then NetResponse Sample.not_found
  else NetResponse (SampleRuntime.json_response assay_info).

(** Upstream knows the basic properties of ethanol but not its title. *)
Definition properties_only (req : Request) : NetOutcome :=
  if String.eqb (url req)
       (Properties.properties_url "702" Properties.BASIC_PROPERTIES)
  then NetResponse (SampleRuntime.json_response ethanol_info)
  else NetError (RequestError "Server disconnected").

(** A client that fetched the title of ethanol at loop time 50. *)
Definition cached_client : PubChemClient.t :=
  PubChemClient.mk (RateLimiter.mk 5 (float_div 1 5) 50 false) 10
    {[ Sample.ethanol_url := PubChemClient.mkEntry 50 Sample.ok_response ]}.

Definition substance_record : Json :=
  JObj [("PC_Substances", JArr [JObj [("source", JStr "ChEBI")]])].

(** Upstream knows the record of substance 5 and nothing else about it. *)
Definition substance_upstream (req : Request) : NetOutcome :=
  if String.eqb (url req) (ServerTools.substance_url 5)
  then NetResponse (SampleRuntime.json_response substance_record)
  else NetResponse Sample.not_found.

(** Upstream answers every request about a compound with twelve synonyms. *)
Definition synonyms_upstream (req : Request) : NetOutcome :=
  NetResponse (SampleRuntime.json_response many_synonyms).

End SampleTools.

(** * Properties *)

(** ** Rational time *)

Lemma Qltb_lt (x y : Q) : Qltb x y = true <-> (x < y)%Q.
Proof.
  unfold Qltb. rewrite negb_true_iff. split.
  - intros H. destruct (Qlt_le_dec x y) as [Hlt | Hle]; [exact Hlt |].
    apply Qle_bool_iff in Hle. congruence.
  - intros H. destruct (Qle_bool y x) eqn:E; [| reflexivity].
    apply Qle_bool_iff in E. lra.
Qed.

Lemma Qltb_ge (x y : Q) : Qltb x y = false <-> (y <= x)%Q.
Proof.
  unfold Qltb. rewrite negb_false_iff. apply Qle_bool_iff.
Qed.

(** ** Rounding to the nearest double *)

Lemma round_half_even_error (x : Q) :
  (- (1 # 2) <= inject_Z (round_half_even x) - x <= 1 # 2)%Q.
Proof.
  unfold round_half_even.
  pose proof (Qfloor_le x) as Hlo. pose proof (Qlt_floor x) as Hhi.
  rewrite inject_Z_plus in Hhi. change (inject_Z 1) with 1%Q in Hhi.
  destruct (Qltb (x - inject_Z (Qfloor x)) (1 # 2)) eqn:E1.
  { apply Qltb_lt in E1. lra. }
  apply Qltb_ge in E1.
  destruct (Qltb (1 # 2) (x - inject_Z (Qfloor x))) eqn:E2.
  { rewrite inject_Z_plus. change (inject_Z 1) with 1%Q. lra. }
  apply Qltb_ge in E2.
  destruct (Z.even (Qfloor x));
    [| rewrite inject_Z_plus; change (inject_Z 1) with 1%Q]; lra.
Qed.

Lemma pow2_pos (e : Z) : (0 < pow2 e)%Q.
Proof. apply Qpower_0_lt. lra. Qed.

Lemma pow2_plus (a b : Z) : (pow2 (a + b) == pow2 a * pow2 b)%Q.
Proof. apply Qpower_plus. lra. Qed.

Lemma pow2_opp (e : Z) : (pow2 (- e) * pow2 e == 1)%Q.
Proof.
  unfold pow2. rewrite Qpower_opp.
  pose proof (pow2_pos e) as H. unfold pow2 in H. field. lra.
Qed.

Lemma pow2_inject (k : Z) : 0 <= k -> (inject_Z (2 ^ k) == pow2 k)%Q.
Proof. intros Hk. unfold pow2. by rewrite Zpower_Qpower. Qed.

Lemma pow2_52 : (pow2 52 == 4503599627370496)%Q.
Proof. vm_compute. reflexivity. Qed.

(** [ilog2] does not overshoot. *)
Lemma ilog2_le (q : Q) : (0 < q)%Q -> (pow2 (ilog2 q) <= q)%Q.
Proof.
  intros Hq. unfold ilog2.
  destruct (Qle_bool _ q) eqn:E; [by apply Qle_bool_iff in E |]. clear E.
  destruct q as [n d]. simpl Qnum. simpl Qden.
  assert (0 < n) as Hn by (unfold Qlt in Hq; simpl in Hq; lia).
  set (a := Z.log2 n). set (b := Z.log2 (Z.pos d)).
  assert (0 <= a) as Ha by apply Z.log2_nonneg.
  assert (0 <= b) as Hb by apply Z.log2_nonneg.
  destruct (Z.log2_spec n Hn) as [Hlo _]. fold a in Hlo.
  destruct (Z.log2_spec (Z.pos d)) as [_ Hhi]; [lia |]. fold b in Hhi.
  replace (a - b - 1) with (a + - (b + 1)) by lia.
  rewrite pow2_plus.
  assert (pow2 (- (b + 1)) == / pow2 (b + 1))%Q as -> by apply Qpower_opp.
  rewrite <- !pow2_inject by lia.
  rewrite (Qmake_Qdiv n d).
  assert (0 < inject_Z (2 ^ (b + 1)))%Q as Hp.
  { rewrite pow2_inject by lia. apply pow2_pos. }
  assert (0 < inject_Z (Z.pos d))%Q as Hd by (unfold Qlt; simpl; lia).
  assert (inject_Z (2 ^ a) <= inject_Z n)%Q as H1 by (rewrite <- Zle_Qle; lia).
  assert (inject_Z (Z.pos d) <= inject_Z (2 ^ (b + 1)))%Q as H2.
  { rewrite <- Zle_Qle. replace (b + 1) with (Z.succ b) by lia. lia. }
  apply Qle_shift_div_l; [exact Hd |].
  assert (0 < inject_Z (2 ^ a))%Q as H0.
  { rewrite pow2_inject by lia. apply pow2_pos. }
  pose proof (Qinv_lt_0_compat _ Hp) as Hr.
  assert (inject_Z (2 ^ (b + 1)) * / inject_Z (2 ^ (b + 1)) == 1)%Q as Hinv
    by (apply Qmult_inv_r; lra).
  revert H0 H1 H2 Hr Hinv Hd.
  generalize (inject_Z (2 ^ a)) (inject_Z n) (inject_Z (Z.pos d))
             (inject_Z (2 ^ (b + 1))) (/ inject_Z (2 ^ (b + 1)))%Q.
  intros A N D B R H0 H1 H2 Hr Hinv Hd.
  assert (R * D <= 1)%Q as Hrd.
  { apply Qle_trans with (R * B)%Q; [by apply Qmult_le_l |].
    rewrite Qmult_comm, Hinv. apply Qle_refl. }
  assert (A * (R * D) <= A * 1)%Q as Had by (by apply Qmult_le_l).
  lra.
Qed.

(** The rounding error is at most [unit_roundoff], relative to the exact
    value. *)
Lemma nearest_double_error (q : Q) :
  (Qabs (nearest_double q - q) <= unit_roundoff * Qabs q)%Q.
Proof.
  unfold nearest_double. destruct (Qeq_bool q 0) eqn:E0.
  { apply Qeq_bool_iff in E0. rewrite E0. vm_compute. discriminate. }
  apply Qeq_bool_neq in E0.
  assert (0 < Qabs q)%Q as Hpos.
  { destruct (Qlt_le_dec q 0) as [Hneg | Hnn].
    - rewrite Qabs_neg; lra.
    - rewrite Qabs_pos; [| exact Hnn].
      apply Qle_lteq in Hnn as [H | H]; [exact H |].
      exfalso. apply E0. by symmetry. }
  pose proof (ilog2_le _ Hpos) as Hlog.
  set (e := ilog2 (Qabs q) - 52) in *.
  replace (ilog2 (Qabs q)) with (e + 52) in Hlog by (unfold e; lia).
  rewrite pow2_plus, pow2_52 in Hlog.
  pose proof (pow2_pos e) as Hs.
  pose proof (pow2_opp e) as Hinv.
  pose proof (round_half_even_error (q * pow2 (- e))) as [Hlo Hhi].
  set (m := inject_Z (round_half_even (q * pow2 (- e)))) in *.
  rewrite Qred_correct.
  assert (m * pow2 e - q == (m - q * pow2 (- e)) * pow2 e)%Q as ->.
  { transitivity (m * pow2 e - q * (pow2 (- e) * pow2 e))%Q; [| ring].
    rewrite Hinv. ring. }
  apply Qabs_Qle_condition.
  assert ((m - q * pow2 (- e)) * pow2 e <= (1 # 2) * pow2 e)%Q as Hup
    by (apply Qmult_le_compat_r; lra).
  assert (- (1 # 2) * pow2 e <= (m - q * pow2 (- e)) * pow2 e)%Q as Hdown
    by (apply Qmult_le_compat_r; lra).
  unfold unit_roundoff. split; lra.
Qed.

Lemma nearest_double_nonneg (q : Q) :
  (0 <= q)%Q ->
  (q - unit_roundoff * q <= nearest_double q <= q + unit_roundoff * q)%Q.
Proof.
  intros Hq. pose proof (nearest_double_error q) as H.
  rewrite (Qabs_pos q Hq) in H. apply Qabs_Qle_condition in H. lra.
Qed.

Lemma nearest_double_nonpos (q : Q) :
  (q <= 0)%Q ->
  (q + unit_roundoff * q <= nearest_double q <= q - unit_roundoff * q)%Q.
Proof.
  intros Hq. pose proof (nearest_double_error q) as H.
  rewrite (Qabs_neg q Hq) in H. apply Qabs_Qle_condition in H. lra.
Qed.

(** Rounding keeps the sign. *)
Lemma nearest_double_neg (q : Q) : (q < 0)%Q -> (nearest_double q < 0)%Q.
Proof.
  intros Hq. destruct (nearest_double_nonpos q) as [_ H]; [lra |].
  unfold unit_roundoff in H. lra.
Qed.

Lemma nearest_double_pos (q : Q) : (0 < q)%Q -> (0 < nearest_double q)%Q.
Proof.
  intros Hq. destruct (nearest_double_nonneg q) as [H _]; [lra |].
  unfold unit_roundoff in H. lra.
Qed.

(** ** The world: clock and traffic *)

Lemma suspend_traffic d w : traffic (suspend d w) = traffic w.
Proof. reflexivity. Qed.

Lemma sleep_traffic d w : traffic (sleep d w) = traffic w.
Proof. unfold sleep. destruct (Qltb 0 d); reflexivity. Qed.

Lemma sleep_jitter d w : jitter (sleep d w) = jitter w.
Proof. unfold sleep. destruct (Qltb 0 d); reflexivity. Qed.

Lemma sleep_clock d w :
  monotone_clock w -> (clock w <= clock (sleep d w))%Q.
Proof.
  intros Hm. unfold sleep. destruct (Qltb 0 d) eqn:E; simpl.
  - apply Qltb_lt in E. specialize (Hm (awaits w)). lra.
  - specialize (Hm (awaits w)). lra.
Qed.

Lemma net_call_traffic req w o w' :
  net_call req w = (o, w') ->
  traffic w' = traffic w ++ [(req, o)] /\
  o = upstream w (length (traffic w)) req.
Proof. unfold net_call. intros [= <- <-]. simpl. auto. Qed.

Lemma net_call_clock req w o w' :
  monotone_clock w -> net_call req w = (o, w') -> (clock w <= clock w')%Q.
Proof.
  intros Hm. unfold net_call. intros [= _ <-]. simpl.
  specialize (Hm (awaits w)). lra.
Qed.

Lemma calls_between_refl w : calls_between w w = 0.
Proof. unfold calls_between. lia. Qed.

(** ** RateLimiter, one caller *)

Lemma acquire_traffic rl w rl' w' :
  RateLimiter.acquire rl w = (rl', w') -> traffic w' = traffic w.
Proof.
  unfold RateLimiter.acquire. intros [= _ <-].
  destruct (RateLimiter.wait_needed rl (clock w)); [apply sleep_traffic | reflexivity].
Qed.

Lemma acquire_jitter rl w rl' w' :
  RateLimiter.acquire rl w = (rl', w') -> jitter w' = jitter w.
Proof.
  unfold RateLimiter.acquire. intros [= _ <-].
  destruct (RateLimiter.wait_needed rl (clock w)); [apply sleep_jitter | reflexivity].
Qed.

Lemma acquire_clock rl w rl' w' :
  monotone_clock w -> RateLimiter.acquire rl w = (rl', w') ->
  (clock w <= clock w')%Q.
Proof.
  intros Hm. unfold RateLimiter.acquire. intros [= _ <-].
  destruct (RateLimiter.wait_needed rl (clock w)); [by apply sleep_clock | lra].
Qed.

(** ** PubChemClient.get *)

Section Get.
Import PubChemClient.

(** What a call that goes to the network does, step by step. *)
Lemma get_miss self u ck ttl w :
  live_entry self (effective_key ck u) ttl (clock w) = None ->
  exists rl w1 o w2,
    RateLimiter.acquire (rate_limiter self) w = (rl, w1) /\
    net_call (GET u) w1 = (o, w2) /\
    get self u ck ttl w =
      match o with
      | NetError e => (Raises e, with_limiter self rl, w2)
      | NetResponse r =>
          if status_code r =? 200
          then (Returns r,
                store (with_limiter self rl) (effective_key ck u)
                      (mkEntry (clock w2) r), w2)
          else (Returns r, with_limiter self rl, w2)
      end.
Proof.
  intros Hmiss. unfold get. rewrite Hmiss.
  destruct (RateLimiter.acquire (rate_limiter self) w) as [rl w1] eqn:Ea.
  destruct (net_call (GET u) w1) as [o w2] eqn:En.
  exists rl, w1, o, w2. split; [reflexivity |]. split; [exact En |].
  destruct o as [r | e]; [destruct (status_code r =? 200) |]; reflexivity.
Qed.

Lemma get_hit self u ck ttl w e :
  live_entry self (effective_key ck u) ttl (clock w) = Some e ->
  get self u ck ttl w = (Returns (response e), self, w).
Proof. intros H. unfold get. by rewrite H. Qed.

(** A call makes one network call on a miss and none on a hit. *)
Lemma get_calls self u ck ttl w res self' w' :
  get self u ck ttl w = (res, self', w') ->
  calls_between w w' =
    match live_entry self (effective_key ck u) ttl (clock w) with
    | Some _ => 0
    | None => 1
    end.
Proof.
  intros Hget.
  destruct (live_entry self (effective_key ck u) ttl (clock w)) as [e|] eqn:El.
  - rewrite (get_hit _ _ _ _ _ _ El) in Hget. injection Hget as _ _ <-.
    apply calls_between_refl.
  - destruct (get_miss _ _ _ _ _ El) as (rl & w1 & o & w2 & Ha & Hn & Hg).
    apply acquire_traffic in Ha. apply net_call_traffic in Hn as [Hn _].
    assert (w' = w2) as ->.
    { rewrite Hg in Hget. destruct o as [r | e];
        [destruct (status_code r =? 200) |]; congruence. }
    unfold calls_between. rewrite Hn, Ha, length_app. simpl. lia.
Qed.

Lemma get_clock self u ck ttl w res self' w' :
  monotone_clock w -> get self u ck ttl w = (res, self', w') ->
  (clock w <= clock w')%Q.
Proof.
  intros Hm Hget.
  destruct (live_entry self (effective_key ck u) ttl (clock w)) as [e|] eqn:El.
  - rewrite (get_hit _ _ _ _ _ _ El) in Hget. injection Hget as _ _ <-. lra.
  - destruct (get_miss _ _ _ _ _ El) as (rl & w1 & o & w2 & Ha & Hn & Hg).
    assert (w' = w2) as ->.
    { rewrite Hg in Hget. destruct o as [r | e];
        [destruct (status_code r =? 200) |]; congruence. }
    pose proof (acquire_clock _ _ _ _ Hm Ha) as H1.
    assert (monotone_clock w1) as Hm1.
    { intros n. rewrite (acquire_jitter _ _ _ _ Ha). apply Hm. }
    pose proof (net_call_clock _ _ _ _ Hm1 Hn). lra.
Qed.

(** Every change [get] makes to the cache writes a status-200 response,
    stamped with the loop time at which the call ends. *)
Lemma get_writes_only_200 self u ck ttl w res self' w' k e :
  get self u ck ttl w = (res, self', w') ->
  _cache self' !! k = Some e ->
  _cache self !! k = Some e \/
  (k = effective_key ck u /\ res = Returns (response e) /\
   status_code (response e) = 200 /\ time e = clock w').
Proof.
  intros Hget Hk.
  destruct (live_entry self (effective_key ck u) ttl (clock w)) as [e0|] eqn:El.
  - rewrite (get_hit _ _ _ _ _ _ El) in Hget. injection Hget as _ <- _. by left.
  - destruct (get_miss _ _ _ _ _ El) as (rl & w1 & o & w2 & Ha & Hn & Hg).
    rewrite Hg in Hget. destruct o as [r | ex].
    + destruct (status_code r =? 200) eqn:Es; injection Hget as <- <- <-.
      * simpl in Hk. destruct (decide (effective_key ck u = k)) as [<- | Hne].
        -- rewrite lookup_insert_eq in Hk. injection Hk as <-. right.
           simpl. repeat split; auto. lia.
        -- rewrite lookup_insert_ne in Hk by done. by left.
      * by left.
    + injection Hget as _ <- _. by left.
Qed.

(** A call whose fetch does not end in a status-200 response leaves the
    cache as it was. *)
Lemma get_failure_keeps_cache self u ck ttl w res self' w' :
  get self u ck ttl w = (res, self', w') ->
  (forall r, res = Returns r -> status_code r <> 200) ->
  _cache self' = _cache self.
Proof.
  intros Hget Hfail.
  destruct (live_entry self (effective_key ck u) ttl (clock w)) as [e0|] eqn:El.
  - rewrite (get_hit _ _ _ _ _ _ El) in Hget. by injection Hget as _ <- _.
  - destruct (get_miss _ _ _ _ _ El) as (rl & w1 & o & w2 & Ha & Hn & Hg).
    rewrite Hg in Hget. destruct o as [r | ex].
    + destruct (status_code r =? 200) eqn:Es; injection Hget as <- <- <-.
      * exfalso. apply (Hfail r); [reflexivity | lia].
      * reflexivity.
    + by injection Hget as _ <- _.
Qed.

(** An entry that does not satisfy a request now will not satisfy the same
    request later. *)
Lemma live_entry_later self key ttl t t' :
  (t <= t')%Q ->
  live_entry self key ttl t = None -> live_entry self key ttl t' = None.
Proof.
  intros Hle. unfold live_entry. destruct (_cache self !! key) as [e|]; [| done].
  destruct (Qltb (t - time e) (inject_Z ttl)) eqn:E1; [done |].
  intros _. apply Qltb_ge in E1.
  destruct (Qltb (t' - time e) (inject_Z ttl)) eqn:E2; [| done].
  apply Qltb_lt in E2. lra.
Qed.

End Get.

(** ** Cache hits *)



(** ** No negative caching *)

(** C3.  Whatever a call does, an entry it leaves in the cache is either an
    entry that was there before or the status-200 response the call itself
    returns.  A call that went to the network and did not get a status-200
    response (another status, or an exception from the transport) leaves the
    cache unchanged, and the same request repeated at any later loop time
    goes to the network again. *)
Theorem get_no_negative_caching
    (self : PubChemClient.t) (u : string) (ck : option string) (ttl : Z)
    (w : World) (res : PyResult Response) (self1 : PubChemClient.t) (w1 : World) :
  monotone_clock w ->
  PubChemClient.get self u ck ttl w = (res, self1, w1) ->
  (forall k e,
     PubChemClient._cache self1 !! k = Some e ->
     PubChemClient._cache self !! k = Some e \/
     (res = Returns (PubChemClient.response e) /\
      status_code (PubChemClient.response e) = 200)) /\
  (calls_between w w1 = 1 ->
   (forall r, res = Returns r -> status_code r <> 200) ->
   PubChemClient._cache self1 = PubChemClient._cache self /\
   forall w' res' self2 w2,
     (clock w1 <= clock w')%Q ->
     PubChemClient.get self1 u ck ttl w' = (res', self2, w2) ->
     calls_between w' w2 = 1).
Proof.
  intros Hm Hget. split.
  - intros k e Hk.
    destruct (get_writes_only_200 _ _ _ _ _ _ _ _ _ _ Hget Hk) as [H | H];
      [by left | right; tauto].
  - intros Hone Hfail.
    pose proof (get_failure_keeps_cache _ _ _ _ _ _ _ _ Hget Hfail) as Hsame.
    split; [exact Hsame |].
    intros w' res' self2 w2 Hlater Hget'.
    rewrite (get_calls _ _ _ _ _ _ _ _ Hget').
    pose proof (get_calls _ _ _ _ _ _ _ _ Hget) as Hc.
    destruct (PubChemClient.live_entry self (PubChemClient.effective_key ck u)
                ttl (clock w)) eqn:El; [lia |].
    assert (PubChemClient.live_entry self1 (PubChemClient.effective_key ck u)
              ttl (clock w) = None) as El1.
    { unfold PubChemClient.live_entry in *. by rewrite Hsame. }
    pose proof (get_clock _ _ _ _ _ _ _ _ Hm Hget) as Hclk.
    rewrite (live_entry_later self1 _ ttl (clock w) (clock w')); [done | lra | done].
Qed.

(** A 404 is not cached: the repeated request is a second network call. *)
Lemma get_no_negative_caching_witness :
  let w := Sample.steady (fun _ => NetResponse Sample.not_found) 100 in
  let '(res, self1, w1) :=
    PubChemClient.get Sample.client Sample.ethanol_url None 3600 w in
  res = Returns Sample.not_found /\
  PubChemClient._cache self1 = PubChemClient._cache Sample.client /\
  forall res' self2 w2,
    PubChemClient.get self1 Sample.ethanol_url None 3600 w1 = (res', self2, w2) ->
    calls_between w1 w2 = 1.
Proof.
  intros w.
  destruct (PubChemClient.get Sample.client Sample.ethanol_url None 3600 w)
    as [[res self1] w1] eqn:Hget.
  assert (monotone_clock w) as Hm by (intros n; simpl; lra).
  assert (calls_between w w1 = 1) as Hone.
  { change w1 with (snd (res, self1, w1)). by rewrite <- Hget. }
  assert (res = Returns Sample.not_found) as ->.
  { change res with (fst (fst (res, self1, w1))). by rewrite <- Hget. }
  destruct (get_no_negative_caching _ _ _ _ _ _ _ _ Hm Hget) as [_ Hfail].
  destruct (Hfail Hone) as [Hsame Hagain].
  { intros r [= <-]. simpl. lia. }
  split; [reflexivity |]. split; [exact Hsame |].
  intros res' self2 w2. apply Hagain. lra.
Defined.

(** ** Configuration of the rate limiter *)

(** C7, as stated, fails: a negative rate is accepted. *)
Lemma init_accepts_negative_rate :
  (-1 <= 0)%Q /\ ~ rejects (-1).
Proof.
  split; [lra |]. intros [e He]. vm_compute in He. discriminate.
Qed.

(** C7, amended.  A rate of zero makes the constructor raise
    [ZeroDivisionError]; a negative rate is accepted and gives a negative
    [min_interval], the double [1.0 / calls_per_second], with which
    [acquire] asks for no wait at any loop time at or after
    [last_call_time]. *)
Theorem init_nonpositive_rate (cps : Q) :
  (cps <= 0)%Q ->
  ((cps == 0)%Q /\
   RateLimiter.__init__ cps = Raises (ZeroDivisionError "float division by zero"))
  \/
  ((cps < 0)%Q /\
   exists rl, RateLimiter.__init__ cps = Returns rl /\
     RateLimiter.calls_per_second rl = cps /\
     RateLimiter.min_interval rl = float_div 1 cps /\
     (RateLimiter.min_interval rl < 0)%Q /\
     forall now, (RateLimiter.last_call_time rl <= now)%Q ->
                 RateLimiter.wait_needed rl now = None).
Proof.
  intros Hle. unfold RateLimiter.__init__.
  destruct (Qeq_bool cps 0) eqn:E.
  - left. apply Qeq_bool_iff in E. auto.
  - right. apply Qeq_bool_neq in E.
    assert (cps < 0)%Q as Hneg by (apply Qle_lteq in Hle as [H | H]; [exact H | tauto]).
    split; [exact Hneg |].
    eexists. split; [reflexivity |]. cbn [RateLimiter.calls_per_second
      RateLimiter.min_interval RateLimiter.last_call_time].
    assert (1 / cps < 0)%Q as Hinv.
    { assert (0 < / - cps)%Q as Hpos by (apply Qinv_lt_0_compat; lra).
      assert (/ - cps == - / cps)%Q as Heq by (field; lra).
      unfold Qdiv. rewrite Heq in Hpos. lra. }
    pose proof (nearest_double_neg _ Hinv) as Hmi. fold (float_div 1 cps) in Hmi.
    repeat split; auto.
    intros now Hnow. unfold RateLimiter.wait_needed.
    cbn [RateLimiter.min_interval RateLimiter.last_call_time].
    destruct (Qltb (float_sub now 0) (float_div 1 cps)) eqn:El; [| reflexivity].
    apply Qltb_lt in El.
    destruct (nearest_double_nonneg (now - 0)) as [Hlo _]; [lra |].
    fold (float_sub now 0) in Hlo. unfold unit_roundoff in Hlo. lra.
Qed.

Lemma init_nonpositive_rate_witness :
  (-1 <= 0)%Q /\
  exists rl, RateLimiter.__init__ (-1) = Returns rl /\
             (RateLimiter.min_interval rl < 0)%Q.
Proof.
  split; [lra |].
  destruct (init_nonpositive_rate (-1)) as [[H0 _] | [_ (rl & Hi & _ & _ & Hm & _)]].
  - lra.
  - lra.
  - exists rl. auto.
Defined.

(** ** Rate limiting under concurrency *)

Section RateLimit.
Import Concurrent.




(** What the limiter's test and wait guarantee, rounding included.  With
    [elapsed] the exact time since the last stamp: when the rounded
    [elapsed] is not below the interval, [elapsed] is within one rounding
    of it; otherwise the rounded remainder, added to [elapsed], is. *)
Lemma no_wait_gap (elapsed interval : Q) :
  (0 <= elapsed)%Q ->
  Qltb (nearest_double elapsed) interval = false ->
  (guaranteed_gap interval <= elapsed)%Q.
Proof.
  intros Hpos Htest. apply Qltb_ge in Htest.
  destruct (nearest_double_nonneg elapsed Hpos) as [_ Hhi].
  unfold guaranteed_gap, unit_roundoff in *. lra.
Qed.

Lemma wait_gap (elapsed interval : Q) :
  (0 <= elapsed)%Q ->
  Qltb (nearest_double elapsed) interval = true ->
  (guaranteed_gap interval
   <= elapsed + nearest_double (interval - nearest_double elapsed))%Q.
Proof.
  intros Hpos Htest. apply Qltb_lt in Htest.
  destruct (nearest_double_nonneg elapsed Hpos) as [_ Hhi].
  destruct (nearest_double_nonneg (interval - nearest_double elapsed))
    as [Hlo _]; [lra |].
  unfold guaranteed_gap, unit_roundoff in *. lra.
Qed.








End RateLimit.




(** ** Strings *)

Lemma startswith_app (p rest : string) : startswith (p +:+ rest) p = true.
Proof.
  induction p as [| c p IH]; simpl; [by destruct rest |].
  by rewrite Ascii.eqb_refl, IH.
Qed.

Lemma contains_startswith (p s : string) :
  startswith s p = true -> contains p s = true.
Proof. intros Hs. destruct s; cbn [contains]; rewrite Hs; reflexivity. Qed.

Lemma startswith_empty (s : string) : startswith s "" = true.
Proof. by destruct s. Qed.

Lemma startswith_app_l (p s rest : string) :
  startswith s p = true -> startswith (s +:+ rest) p = true.
Proof.
  revert s. induction p as [| a p IH]; intros s.
  - intros _. apply startswith_empty.
  - destruct s as [| b s]; [done |]. simpl.
    intros [Hab Hs]%andb_true_iff. by rewrite Hab, (IH _ Hs).
Qed.

Lemma contains_cons (needle : string) (c : Ascii.ascii) (s : string) :
  contains needle (String c s)
  = startswith (String c s) needle || contains needle s.
Proof. reflexivity. Qed.

Lemma contains_app_l (needle pre rest : string) :
  contains needle pre = true -> contains needle (pre +:+ rest) = true.
Proof.
  induction pre as [| c pre IH].
  - cbn [contains]. rewrite orb_false_r. intros Hs. apply contains_startswith.
    by apply (startswith_app_l needle "" rest).
  - rewrite contains_cons. intros [Hs | Hc]%orb_true_iff.
    + apply contains_startswith. by apply startswith_app_l.
    + change (String c pre +:+ rest) with (String c (pre +:+ rest)).
      rewrite contains_cons, (IH Hc). apply orb_true_r.
Qed.

Lemma contains_app_r (needle pre rest : string) :
  contains needle rest = true -> contains needle (pre +:+ rest) = true.
Proof.
  intros Hc. induction pre as [| c pre IH]; [exact Hc |].
  change (String c pre +:+ rest) with (String c (pre +:+ rest)).
  rewrite contains_cons, IH. apply orb_true_r.
Qed.

(** ** Coroutines *)

Lemma http_get_run req w :
  http_get req w
  = (delivered (upstream w (length (traffic w)) req), after_call req w).
Proof.
  unfold http_get, after_call, net_call, delivered. simpl.
  by destruct (upstream w (length (traffic w)) req).
Qed.

Lemma after_call_traffic req w :
  traffic (after_call req w)
  = traffic w ++ [(req, upstream w (length (traffic w)) req)].
Proof. reflexivity. Qed.

Lemma after_call_upstream req w : upstream (after_call req w) = upstream w.
Proof. reflexivity. Qed.

Lemma try_except_returned {A} (body : Py A) (handler : Exn -> A) w :
  returned (fst (try_except body handler w)).
Proof.
  unfold try_except, returned. destruct (body w) as [[a | e] w']; simpl; eauto.
Qed.

Lemma try_except_world {A} (body : Py A) (handler : Exn -> A) w :
  snd (try_except body handler w) = snd (body w).
Proof. unfold try_except. by destruct (body w) as [[a | e] w']. Qed.

(** *** Coroutines only add to the traffic *)

Lemma extends_ret {A} (a : A) : extends_traffic (ret a).
Proof. intros w res w' [= _ <-]. exists []. by rewrite app_nil_r. Qed.

Lemma extends_lift {A} (r : PyResult A) : extends_traffic (lift r).
Proof. intros w res w' [= _ <-]. exists []. by rewrite app_nil_r. Qed.

Lemma extends_http_get req : extends_traffic (http_get req).
Proof.
  intros w res w'. rewrite http_get_run. intros [= _ <-].
  rewrite after_call_traffic. eauto.
Qed.

Lemma extends_bind {A B} (m : Py A) (k : A -> Py B) :
  extends_traffic m -> (forall a, extends_traffic (k a)) ->
  extends_traffic (bind m k).
Proof.
  intros Hm Hk w res w'. unfold bind.
  destruct (m w) as [[a | e] w1] eqn:Em.
  - intros Hka. destruct (Hm _ _ _ Em) as [l1 H1].
    destruct (Hk a _ _ _ Hka) as [l2 H2].
    exists (l1 ++ l2). by rewrite H2, H1, app_assoc.
  - intros [= _ <-]. by apply (Hm _ _ _ Em).
Qed.

Lemma extends_try_except {A} (body : Py A) (handler : Exn -> A) :
  extends_traffic body -> extends_traffic (try_except body handler).
Proof.
  intros Hb w res w' Hrun. pose proof (try_except_world body handler w) as Hw.
  rewrite Hrun in Hw. simpl in Hw.
  destruct (body w) as [r w1] eqn:Eb. simpl in Hw. subst w1.
  by apply (Hb _ _ _ Eb).
Qed.

Ltac extends_traffic_tac :=
  repeat first
    [ assumption
    | progress cbv beta
    | apply extends_ret
    | apply extends_lift
    | apply extends_http_get
    | apply extends_try_except
    | apply extends_bind; [| intros ?]
    | match goal with
      | |- extends_traffic (if ?b then _ else _) => destruct b
      end ].

(** The first call a coroutine makes stays first in what it adds to the
    traffic, whatever it does next. *)
Lemma first_call_observed {A} req (k : Response -> Py A) (handler : Exn -> A)
      w res w' :
  (forall r, extends_traffic (k r)) ->
  try_except (bind (http_get req) k) handler w = (res, w') ->
  traffic w' !! length (traffic w)
  = Some (req, upstream w (length (traffic w)) req).
Proof.
  intros Hk Hrun.
  assert (exists l, traffic w'
            = (traffic w ++ [(req, upstream w (length (traffic w)) req)]) ++ l)
    as [l Hl].
  { pose proof (try_except_world (bind (http_get req) k) handler w) as Hw.
    rewrite Hrun in Hw. simpl in Hw. subst w'.
    unfold bind. rewrite http_get_run.
    destruct (upstream w (length (traffic w)) req) as [r | e] eqn:Eo;
      cbn [delivered].
    - destruct (k r (after_call req w)) as [res1 w1] eqn:Ek.
      destruct (Hk _ _ _ _ Ek) as [l Hl]. exists l. cbn [snd].
      by rewrite Hl, after_call_traffic, Eo.
    - exists []. cbn [snd]. by rewrite app_nil_r, after_call_traffic, Eo. }
  rewrite Hl, <- app_assoc. by rewrite lookup_app_r, Nat.sub_diag by lia.
Qed.

(** ** Tool handlers of compounds/properties.py *)

Section PropertiesHandlers.
Context {rt : PyRuntime}.

Lemma lookup_name_extends cid : extends_traffic (Properties.lookup_name cid).
Proof. unfold Properties.lookup_name. extends_traffic_tac. Qed.

Lemma mock_makes_no_call {A} (a : A) w res w' req o :
  ret a w = (res, w') ->
  traffic w' !! length (traffic w) = Some (req, o) -> False.
Proof.
  intros [= _ <-] Hlook. by rewrite lookup_ge_None_2 in Hlook by lia.
Qed.

(** The handler never raises; when its request for the properties fails,
    the string it returns says so. *)
Lemma properties_failure cid pl w res w' :
  Properties.get_compound_properties cid pl w = (res, w') ->
  returned res /\
  forall req o,
    traffic w' !! length (traffic w) = Some (req, o) ->
    failing o = true ->
    exists s, res = Returns s /\
              contains "Error" s = true /\
              (is_not_found o = true -> contains "No compound found" s = true).
Proof.
  unfold Properties.get_compound_properties.
  destruct (String.eqb cid "2244" && String.eqb (lower pl) "basic").
  { intros Hrun. split; [injection Hrun as <- _; by eexists |].
    intros req o Hlook. destruct (mock_makes_no_call _ _ _ _ _ _ Hrun Hlook). }
  set (u := Properties.properties_url cid (Properties.requested_properties pl)).
  intros Hrun. split.
  { replace res with (fst (res, w')) by reflexivity. rewrite <- Hrun.
    apply try_except_returned. }
  intros req o Hobs Hfail.
  unshelve epose proof (first_call_observed _ _ _ _ _ _ _ Hrun) as Hfirst.
  { intros r. pose proof (lookup_name_extends cid). extends_traffic_tac. }
  rewrite Hfirst in Hobs. injection Hobs as <- <-.
  revert Hrun. unfold try_except, bind. rewrite http_get_run.
  destruct (upstream w (length (traffic w)) (GET u)) as [r | e]; cbn [delivered].
  - destruct (status_code r =? 404) eqn:E404.
    + intros [= <- _]. eexists. split; [reflexivity |].
      split; intros; by apply contains_app_l.
    + simpl in Hfail. apply negb_true_iff in Hfail.
      unfold lift, raise_for_status. rewrite Hfail. cbn [bind_result].
      intros [= <- _]. eexists. split; [reflexivity |].
      split; [by apply contains_app_l | simpl; congruence].
  - intros [= <- _]. eexists. split; [reflexivity |].
    split; [by apply contains_app_l | discriminate].
Qed.

End PropertiesHandlers.

(** C5.  For every compound id and property list and in every world,
    [get_compound_properties] returns a string and does not raise.  When
    the call it makes upstream ends in a failure (404, another status
    outside 2xx, or an exception of the transport), the string contains
    "Error"; after a 404 it also contains "No compound found". *)
Theorem properties_handler_reports_failure
    {rt : PyRuntime} (cid property_list : string) (w : World)
    (res : PyResult string) (w' : World) :
  Properties.get_compound_properties cid property_list w = (res, w') ->
  returned res /\
  forall req o,
    traffic w' !! length (traffic w) = Some (req, o) ->
    failing o = true ->
    exists s, res = Returns s /\
              contains "Error" s = true /\
              (is_not_found o = true -> contains "No compound found" s = true).
Proof. apply properties_failure. Qed.

(** The id 999999999 against an upstream that does not know it. *)
Lemma properties_handler_reports_failure_witness :
  let w := Sample.steady SampleRuntime.ethanol_only 100 in
  exists s,
    fst (Properties.get_compound_properties (rt := SampleRuntime.plain)
           "999999999" "basic" w) = Returns s /\
    contains "Error" s = true /\ contains "No compound found" s = true.
Proof.
  intros w.
  destruct (Properties.get_compound_properties (rt := SampleRuntime.plain)
              "999999999" "basic" w) as [res w'] eqn:Hrun.
  destruct (properties_handler_reports_failure _ _ _ _ _ Hrun) as [_ Hfail].
  destruct (Hfail (GET (Properties.properties_url "999999999"
                          Properties.BASIC_PROPERTIES))
                  (NetResponse Sample.not_found)) as (s & -> & He & Hn).
  - replace w' with (snd (res, w')) by reflexivity. rewrite <- Hrun.
    vm_compute. reflexivity.
  - reflexivity.
  - exists s. auto.
Defined.

(** C6 at its own input: for CID 2244 the handler answers with its canned
    list of ten numbered entries whatever [max_results] is, here 3, and the
    answer carries no "Showing" note. *)
Theorem synonyms_aspirin_ignores_limit {rt : PyRuntime} (w : World) :
  Properties.get_compound_synonyms "2244" 3 w
  = (Returns Properties.aspirin_synonyms, w) /\
  count_numbered_entries Properties.aspirin_synonyms = 10%nat /\
  contains "Showing" Properties.aspirin_synonyms = false.
Proof. repeat split; vm_compute; reflexivity. Qed.

(** ** Limiting the synonyms *)

Section Synonyms.
Context {rt : PyRuntime}.

(** The code after the second [await], on an answer that carries the
    synonym list [syns]. *)
Lemma synonyms_answer_lists cid max_results name r data syns :
  is_success r = true ->
  json r = Returns data ->
  synonym_list data = Some syns ->
  syns <> [] ->
  Properties.synonyms_answer cid max_results name r
  = Returns (Properties.format_synonyms name cid
               (if 0 <? max_results
                then take (Z.to_nat max_results) syns
                else syns)).
Proof.
  intros Hok Hjson Hlist Hne.
  unfold Properties.synonyms_answer, raise_for_status.
  rewrite Hok, Hjson. cbn [bind_result].
  destruct data as [| | | | | | kvs]; try discriminate. simpl in Hlist.
  destruct (assoc "InformationList" kvs) as [[| | | | | | il] |] eqn:Eil;
    try discriminate.
  destruct (assoc "Information" il) as [[| | | | | [| [| | | | | | first] rest] |] |]
    eqn:Einfo; try discriminate.
  destruct (assoc "Synonym" first) as [[| | | | | xs |] |] eqn:Esyn;
    try discriminate.
  injection Hlist as ->.
  unfold py_or, py_not_in, py_not, py_in, getitem, dict_get.
  rewrite Eil. cbn [bind_result negb bool_decide decide_rel].
  rewrite Einfo. simpl. rewrite Esyn.
  destruct syns as [| s0 syns]; [done |]. simpl.
  unfold Properties.limit_synonyms.
  destruct (0 <? max_results) eqn:Epos; simpl; [| reflexivity].
  unfold slice_stop. apply Z.ltb_lt in Epos.
  destruct (0 <=? max_results) eqn:E0; [reflexivity | lia].
Qed.

End Synonyms.

(** A call of [get_compound_synonyms] that made its two requests and got,
    for the second, a successful answer carrying the non-empty list [syns],
    formats [syns], cut to [max_results] only when that is positive. *)
Lemma synonyms_run
    {rt : PyRuntime} (cid : string) (max_results : Z) (w : World)
    (res : PyResult string) (w' : World)
    (rc r : Response) (data : Json) (syns : list Json) :
  Properties.get_compound_synonyms cid max_results w = (res, w') ->
  traffic w' = traffic w ++ [(GET (Properties.title_url cid), NetResponse rc);
                             (GET (Properties.synonyms_url cid), NetResponse r)] ->
  is_success r = true ->
  json r = Returns data ->
  synonym_list data = Some syns ->
  syns <> [] ->
  exists name,
    Properties.title_of rc = Returns name /\
    (max_results <= 0 ->
     res = Returns (Properties.format_synonyms name cid syns)) /\
    (0 < max_results ->
     res = Returns (Properties.format_synonyms name cid
                      (take (Z.to_nat max_results) syns))).
Proof.
  intros Hrun Htr Hok Hjson Hlist Hne. revert Hrun.
  unfold Properties.get_compound_synonyms.
  destruct (String.eqb cid "2244").
  { intros [= _ <-]. apply (f_equal length) in Htr.
    rewrite length_app in Htr. simpl in Htr. lia. }
  unfold try_except, bind. rewrite http_get_run.
  destruct (upstream w (length (traffic w)) (GET (Properties.title_url cid)))
    as [rc' | e1] eqn:E1; cbn [delivered].
  2:{ intros [= _ <-]. rewrite after_call_traffic in Htr.
      by apply app_inv_head in Htr. }
  destruct (status_code rc' =? 404).
  { intros [= _ <-]. rewrite after_call_traffic in Htr.
    by apply app_inv_head in Htr. }
  unfold lift at 1. destruct (Properties.title_of rc') as [name | e] eqn:Et.
  2:{ intros [= _ <-]. rewrite after_call_traffic in Htr.
      by apply app_inv_head in Htr. }
  rewrite http_get_run.
  destruct (upstream (after_call (GET (Properties.title_url cid)) w)
              (length (traffic (after_call (GET (Properties.title_url cid)) w)))
              (GET (Properties.synonyms_url cid)))
    as [r' | e2] eqn:E2; cbn [delivered].
  2:{ intros [= _ <-].
      rewrite (after_call_traffic (GET (Properties.synonyms_url cid))), E2,
        (after_call_traffic (GET (Properties.title_url cid))), E1,
        <- app_assoc in Htr.
      apply app_inv_head in Htr. simpl in Htr. congruence. }
  assert (after_call (GET (Properties.synonyms_url cid))
            (after_call (GET (Properties.title_url cid)) w) = w' ->
          rc' = rc /\ r' = r) as Hsame.
  { intros <-.
    rewrite (after_call_traffic (GET (Properties.synonyms_url cid))), E2,
      (after_call_traffic (GET (Properties.title_url cid))), E1,
      <- app_assoc in Htr.
    apply app_inv_head in Htr. simpl in Htr. split; congruence. }
  destruct (status_code r' =? 404) eqn:E404.
  { intros [= _ Hw]. destruct (Hsame Hw) as [_ ->].
    unfold is_success in Hok. lia. }
  unfold lift. intros Hrun.
  assert (rc' = rc /\ r' = r) as [-> ->].
  { apply Hsame.
    destruct (Properties.synonyms_answer cid max_results name r');
      by injection Hrun. }
  rewrite (synonyms_answer_lists cid max_results name r data syns) in Hrun by done.
  injection Hrun as <- _.
  exists name. split; [exact Et |].
  split; intros Hmr.
  - by replace (0 <? max_results) with false by lia.
  - by replace (0 <? max_results) with true by lia.
Qed.

(** ** Determinism of the handlers *)

Lemma static_after_call db req w : static db w -> static db (after_call req w).
Proof. intros Hs n r. apply Hs. Qed.

Lemma reads_ret {A} (a : A) : reads_only_upstream (ret a).
Proof. intros db w1 w2 H1 H2. auto. Qed.

Lemma reads_lift {A} (r : PyResult A) : reads_only_upstream (lift r).
Proof. intros db w1 w2 H1 H2. auto. Qed.

Lemma reads_http_get req : reads_only_upstream (http_get req).
Proof.
  intros db w1 w2 H1 H2. rewrite !http_get_run. cbn [fst snd].
  rewrite (H1 _ req), (H2 _ req). auto using static_after_call.
Qed.

Lemma reads_bind {A B} (m : Py A) (k : A -> Py B) :
  reads_only_upstream m -> (forall a, reads_only_upstream (k a)) ->
  reads_only_upstream (bind m k).
Proof.
  intros Hm Hk db w1 w2 H1 H2. unfold bind.
  destruct (Hm db w1 w2 H1 H2) as (Hres & Hs1 & Hs2).
  destruct (m w1) as [r1 w1'], (m w2) as [r2 w2']. simpl in *. subst r2.
  destruct r1 as [a | e]; [by apply Hk | auto].
Qed.

Lemma reads_try_except {A} (body : Py A) (handler : Exn -> A) :
  reads_only_upstream body -> reads_only_upstream (try_except body handler).
Proof.
  intros Hb db w1 w2 H1 H2. unfold try_except.
  destruct (Hb db w1 w2 H1 H2) as (Hres & Hs1 & Hs2).
  destruct (body w1) as [r1 w1'], (body w2) as [r2 w2']. simpl in *. subst r2.
  by destruct r1.
Qed.

Ltac reads_only_upstream_tac :=
  repeat first
    [ assumption
    | progress cbv beta
    | apply reads_ret
    | apply reads_lift
    | apply reads_http_get
    | apply reads_try_except
    | apply reads_bind; [| intros ?]
    | match goal with
      | |- reads_only_upstream (if ?b then _ else _) => destruct b
      end ].

Section Determinism.
Context {rt : PyRuntime}.

Lemma reads_lookup_name cid : reads_only_upstream (Properties.lookup_name cid).
Proof. unfold Properties.lookup_name. reads_only_upstream_tac. Qed.

Lemma reads_get_compound_properties cid pl :
  reads_only_upstream (Properties.get_compound_properties cid pl).
Proof.
  pose proof (reads_lookup_name cid).
  unfold Properties.get_compound_properties. reads_only_upstream_tac.
Qed.

Lemma reads_get_compound_synonyms cid max_results :
  reads_only_upstream (Properties.get_compound_synonyms cid max_results).
Proof. unfold Properties.get_compound_synonyms. reads_only_upstream_tac. Qed.

Lemma reads_search_with_name cid threshold percent max_results name :
  reads_only_upstream
    (Similarity.search_with_name cid threshold percent max_results name).
Proof. unfold Similarity.search_with_name. reads_only_upstream_tac. Qed.

Lemma reads_search_from_name cid threshold percent max_results :
  reads_only_upstream
    (Similarity.search_from_name cid threshold percent max_results).
Proof.
  unfold Similarity.search_from_name.
  reads_only_upstream_tac; apply reads_search_with_name.
Qed.

Lemma reads_search_similar cid threshold max_results :
  reads_only_upstream
    (Similarity.search_similar_compounds_by_cid cid threshold max_results).
Proof.
  unfold Similarity.search_similar_compounds_by_cid.
  reads_only_upstream_tac; apply reads_search_from_name.
Qed.

Lemma reads_make_pubchem_request u :
  reads_only_upstream (Server.make_pubchem_request u).
Proof. unfold Server.make_pubchem_request. reads_only_upstream_tac. Qed.

Lemma reads_server_properties cid :
  reads_only_upstream (Server.get_compound_properties cid).
Proof.
  pose proof (reads_make_pubchem_request (Server.properties_url cid)).
  unfold Server.get_compound_properties. reads_only_upstream_tac.
Qed.

End Determinism.

(** C9.  While the upstream data stay what they are ([db]), a handler called
    with the same arguments returns the same output in any two worlds,
    whatever their loop time, scheduling delays and earlier traffic; in
    particular a call repeated right after the first returns what the first
    returned. *)
Theorem formatting_is_deterministic
    {rt : PyRuntime} (db : Request -> NetOutcome) (w1 w2 : World) :
  static db w1 -> static db w2 ->
  (forall cid property_list,
     fst (Properties.get_compound_properties cid property_list w1)
     = fst (Properties.get_compound_properties cid property_list w2) /\
     fst (Properties.get_compound_properties cid property_list
            (snd (Properties.get_compound_properties cid property_list w1)))
     = fst (Properties.get_compound_properties cid property_list w1)) /\
  (forall cid threshold max_results,
     fst (Similarity.search_similar_compounds_by_cid cid threshold max_results w1)
     = fst (Similarity.search_similar_compounds_by_cid cid threshold max_results w2) /\
     fst (Similarity.search_similar_compounds_by_cid cid threshold max_results
            (snd (Similarity.search_similar_compounds_by_cid
                    cid threshold max_results w1)))
     = fst (Similarity.search_similar_compounds_by_cid cid threshold max_results w1)) /\
  (forall cid max_results,
     fst (Properties.get_compound_synonyms cid max_results w1)
     = fst (Properties.get_compound_synonyms cid max_results w2)) /\
  (forall cid,
     fst (Server.get_compound_properties cid w1)
     = fst (Server.get_compound_properties cid w2)).
Proof.
  intros H1 H2. split; [| split; [| split]].
  - intros cid property_list.
    destruct (reads_get_compound_properties cid property_list db w1 w2 H1 H2)
      as (Hres & Hs & _).
    split; [exact Hres |].
    by apply (reads_get_compound_properties cid property_list db).
  - intros cid threshold max_results.
    destruct (reads_search_similar cid threshold max_results db w1 w2 H1 H2)
      as (Hres & Hs & _).
    split; [exact Hres |].
    by apply (reads_search_similar cid threshold max_results db).
  - intros cid max_results.
    by apply (reads_get_compound_synonyms cid max_results db).
  - intros cid. by apply (reads_server_properties cid db).
Qed.

Lemma formatting_is_deterministic_witness :
  fst (Properties.get_compound_properties (rt := SampleRuntime.plain)
         "702" "Title" SampleWorlds.fresh)
  = fst (Properties.get_compound_properties (rt := SampleRuntime.plain)
           "702" "Title" SampleWorlds.busy).
Proof.
  assert (static SampleRuntime.ethanol_only SampleWorlds.fresh) as H1 by done.
  assert (static SampleRuntime.ethanol_only SampleWorlds.busy) as H2 by done.
  destruct (formatting_is_deterministic (rt := SampleRuntime.plain)
              _ _ _ H1 H2) as (Hp & _).
  apply Hp.
Defined.

(** ** How failures cross the tool boundary *)

Section Failures.
Context {rt : PyRuntime}.


(** A Python expression evaluated first in a [try] block: when it raises,
    the handler answers and nothing has happened in the world. *)
Lemma try_except_lift {A B} (r : PyResult A) (k : A -> Py B) (handler : Exn -> B) w :
  try_except (bind (lift r) k) handler w
  = match r with
    | Returns a => try_except (k a) handler w
    | Raises e => (Returns (handler e), w)
    end.
Proof. by destruct r. Qed.




Lemma make_pubchem_request_run u w :
  fst (Server.make_pubchem_request u w)
  = Returns
      match upstream w (length (traffic w)) (mkRequest u [] Server.request_headers) with
      | NetError e => Server.on_exception e
      | NetResponse r =>
          if is_success r
          then match json r with
               | Returns j => j
               | Raises e => Server.on_exception e
               end
          else Server.error_record ("HTTP error: " +:+ pretty (status_code r))
                                   (status_message u r)
      end.
Proof.
  unfold Server.make_pubchem_request, try_except, bind.
  rewrite http_get_run.
  destruct (upstream w (length (traffic w)) (mkRequest u [] Server.request_headers))
    as [r | e]; cbn [delivered]; [| reflexivity].
  unfold lift, raise_for_status. destruct (is_success r); cbn [bind_result].
  - by destruct (json r).
  - reflexivity.
Qed.

Lemma get_compound_properties_returned cid pl w :
  returned (fst (Properties.get_compound_properties cid pl w)).
Proof.
  unfold Properties.get_compound_properties.
  destruct (_ && _); [by eexists | apply try_except_returned].
Qed.

Lemma get_compound_synonyms_returned cid max_results w :
  returned (fst (Properties.get_compound_synonyms cid max_results w)).
Proof.
  unfold Properties.get_compound_synonyms.
  destruct (String.eqb _ _); [by eexists | apply try_except_returned].
Qed.

End Failures.

(** ** What the gateway hands back *)

Lemma sleep_upstream d w : upstream (sleep d w) = upstream w.
Proof. unfold sleep. by destruct (Qltb 0 d). Qed.

Lemma acquire_upstream rl w rl' w' :
  RateLimiter.acquire rl w = (rl', w') -> upstream w' = upstream w.
Proof.
  unfold RateLimiter.acquire. intros [= _ <-].
  destruct (RateLimiter.wait_needed rl (clock w)); [apply sleep_upstream | done].
Qed.

(** A call that goes to the network hands back what the transport did. *)
Lemma get_miss_result self u ck ttl w :
  PubChemClient.live_entry self (PubChemClient.effective_key ck u) ttl (clock w)
  = None ->
  fst (fst (PubChemClient.get self u ck ttl w))
  = delivered (upstream w (length (traffic w)) (GET u)).
Proof.
  intros Hmiss.
  destruct (get_miss _ _ _ _ _ Hmiss) as (rl & w1 & o & w2 & Ha & Hn & Hg).
  rewrite Hg.
  apply net_call_traffic in Hn as [_ ->].
  rewrite (acquire_upstream _ _ _ _ Ha), (acquire_traffic _ _ _ _ Ha).
  destruct (upstream w (length (traffic w)) (GET u)) as [r | e]; [| done].
  by destruct (status_code r =? 200).
Qed.

(** C4, as stated, fails: when the transport raises, [PubChemClient.get]
    does not return anything, it raises; and the helper that does return
    error records, [make_pubchem_request], hands back on success the decoded
    JSON body, not the response. *)
Lemma gateway_raises_on_transport_failure :
  let run := PubChemClient.get Sample.client Sample.ethanol_url None 3600
                               SampleWorlds.offline in
  failing (upstream SampleWorlds.offline 0 (GET Sample.ethanol_url)) = true /\
  fst (fst run) = Raises (RequestError "All connection attempts failed") /\
  ~ returned (fst (fst run)) /\
  fst (Server.make_pubchem_request (rt := SampleRuntime.plain)
         Sample.ethanol_url SampleWorlds.fresh)
  = Returns (SampleRuntime.title_json "Ethanol").
Proof.
  intros run. split; [reflexivity |]. split; [vm_compute; reflexivity |].
  split; [| vm_compute; reflexivity].
  intros [r Hr]. vm_compute in Hr. discriminate.
Qed.

(** C4, amended.  [PubChemClient.get] returns the response it has, as it
    is and whatever its status: the cached one on a hit, the one the
    transport delivered on a miss; when the transport raises, the exception
    reaches the caller and no record is made of it.  The tagged record is
    what [make_pubchem_request] returns instead of raising: "HTTP error:
    <status>" for a status outside 2xx, "Request error" for a failure of the
    connection, "Unexpected error" for anything else, each with a message;
    on success that helper returns the decoded JSON body. *)
Theorem gateway_return_contract
    {rt : PyRuntime} (self : PubChemClient.t) (u : string)
    (ck : option string) (ttl : Z) (w : World) :
  (forall e,
     PubChemClient.live_entry self (PubChemClient.effective_key ck u) ttl (clock w)
     = Some e ->
     fst (fst (PubChemClient.get self u ck ttl w))
     = Returns (PubChemClient.response e)) /\
  (PubChemClient.live_entry self (PubChemClient.effective_key ck u) ttl (clock w)
   = None ->
   fst (fst (PubChemClient.get self u ck ttl w))
   = match upstream w (length (traffic w)) (GET u) with
     | NetResponse r => Returns r
     | NetError e => Raises e
     end) /\
  fst (Server.make_pubchem_request u w)
  = Returns
      match upstream w (length (traffic w)) (mkRequest u [] Server.request_headers) with
      | NetError (HTTPStatusError code m) =>
          Server.error_record ("HTTP error: " +:+ pretty code) m
      | NetError (RequestError m) => Server.error_record "Request error" m
      | NetError e => Server.error_record "Unexpected error" (exn_str e)
      | NetResponse r =>
          if is_success r
          then match json r with
               | Returns j => j
               | Raises (HTTPStatusError code m) =>
                   Server.error_record ("HTTP error: " +:+ pretty code) m
               | Raises (RequestError m) => Server.error_record "Request error" m
               | Raises e => Server.error_record "Unexpected error" (exn_str e)
               end
          else Server.error_record ("HTTP error: " +:+ pretty (status_code r))
                                   (status_message u r)
      end.
Proof.
  split; [| split].
  - intros e He. by rewrite (get_hit _ _ _ _ _ _ He).
  - intros Hmiss. rewrite (get_miss_result _ _ _ _ _ Hmiss).
    by destruct (upstream w (length (traffic w)) (GET u)).
  - rewrite make_pubchem_request_run. f_equal.
    destruct (upstream w (length (traffic w)) (mkRequest u [] Server.request_headers))
      as [r | e].
    + destruct (is_success r); [| done]. destruct (json r) as [j | e]; [done |].
      by destruct e.
    + by destruct e.
Qed.

Lemma gateway_return_contract_witness :
  PubChemClient.live_entry Sample.client Sample.ethanol_url 3600
    (clock SampleWorlds.offline) = None /\
  fst (fst (PubChemClient.get Sample.client Sample.ethanol_url None 3600
              SampleWorlds.offline))
  = Raises (RequestError "All connection attempts failed").
Proof.
  split; [reflexivity |].
  destruct (gateway_return_contract (rt := SampleRuntime.plain)
              Sample.client Sample.ethanol_url None 3600 SampleWorlds.offline)
    as (_ & Hmiss & _).
  rewrite Hmiss; reflexivity.
Defined.

(** * Further properties of the gateway *)

(** ** The limiter, one caller after another *)

Lemma acquire_stamp rl w rl' w' :
  monotone_clock w ->
  RateLimiter.acquire rl w = (rl', w') ->
  RateLimiter.last_call_time rl' = clock w' /\
  RateLimiter.min_interval rl' = RateLimiter.min_interval rl /\
  ((RateLimiter.last_call_time rl <= clock w)%Q ->
   (RateLimiter.last_call_time rl
    + guaranteed_gap (RateLimiter.min_interval rl) <= clock w')%Q) /\
  (clock w <= clock w')%Q.
Proof.
  intros Hm. unfold RateLimiter.acquire, RateLimiter.wait_needed, float_sub.
  destruct (Qltb (nearest_double (clock w - RateLimiter.last_call_time rl))
                 (RateLimiter.min_interval rl)) eqn:E; intros [= <- <-]; simpl.
  - unfold sleep.
    destruct (Qltb 0 _) eqn:Ed; simpl; specialize (Hm (awaits w)).
    + apply Qltb_lt in Ed. repeat split; auto; [| lra]. intros Hpast.
      apply wait_gap in E; lra.
    + apply Qltb_ge in Ed. repeat split; auto; [| lra]. intros Hpast.
      apply wait_gap in E; lra.
  - repeat split; auto; [| lra]. intros Hpast.
    apply no_wait_gap in E; lra.
Qed.

(** X1.  [acquire] records the loop time at which it returns, and returns
    no earlier than [(1 - 2^-53) * min_interval] after the time the previous
    [acquire] recorded: whenever the second of two calls is made after the
    first has returned, the two recorded times are at least that far apart.
    The factor is the rounding of the limiter's two subtractions. *)
Theorem acquire_twice_spaced
    (rl rl1 rl2 : RateLimiter.t) (w w1 w' w2 : World) :
  monotone_clock w -> monotone_clock w' ->
  (clock w1 <= clock w')%Q ->
  RateLimiter.acquire rl w = (rl1, w1) ->
  RateLimiter.acquire rl1 w' = (rl2, w2) ->
  RateLimiter.last_call_time rl1 = clock w1 /\
  RateLimiter.last_call_time rl2 = clock w2 /\
  (clock w1 + guaranteed_gap (RateLimiter.min_interval rl) <= clock w2)%Q.
Proof.
  intros Hm Hm' Hlater H1 H2.
  destruct (acquire_stamp _ _ _ _ Hm H1) as (Hs1 & Hmi & _ & _).
  destruct (acquire_stamp _ _ _ _ Hm' H2) as (Hs2 & _ & Hgap & _).
  repeat split; auto. rewrite Hs1, Hmi in Hgap. apply Hgap. lra.
Qed.

Lemma acquire_twice_spaced_witness :
  let w := Sample.steady SampleRuntime.ethanol_only 100 in
  let rl := RateLimiter.mk 3 (float_div 1 3) 0 false in
  let '(rl1, w1) := RateLimiter.acquire rl w in
  let '(rl2, w2) := RateLimiter.acquire rl1 w1 in
  (clock w1 + guaranteed_gap (float_div 1 3) <= clock w2)%Q.
Proof.
  intros w rl.
  destruct (RateLimiter.acquire rl w) as [rl1 w1] eqn:H1.
  destruct (RateLimiter.acquire rl1 w1) as [rl2 w2] eqn:H2.
  assert (monotone_clock w) as Hm by (intros n; simpl; lra).
  assert (monotone_clock w1) as Hm1.
  { intros n. rewrite (acquire_jitter _ _ _ _ H1). apply Hm. }
  destruct (acquire_twice_spaced _ _ _ _ _ _ _ Hm Hm1 (Qle_refl _) H1 H2)
    as (_ & _ & Hgap).
  exact Hgap.
Defined.

(** ** What a gateway call leaves of the client *)

(** X2.  A call touches no cache entry but the one under its own key, never
    removes an entry, and leaves the timeout as it was. *)
Theorem get_keeps_other_entries
    (self : PubChemClient.t) (u : string) (ck : option string) (ttl : Z)
    (w : World) (res : PyResult Response) (self1 : PubChemClient.t) (w1 : World) :
  PubChemClient.get self u ck ttl w = (res, self1, w1) ->
  (forall k, k <> PubChemClient.effective_key ck u ->
             PubChemClient._cache self1 !! k = PubChemClient._cache self !! k) /\
  (forall k, is_Some (PubChemClient._cache self !! k) ->
             is_Some (PubChemClient._cache self1 !! k)) /\
  PubChemClient.timeout self1 = PubChemClient.timeout self.
Proof.
  intros Hget.
  destruct (PubChemClient.live_entry self (PubChemClient.effective_key ck u)
              ttl (clock w)) as [e0 |] eqn:El.
  - rewrite (get_hit _ _ _ _ _ _ El) in Hget. injection Hget as _ <- _. auto.
  - destruct (get_miss _ _ _ _ _ El) as (rl & wa & o & wb & Ha & Hn & Hg).
    rewrite Hg in Hget. destruct o as [r | ex].
    + destruct (status_code r =? 200); injection Hget as _ <- _; simpl; auto.
      split; [| split; [| done]].
      * intros k Hk. by rewrite lookup_insert_ne.
      * intros k Hk.
        destruct (decide (PubChemClient.effective_key ck u = k)) as [<- | Hne].
        -- rewrite lookup_insert_eq. by eexists.
        -- by rewrite lookup_insert_ne.
    + injection Hget as _ <- _. simpl. auto.
Qed.

Lemma get_keeps_other_entries_witness :
  let w := Sample.steady (fun _ => NetResponse Sample.ok_response) 100 in
  let '(_, self1, w1) :=
    PubChemClient.get Sample.client Sample.ethanol_url None 3600 w in
  let '(_, self2, _) :=
    PubChemClient.get self1 "https://example.org/other" None 3600 w1 in
  PubChemClient._cache self2 !! Sample.ethanol_url
  = PubChemClient._cache self1 !! Sample.ethanol_url.
Proof.
  intros w.
  destruct (PubChemClient.get Sample.client Sample.ethanol_url None 3600 w)
    as [[res1 self1] w1] eqn:H1.
  destruct (PubChemClient.get self1 "https://example.org/other" None 3600 w1)
    as [[res2 self2] w2] eqn:H2.
  destruct (get_keeps_other_entries _ _ _ _ _ _ _ _ H2) as (Hother & _ & _).
  apply Hother. discriminate.
Defined.



(** ** Concurrent gateway calls: what every schedule keeps *)

Section ConcurrentInvariants.
Import Concurrent.

Lemma count_pending_insert tasks i p q :
  tasks !! i = Some q ->
  (count_pending (<[i := p]> tasks) + (if pending q then 1 else 0)
   = count_pending tasks + (if pending p then 1 else 0))%nat.
Proof.
  revert i. induction tasks as [| t tasks IH]; intros [| i] Hi; simpl in *;
    try discriminate.
  - injection Hi as ->. lia.
  - specialize (IH i Hi). lia.
Qed.

(** One step of the scheduler: every call is dispatched at most once. *)
Lemma dispatch_budget_exec ev s s' :
  exec ev s = Some s' ->
  calls s' = calls s /\ length (tasks s') = length (tasks s) /\
  (length (dispatched s') + count_pending (tasks s')
   <= length (dispatched s) + count_pending (tasks s))%nat.
Proof.
  assert (forall i q p, tasks s !! i = Some q -> pending p = true ->
            (count_pending (<[i := p]> (tasks s)) <= count_pending (tasks s) + 1
             - (if pending q then 1 else 0))%nat) as Hkeep.
  { intros i q p Hq Hp. pose proof (count_pending_insert _ i p q Hq) as H.
    rewrite Hp in H. destruct (pending q); lia. }
  assert (forall i q p, tasks s !! i = Some q -> pending p = false ->
            (count_pending (<[i := p]> (tasks s)) + (if pending q then 1 else 0)
             = count_pending (tasks s))%nat) as Hdrop.
  { intros i q p Hq Hp. pose proof (count_pending_insert _ i p q Hq) as H.
    rewrite Hp in H. lia. }
  assert (forall i q, tasks s !! i = Some q -> pending q = true ->
            calls (enter i s) = calls s /\
            length (tasks (enter i s)) = length (tasks s) /\
            (length (dispatched (enter i s)) + count_pending (tasks (enter i s))
             <= length (dispatched s) + count_pending (tasks s))%nat) as Henter.
  { intros i q Hq Hp. unfold enter.
    destruct (RateLimiter.wait_needed (limiter s) (now s)); simpl;
      rewrite length_insert; repeat split; auto.
    - specialize (Hkeep i q (Sleeping (now s + q0)) Hq eq_refl).
      rewrite Hp in Hkeep. lia.
    - specialize (Hdrop i q (InFlight (length (dispatched s))) Hq eq_refl).
      rewrite Hp in Hdrop. lia. }
  destruct ev as [d | i]; simpl.
  - destruct (Qle_bool 0 d); [| done]. intros [= <-]. simpl. auto.
  - destruct (tasks s !! i) as [[| | until | n | res] |] eqn:Ei; try done;
      destruct (calls s !! i) as [c |] eqn:Ec; try done.
    + destruct (PubChemClient.live_entry _ _ _ _).
      { intros [= <-]. simpl. rewrite length_insert. repeat split; auto.
        specialize (Hdrop i Start (Done (Returns (PubChemClient.response e)))
                          Ei eq_refl). simpl in Hdrop. lia. }
      destruct (_ || _).
      { intros [= <-]. simpl. rewrite length_insert. repeat split; auto.
        specialize (Hkeep i Start Waiting Ei eq_refl). simpl in Hkeep. lia. }
      intros [= <-]. by apply (Henter i Start).
    + destruct (RateLimiter._lock (limiter s)); [done |].
      intros [= <-]. by apply (Henter i Waiting).
    + destruct (Qle_bool until (now s)); [| done]. intros [= <-]. simpl.
      rewrite length_insert. repeat split; auto.
      specialize (Hdrop i (Sleeping until) (InFlight (length (dispatched s)))
                        Ei eq_refl). simpl in Hdrop. lia.
    + intros [= <-]. unfold complete, set_pc.
      destruct (answers s n (GET (call_url c))) as [r | e]; simpl;
        rewrite length_insert; repeat split; auto.
      * specialize (Hdrop i (InFlight n) (Done (Returns r)) Ei eq_refl).
        simpl in Hdrop. lia.
      * specialize (Hdrop i (InFlight n) (Done (Raises e)) Ei eq_refl).
        simpl in Hdrop. lia.
Qed.

Lemma count_pending_replicate n :
  count_pending (replicate n Start) = n.
Proof. induction n; simpl; lia. Qed.

End ConcurrentInvariants.

(** X4.  The gateway never repeats a network call: under every schedule, the
    number of calls dispatched plus the number of gateway calls still on
    their way to the limiter is at most the number of gateway calls
    issued. *)
Theorem one_dispatch_per_call
    (client : PubChemClient.t) (calls : list Concurrent.call) (t0 : Q)
    (answers : nat -> Request -> NetOutcome)
    (sched : list Concurrent.event) (s : Concurrent.state) :
  Concurrent.run sched (Concurrent.init client calls t0 answers) = Some s ->
  Concurrent.calls s = calls /\
  length (Concurrent.tasks s) = length calls /\
  (length (Concurrent.dispatched s) + count_pending (Concurrent.tasks s)
   <= length calls)%nat.
Proof.
  assert (forall sched s0 s1,
            Concurrent.run sched s0 = Some s1 ->
            Concurrent.calls s1 = Concurrent.calls s0 /\
            length (Concurrent.tasks s1) = length (Concurrent.tasks s0) /\
            (length (Concurrent.dispatched s1) + count_pending (Concurrent.tasks s1)
             <= length (Concurrent.dispatched s0)
                + count_pending (Concurrent.tasks s0))%nat) as Hrun.
  { clear. induction sched as [| ev rest IH]; intros s0 s1; simpl.
    - intros [= <-]. auto.
    - destruct (Concurrent.exec ev s0) as [s' |] eqn:E; [| done]. intros Hr.
      destruct (dispatch_budget_exec _ _ _ E) as (Hc & Hl & Hb).
      destruct (IH _ _ Hr) as (Hc' & Hl' & Hb').
      repeat split; [congruence | congruence | lia]. }
  intros H. destruct (Hrun _ _ _ H) as (Hc & Hl & Hb). simpl in *.
  rewrite length_replicate in Hl. rewrite count_pending_replicate in Hb.
  repeat split; auto; lia.
Qed.

Lemma one_dispatch_per_call_witness :
  exists s,
    Concurrent.run SampleSchedule.schedule SampleSchedule.start = Some s /\
    (length (Concurrent.dispatched s) <= 3)%nat.
Proof.
  destruct (Concurrent.run SampleSchedule.schedule SampleSchedule.start)
    as [s |] eqn:Hrun; [| vm_compute in Hrun; discriminate].
  exists s. split; [reflexivity |].
  destruct (one_dispatch_per_call SampleSchedule.client
              SampleSchedule.three_calls 10
              (fun _ _ => NetResponse Sample.ok_response)
              SampleSchedule.schedule s Hrun) as (_ & _ & Hb).
  change (length SampleSchedule.three_calls) with 3%nat in Hb. lia.
Defined.

Section ConcurrentLock.
Import Concurrent.

Lemma run_invariant (P : state -> Prop) :
  (forall ev s s', P s -> exec ev s = Some s' -> P s') ->
  forall sched s s', P s -> run sched s = Some s' -> P s'.
Proof.
  intros Hstep. induction sched as [| ev rest IH]; intros s s' HP; simpl.
  - by intros [= <-].
  - destruct (exec ev s) as [s1 |] eqn:E; [| done]. eauto.
Qed.

Lemma lock_has_holder_set_pc i p q cl s :
  lock_has_holder s ->
  tasks s !! i = Some q -> (forall u, q <> Sleeping u) ->
  PubChemClient.rate_limiter cl = limiter s ->
  lock_has_holder (mk (now s) cl (calls s) (<[i := p]> (tasks s))
                      (dispatched s) (answers s)).
Proof.
  intros Hl Hq Hns Hcl. unfold lock_has_holder, limiter, holds_lock. simpl.
  rewrite Hcl. intros Hlock. destruct (Hl Hlock) as (j & u & Hj).
  exists j, u. rewrite list_lookup_insert_ne; [done |].
  intros ->. rewrite Hq in Hj. injection Hj as ->. by destruct (Hns u).
Qed.

Lemma lock_has_holder_enter i q s :
  tasks s !! i = Some q -> lock_has_holder (enter i s).
Proof.
  intros Hq. unfold enter.
  destruct (RateLimiter.wait_needed (limiter s) (now s)) as [d |].
  - intros _. exists i, (now s + d)%Q. simpl.
    apply list_lookup_insert_eq. by apply lookup_lt_Some with q.
  - intros Hlock. simpl in Hlock. discriminate.
Qed.

Lemma lock_has_holder_exec ev s s' :
  lock_has_holder s -> exec ev s = Some s' -> lock_has_holder s'.
Proof.
  intros Hl. destruct ev as [d | i]; simpl.
  - destruct (Qle_bool 0 d); [| done]. by intros [= <-].
  - destruct (tasks s !! i) as [[| | until | n | res] |] eqn:Ei; try done;
      destruct (calls s !! i) as [c |] eqn:Ec; try done.
    + destruct (PubChemClient.live_entry _ _ _ _).
      { intros [= <-]. by apply lock_has_holder_set_pc with Start. }
      destruct (_ || _).
      { intros [= <-]. by apply lock_has_holder_set_pc with Start. }
      intros [= <-]. by apply lock_has_holder_enter with Start.
    + destruct (RateLimiter._lock (limiter s)); [done |].
      intros [= <-]. by apply lock_has_holder_enter with Waiting.
    + destruct (Qle_bool until (now s)); [| done]. intros [= <-].
      intros Hlock. simpl in Hlock. discriminate.
    + intros [= <-]. unfold complete, set_pc.
      destruct (answers s n (GET (call_url c))) as [r | e];
        [destruct (status_code r =? 200) |];
        by apply lock_has_holder_set_pc with (InFlight n).
Qed.

Lemma cache_sound_enter i s : cache_sound s -> cache_sound (enter i s).
Proof.
  unfold enter. by destruct (RateLimiter.wait_needed (limiter s) (now s)).
Qed.

Lemma cache_sound_exec ev s s' :
  cache_sound s -> exec ev s = Some s' -> cache_sound s'.
Proof.
  intros Hc. destruct ev as [d | i]; simpl.
  - destruct (Qle_bool 0 d) eqn:Ed; [| done]. intros [= <-].
    apply Qle_bool_iff in Ed. intros k e Hk. destruct (Hc k e Hk) as [H1 H2].
    split; [done |]. simpl. lra.
  - destruct (tasks s !! i) as [[| | until | n | res] |] eqn:Ei; try done;
      destruct (calls s !! i) as [c |] eqn:Ec; try done.
    + destruct (PubChemClient.live_entry _ _ _ _); [by intros [= <-] |].
      destruct (_ || _); [by intros [= <-] |].
      intros [= <-]. by apply cache_sound_enter.
    + destruct (RateLimiter._lock (limiter s)); [done |].
      intros [= <-]. by apply cache_sound_enter.
    + destruct (Qle_bool until (now s)); [| done]. by intros [= <-].
    + intros [= <-]. unfold complete, set_pc.
      destruct (answers s n (GET (call_url c))) as [r | e]; [| done].
      destruct (status_code r =? 200) eqn:E200; [| done].
      intros k e Hk. simpl in Hk.
      destruct (decide (PubChemClient.effective_key (call_key c) (call_url c) = k))
        as [<- | Hne].
      * rewrite lookup_insert_eq in Hk. injection Hk as <-. simpl.
        split; [lia | lra].
      * rewrite lookup_insert_ne in Hk by done. exact (Hc k e Hk).
Qed.

(** No task sleeps in [acquire] while the lock is free. *)
Lemma no_sleeper_unlocked s :
  one_sleeper s -> RateLimiter._lock (limiter s) = false ->
  forall j, ~ holds_lock s j.
Proof. intros Hone Hlock j Hj. destruct (Hone j Hj) as [Hl _]. congruence. Qed.

Lemma one_sleeper_set_pc i p cl s :
  one_sleeper s ->
  (forall u, p <> Sleeping u) ->
  PubChemClient.rate_limiter cl = limiter s ->
  one_sleeper (mk (now s) cl (calls s) (<[i := p]> (tasks s))
                  (dispatched s) (answers s)).
Proof.
  intros Hone Hp Hcl.
  assert (forall j, holds_lock (mk (now s) cl (calls s) (<[i := p]> (tasks s))
                                   (dispatched s) (answers s)) j ->
                    holds_lock s j) as Hold.
  { intros j [u Hj]. simpl in Hj.
    apply list_lookup_insert_Some in Hj as [(_ & -> & _) | (_ & Hj)];
      [by destruct (Hp u) | by exists u]. }
  intros j Hj. destruct (Hone j (Hold j Hj)) as [Hl Huniq].
  split; [unfold limiter; simpl; by rewrite Hcl |].
  intros k Hk. by apply Huniq, Hold.
Qed.

Lemma one_sleeper_leave i s :
  (forall j, j <> i -> ~ holds_lock s j) -> one_sleeper (leave i s).
Proof.
  intros Hnone j [u Hj]. exfalso. simpl in Hj.
  apply list_lookup_insert_Some in Hj as [(_ & [=] & _) | (Hne & Hj)].
  apply (Hnone j); [done | by exists u].
Qed.

Lemma one_sleeper_enter i s :
  one_sleeper s -> RateLimiter._lock (limiter s) = false ->
  one_sleeper (enter i s).
Proof.
  intros Hone Hlock. pose proof (no_sleeper_unlocked s Hone Hlock) as Hnone.
  unfold enter. destruct (RateLimiter.wait_needed (limiter s) (now s)) as [d |].
  - intros j [u Hj]. simpl in Hj. split; [done |].
    apply list_lookup_insert_Some in Hj as [(<- & _ & _) | (_ & Hj)];
      [| by destruct (Hnone j); exists u].
    intros k [u' Hk]. simpl in Hk.
    apply list_lookup_insert_Some in Hk as [(<- & _) | (_ & Hk)];
      [done | by destruct (Hnone k); exists u'].
  - apply one_sleeper_leave. intros j _. apply Hnone.
Qed.

Lemma one_sleeper_exec ev s s' :
  one_sleeper s -> exec ev s = Some s' -> one_sleeper s'.
Proof.
  intros Hone. destruct ev as [d | i]; simpl.
  - destruct (Qle_bool 0 d); [| done]. by intros [= <-].
  - destruct (tasks s !! i) as [[| | until | n | res] |] eqn:Ei; try done;
      destruct (calls s !! i) as [c |] eqn:Ec; try done.
    + destruct (PubChemClient.live_entry _ _ _ _).
      { intros [= <-]. by apply one_sleeper_set_pc. }
      destruct (RateLimiter._lock (limiter s)) eqn:Elock; simpl.
      { intros [= <-]. by apply one_sleeper_set_pc. }
      destruct (existsb is_waiting (tasks s)).
      { intros [= <-]. by apply one_sleeper_set_pc. }
      intros [= <-]. by apply one_sleeper_enter.
    + destruct (RateLimiter._lock (limiter s)) eqn:Elock; [done |].
      intros [= <-]. by apply one_sleeper_enter.
    + destruct (Qle_bool until (now s)); [| done]. intros [= <-].
      apply one_sleeper_leave. intros j Hne Hj. apply Hne.
      destruct (Hone i) as [_ Huniq]; [by exists until |]. by apply Huniq.
    + intros [= <-]. unfold complete, set_pc.
      destruct (answers s n (GET (call_url c))) as [r | e];
        [destruct (status_code r =? 200) |]; by apply one_sleeper_set_pc.
Qed.

Lemma one_sleeper_init client calls t0 answers :
  one_sleeper (init client calls t0 answers).
Proof. intros i [u H]. simpl in H. apply lookup_replicate_1 in H as [[=] _]. Qed.

End ConcurrentLock.

(** X5.  Mutual exclusion in [acquire]: under every schedule of gateway
    calls on a freshly built client, the limiter's lock is held exactly when
    a task is inside [acquire], waiting out its sleep, and no two tasks are
    there at once. *)
Theorem acquire_is_mutually_exclusive
    (cps timeout : Q) (client : PubChemClient.t)
    (calls : list Concurrent.call) (t0 : Q)
    (answers : nat -> Request -> NetOutcome)
    (sched : list Concurrent.event) (s : Concurrent.state) :
  PubChemClient.__init__ cps timeout = Returns client ->
  Concurrent.run sched (Concurrent.init client calls t0 answers) = Some s ->
  (RateLimiter._lock (Concurrent.limiter s) = true <-> exists i, holds_lock s i) /\
  (forall i j, holds_lock s i -> holds_lock s j -> i = j).
Proof.
  intros Hinit Hrun.
  assert (lock_has_holder (Concurrent.init client calls t0 answers)) as H0.
  { intros Hlock. exfalso. revert Hlock Hinit.
    unfold PubChemClient.__init__, RateLimiter.__init__.
    destruct (Qeq_bool cps 0); [discriminate |]. intros Hl [= <-]. discriminate. }
  pose proof (run_invariant _ lock_has_holder_exec _ _ _ H0 Hrun) as Hholder.
  pose proof (run_invariant _ one_sleeper_exec _ _ _
                (one_sleeper_init client calls t0 answers) Hrun) as Hone.
  split; [split |].
  - exact Hholder.
  - intros (i & Hi). by destruct (Hone i Hi).
  - intros i j Hi Hj. destruct (Hone j Hj) as [_ Huniq]. by apply Huniq.
Qed.

Lemma acquire_is_mutually_exclusive_witness :
  exists s,
    Concurrent.run (take 2 SampleSchedule.schedule) SampleSchedule.start = Some s /\
    RateLimiter._lock (Concurrent.limiter s) = true /\
    holds_lock s 1.
Proof.
  destruct (Concurrent.run (take 2 SampleSchedule.schedule) SampleSchedule.start)
    as [s |] eqn:Hrun; [| vm_compute in Hrun; discriminate].
  exists s. split; [reflexivity |].
  destruct (acquire_is_mutually_exclusive 2 10 SampleSchedule.client
              SampleSchedule.three_calls 10
              (fun _ _ => NetResponse Sample.ok_response)
              (take 2 SampleSchedule.schedule) s eq_refl Hrun) as [Hiff _].
  assert (holds_lock s 1) as Hh.
  { vm_compute in Hrun. injection Hrun as <-. eexists. reflexivity. }
  split; [by apply Hiff; exists 1%nat | exact Hh].
Defined.

(** X6.  Under every schedule of gateway calls on a freshly built client,
    every entry of the cache holds a status-200 response and carries a time
    stamp that is not in the future. *)
Theorem concurrent_cache_is_sound
    (cps timeout : Q) (client : PubChemClient.t)
    (calls : list Concurrent.call) (t0 : Q)
    (answers : nat -> Request -> NetOutcome)
    (sched : list Concurrent.event) (s : Concurrent.state) :
  PubChemClient.__init__ cps timeout = Returns client ->
  Concurrent.run sched (Concurrent.init client calls t0 answers) = Some s ->
  forall k e,
    PubChemClient._cache (Concurrent.client s) !! k = Some e ->
    status_code (PubChemClient.response e) = 200 /\
    (PubChemClient.time e <= Concurrent.now s)%Q.
Proof.
  intros Hinit Hrun.
  change (cache_sound s).
  refine (run_invariant _ cache_sound_exec _ _ _ _ Hrun).
  intros k e Hk. exfalso. revert Hk Hinit.
  unfold PubChemClient.__init__. destruct (RateLimiter.__init__ cps); [| done].
  intros Hk [= <-]. simpl in Hk. by rewrite lookup_empty in Hk.
Qed.

Lemma concurrent_cache_is_sound_witness :
  exists s e,
    Concurrent.run SampleSchedule.schedule SampleSchedule.start = Some s /\
    PubChemClient._cache (Concurrent.client s)
      !! "https://pubchem.ncbi.nlm.nih.gov/rest/pug/compound/cid/702/JSON"
    = Some e /\
    status_code (PubChemClient.response e) = 200.
Proof.
  destruct (Concurrent.run SampleSchedule.schedule SampleSchedule.start)
    as [s |] eqn:Hrun; [| vm_compute in Hrun; discriminate].
  destruct (PubChemClient._cache (Concurrent.client s)
              !! "https://pubchem.ncbi.nlm.nih.gov/rest/pug/compound/cid/702/JSON")
    as [e |] eqn:He.
  - exists s, e. split; [reflexivity |]. split; [exact He |].
    by destruct (concurrent_cache_is_sound 2 10 SampleSchedule.client
                   SampleSchedule.three_calls 10
                   (fun _ _ => NetResponse Sample.ok_response)
                   SampleSchedule.schedule s eq_refl Hrun _ _ He).
  - exfalso. vm_compute in Hrun. injection Hrun as <-. vm_compute in He.
    discriminate.
Defined.

(** * Lines and numbered entries *)

Lemma string_app_cons (x : Ascii.ascii) (a b : string) :
  String x a +:+ b = String x (a +:+ b).
Proof. reflexivity. Qed.

Lemma string_app_assoc (a b c : string) : (a +:+ b) +:+ c = a +:+ (b +:+ c).
Proof.
  induction a as [| x a IH]; [done |]. by rewrite !string_app_cons, IH.
Qed.

Lemma string_app_nil_r (a : string) : a +:+ "" = a.
Proof. induction a as [| x a IH]; [done |]. by rewrite string_app_cons, IH. Qed.

Lemma fold_left_append {A} (g : A -> string) (l : list A) (init : string) :
  fold_left (fun acc e => acc +:+ g e) l init = init +:+ flatten (map g l).
Proof.
  revert init. induction l as [| x l IH]; intros init; simpl.
  - by rewrite string_app_nil_r.
  - by rewrite IH, string_app_assoc.
Qed.

Lemma has_newline_app (a b : string) :
  has_newline (a +:+ b) = has_newline a || has_newline b.
Proof.
  induction a as [| x a IH]; [done |].
  rewrite string_app_cons. simpl. by rewrite IH, orb_assoc.
Qed.

Lemma split_lines_nonempty (s : string) : split_lines s <> [].
Proof.
  induction s as [| c s IH]; simpl; [done |].
  destruct (Ascii.eqb c newline); [done |]. by destruct (split_lines s).
Qed.

(** The first line of a text is what stands before its first line break. *)
Lemma split_lines_app (a rest : string) :
  has_newline a = false ->
  split_lines (a +:+ nl +:+ rest) = a :: split_lines rest.
Proof.
  induction a as [| c a IH].
  - intros _. reflexivity.
  - rewrite string_app_cons. simpl.
    intros [Hc Ha]%orb_false_iff. rewrite Hc, (IH Ha). reflexivity.
Qed.

Lemma split_lines_single (a : string) :
  has_newline a = false -> split_lines a = [a].
Proof.
  induction a as [| c a IH]; simpl; [done |].
  intros [Hc Ha]%orb_false_iff. by rewrite Hc, (IH Ha).
Qed.

Lemma count_numbered_app (a rest : string) :
  has_newline a = false ->
  count_numbered_entries (a +:+ nl +:+ rest)
  = ((if is_numbered_entry a then 1 else 0) + count_numbered_entries rest)%nat.
Proof.
  intros Ha. unfold count_numbered_entries. rewrite (split_lines_app _ _ Ha).
  rewrite filter_cons. destruct (is_numbered_entry a); by case_decide.
Qed.

Lemma count_numbered_single (a : string) :
  has_newline a = false ->
  count_numbered_entries a = if is_numbered_entry a then 1%nat else 0%nat.
Proof.
  intros Ha. unfold count_numbered_entries. rewrite (split_lines_single _ Ha).
  rewrite filter_cons. destruct (is_numbered_entry a); by case_decide.
Qed.

(** A run of numbered, unbroken lines counts for as many entries. *)
Lemma count_numbered_lines (lines : list string) (rest : string) :
  Forall (fun l => has_newline l = false /\ is_numbered_entry l = true) lines ->
  count_numbered_entries (flatten (map (fun l => l +:+ nl) lines) +:+ rest)
  = (length lines + count_numbered_entries rest)%nat.
Proof.
  induction 1 as [| l lines [Hl Hn] _ IH]; [done |].
  cbn [map flatten fold_right length].
  rewrite !string_app_assoc, (count_numbered_app _ _ Hl), Hn.
  fold (flatten (map (fun l => l +:+ nl) lines)). rewrite IH. lia.
Qed.

(** *** Decimal numerals *)

Lemma pretty_N_char_digit (x : N) : is_digit (pretty_N_char x) = true.
Proof.
  destruct x as [| p]; [reflexivity |].
  repeat (destruct p as [p | p |]; try reflexivity).
Qed.

Lemma pretty_N_go_digits (x : N) : forall acc,
  all_digits acc = true -> all_digits (pretty_N_go x acc) = true.
Proof.
  induction (N.lt_wf_0 x) as [x _ IH]. intros acc Hacc.
  destruct (decide (x = 0)%N) as [-> | Hx]; [by rewrite pretty_N_go_0 |].
  rewrite pretty_N_go_step by lia.
  apply IH; [apply N.div_lt; lia |]. simpl. by rewrite pretty_N_char_digit.
Qed.

Lemma pretty_N_go_nonempty (x : N) : forall acc,
  acc <> "" -> pretty_N_go x acc <> "".
Proof.
  induction (N.lt_wf_0 x) as [x _ IH]. intros acc Hacc.
  destruct (decide (x = 0)%N) as [-> | Hx]; [by rewrite pretty_N_go_0 |].
  rewrite pretty_N_go_step by lia. apply IH; [apply N.div_lt; lia | done].
Qed.

(** A natural number is rendered as one digit or more. *)
Lemma pretty_nat_digits (n : nat) :
  exists c ds, pretty n = String c ds /\ is_digit c = true /\ all_digits ds = true.
Proof.
  unfold pretty, pretty_nat, pretty, pretty_N.
  destruct (decide (N.of_nat n = 0%N)) as [_ | Hn].
  - eexists _, _. split; [reflexivity |]. by split.
  - pose proof (pretty_N_go_digits (N.of_nat n) "" eq_refl) as Hd.
    rewrite pretty_N_go_step in * by lia.
    pose proof (pretty_N_go_nonempty (N.of_nat n `div` 10)
                  (String (pretty_N_char (N.of_nat n `mod` 10)) "")) as Hne.
    destruct (pretty_N_go _ _) as [| c ds]; [by destruct Hne |].
    simpl in Hd. apply andb_true_iff in Hd as [Hc Hds]. by exists c, ds.
Qed.

Lemma digit_not_space (c : Ascii.ascii) : is_digit c = true -> is_space c = false.
Proof.
  unfold is_digit, is_space. intros [H1 H2]%andb_true_iff.
  apply Nat.leb_le in H1, H2.
  apply orb_false_iff; split; apply andb_false_iff.
  - right. apply Nat.leb_gt. lia.
  - right. apply Nat.leb_gt. lia.
Qed.

Lemma digit_not_newline (c : Ascii.ascii) :
  is_digit c = true -> Ascii.eqb c newline = false.
Proof.
  intros Hd. destruct (Ascii.eqb c newline) eqn:E; [| done].
  apply Ascii.eqb_eq in E. subst c. discriminate.
Qed.

Lemma all_digits_no_newline (ds : string) :
  all_digits ds = true -> has_newline ds = false.
Proof.
  induction ds as [| c ds IH]; simpl; [done |].
  intros [Hc Hds]%andb_true_iff. by rewrite (digit_not_newline _ Hc), IH.
Qed.

Lemma skip_digits_app (ds rest : string) :
  all_digits ds = true ->
  skip_digits (ds +:+ ". " +:+ rest) = ". " +:+ rest.
Proof.
  induction ds as [| c ds IH]; [done |].
  rewrite string_app_cons. simpl.
  intros [Hc Hds]%andb_true_iff. by rewrite Hc, IH.
Qed.

(** A line that opens with a number, a full stop and a blank is a numbered
    entry, and the number brings no line break. *)
Lemma numbered_line (n : nat) (item : string) :
  is_numbered_entry (pretty n +:+ ". " +:+ item) = true /\
  has_newline (pretty n +:+ ". " +:+ item) = has_newline item.
Proof.
  destruct (pretty_nat_digits n) as (c & ds & -> & Hc & Hds).
  rewrite string_app_cons. split.
  - unfold is_numbered_entry. simpl. rewrite (digit_not_space _ Hc), Hc.
    rewrite (skip_digits_app _ _ Hds). apply startswith_app.
  - simpl. rewrite (digit_not_newline _ Hc), has_newline_app,
      (all_digits_no_newline _ Hds). simpl. by rewrite has_newline_app.
Qed.

Lemma pretty_nat_no_newline (n : nat) : has_newline (pretty n) = false.
Proof.
  destruct (pretty_nat_digits n) as (c & ds & -> & Hc & Hds). simpl.
  by rewrite (digit_not_newline _ Hc), (all_digits_no_newline _ Hds).
Qed.

Lemma count_numbered_empty : count_numbered_entries "" = 0%nat.
Proof. reflexivity. Qed.

(** A block of lines "<number>. <item>", as the formatters build it. *)
Lemma count_numbered_block {A} (num : A -> nat) (item : A -> string)
      (entries : list A) (tail : string) :
  Forall (fun e => has_newline (item e) = false) entries ->
  count_numbered_entries
    (flatten (map (fun e => pretty (num e) +:+ ". " +:+ item e +:+ nl) entries)
     +:+ tail)
  = (length entries + count_numbered_entries tail)%nat.
Proof.
  intros Hitems.
  rewrite (map_ext _ (fun e => (fun l => l +:+ nl)
                                 (pretty (num e) +:+ ". " +:+ item e)))
    by (intros e; by rewrite !string_app_assoc).
  rewrite <- (map_map (fun e => pretty (num e) +:+ ". " +:+ item e)
                      (fun l => l +:+ nl)).
  rewrite count_numbered_lines, length_map; [done |].
  apply Forall_map. eapply Forall_impl; [exact Hitems |].
  intros e He. simpl. destruct (numbered_line (num e) (item e)) as [Hn Hl].
  by rewrite Hl, He.
Qed.

Lemma enumerate_length {A} (start : nat) (xs : list A) :
  length (enumerate start xs) = length xs.
Proof. revert start. induction xs; intros; simpl; [done | by rewrite IHxs]. Qed.

Lemma enumerate_Forall {A} (P : A -> Prop) (start : nat) (xs : list A) :
  Forall P xs -> Forall (fun e => P (snd e)) (enumerate start xs).
Proof.
  intros H. revert start. induction H; intros start; simpl; constructor; auto.
Qed.

(** X7.  [format_response] renders one numbered entry per item: when the
    title and the items are single lines and the title is not itself a
    numbered line, the output has exactly [len(data)] numbered entries, with
    or without the closing count. *)
Theorem format_response_entries
    (title : string) (data : list string) (show_count : bool) :
  has_newline title = false ->
  is_numbered_entry title = false ->
  Forall (fun item => has_newline item = false) data ->
  count_numbered_entries (Format.format_response title data show_count)
  = length data.
Proof.
  intros Ht Hn Hd. unfold Format.format_response.
  rewrite (fold_left_append
             (fun e => pretty (fst e) +:+ ". " +:+ snd e +:+ nl)).
  pose proof (enumerate_Forall (fun item => has_newline item = false) 1 data Hd)
    as Hes.
  destruct show_count.
  - rewrite !string_app_assoc, (count_numbered_app _ _ Ht), Hn.
    rewrite (count_numbered_block fst snd _ _ Hes), enumerate_length.
    change (nl +:+ "Total items: " +:+ pretty (length data))
      with ("" +:+ nl +:+ "Total items: " +:+ pretty (length data)).
    rewrite count_numbered_app by done.
    rewrite count_numbered_single.
    + simpl. lia.
    + rewrite has_newline_app. simpl. apply pretty_nat_no_newline.
  - rewrite <- (string_app_nil_r (flatten _)).
    rewrite !string_app_assoc, (count_numbered_app _ _ Ht), Hn.
    rewrite (count_numbered_block fst snd _ _ Hes), enumerate_length.
    rewrite count_numbered_empty. lia.
Qed.

Lemma format_response_entries_witness :
  count_numbered_entries
    (Format.format_response "Synonyms" SampleRuntime.ethanol_names true)
  = 4%nat.
Proof.
  apply (format_response_entries "Synonyms" SampleRuntime.ethanol_names true);
    [reflexivity | reflexivity |].
  repeat constructor.
Defined.

Section SynonymEntries.
Context {rt : PyRuntime}.

Lemma format_synonyms_entries name cid (syns : list Json) :
  has_newline (py_str name) = false ->
  has_newline cid = false ->
  Forall (fun s => has_newline (py_str s) = false) syns ->
  count_numbered_entries (Properties.format_synonyms name cid syns)
  = length syns.
Proof.
  intros Hname Hcid Hs. unfold Properties.format_synonyms.
  rewrite (fold_left_append
             (fun e => pretty (fst e + 1)%nat +:+ ". " +:+ py_str (snd e) +:+ nl)).
  pose proof (enumerate_Forall (fun s => has_newline (py_str s) = false) 0 syns Hs)
    as Hes.
  set (block := flatten _).
  set (heading := "Synonyms for " +:+ py_str name +:+ " (CID " +:+ cid +:+ "):").
  replace ((nl +:+ "Synonyms for " +:+ py_str name +:+ " (CID " +:+ cid +:+ "):"
               +:+ nl) +:+ block)
    with ("" +:+ nl +:+ heading +:+ nl +:+ block +:+ "").
  2:{ unfold heading. by rewrite !string_app_assoc, string_app_nil_r. }
  rewrite (count_numbered_app "") by done.
  rewrite (count_numbered_app heading).
  - unfold block.
    rewrite (count_numbered_block (fun e => (fst e + 1)%nat)
               (fun e => py_str (snd e)) _ _ Hes), enumerate_length.
    rewrite count_numbered_empty. simpl. lia.
  - unfold heading. rewrite !has_newline_app, Hname, Hcid. reflexivity.
Qed.

End SynonymEntries.

(** C10.  Take a call of [get_compound_synonyms] that made its two requests
    upstream and got, for the second, a successful answer carrying the
    non-empty synonym list [syns].  The text returned is the heading
    followed by one numbered line per synonym shown, in order.  With
    [max_results <= 0] every synonym of [syns] is shown: when the name, the
    id and the synonyms are single lines the text has [len(syns)] numbered
    entries, which is at least one.  The list is cut, to its first
    [max_results] elements, only when [max_results > 0]. *)
Theorem synonyms_limit_only_when_positive
    {rt : PyRuntime} (cid : string) (max_results : Z) (w : World)
    (res : PyResult string) (w' : World)
    (rc r : Response) (data : Json) (syns : list Json) :
  Properties.get_compound_synonyms cid max_results w = (res, w') ->
  traffic w' = traffic w ++ [(GET (Properties.title_url cid), NetResponse rc);
                             (GET (Properties.synonyms_url cid), NetResponse r)] ->
  is_success r = true ->
  json r = Returns data ->
  synonym_list data = Some syns ->
  syns <> [] ->
  exists name text,
    Properties.title_of rc = Returns name /\
    res = Returns text /\
    let heading :=
      nl +:+ "Synonyms for " +:+ py_str name +:+ " (CID " +:+ cid +:+ "):" +:+ nl in
    let entries := fun shown : list Json =>
      flatten (map (fun entry => pretty (fst entry + 1)%nat +:+ ". "
                                 +:+ py_str (snd entry) +:+ nl)
                   (enumerate 0 shown)) in
    (max_results <= 0 -> text = heading +:+ entries syns) /\
    (0 < max_results ->
     text = heading +:+ entries (take (Z.to_nat max_results) syns)) /\
    (max_results <= 0 ->
     has_newline (py_str name) = false ->
     has_newline cid = false ->
     Forall (fun s => has_newline (py_str s) = false) syns ->
     count_numbered_entries text = length syns /\ (0 < length syns)%nat).
Proof.
  intros Hrun Htr Hok Hjson Hlist Hne.
  destruct (synonyms_run _ _ _ _ _ _ _ _ _ Hrun Htr Hok Hjson Hlist Hne)
    as (name & Hname & Hall & Hcut).
  assert (forall shown,
            Properties.format_synonyms name cid shown
            = (nl +:+ "Synonyms for " +:+ py_str name +:+ " (CID " +:+ cid
                  +:+ "):" +:+ nl)
              +:+ flatten (map (fun entry => pretty (fst entry + 1)%nat +:+ ". "
                                             +:+ py_str (snd entry) +:+ nl)
                               (enumerate 0 shown))) as Hshape.
  { intros shown. unfold Properties.format_synonyms.
    by rewrite (fold_left_append
                  (fun e => pretty (fst e + 1)%nat +:+ ". " +:+ py_str (snd e) +:+ nl)). }
  destruct (Z_le_gt_dec max_results 0) as [Hle | Hgt].
  - exists name, (Properties.format_synonyms name cid syns).
    split; [exact Hname |]. split; [by apply Hall |]. cbv zeta.
    split; [intros _; apply Hshape |]. split; [lia |].
    intros _ Hn Hc Hs. split; [by apply format_synonyms_entries |].
    destruct syns; [done | simpl; lia].
  - exists name, (Properties.format_synonyms name cid
                    (take (Z.to_nat max_results) syns)).
    split; [exact Hname |]. split; [apply Hcut; lia |]. cbv zeta.
    split; [lia |]. split; [intros _; apply Hshape | lia].
Qed.

(** Ethanol has four synonyms upstream; a limit of zero shows all four. *)
Lemma synonyms_limit_only_when_positive_witness :
  let w := Sample.steady SampleRuntime.ethanol_only 100 in
  exists text,
    fst (Properties.get_compound_synonyms (rt := SampleRuntime.plain) "702" 0 w)
    = Returns text /\
    count_numbered_entries text = 4%nat.
Proof.
  intros w.
  destruct (Properties.get_compound_synonyms (rt := SampleRuntime.plain) "702" 0 w)
    as [res w'] eqn:Hrun.
  destruct (synonyms_limit_only_when_positive
              (rt := SampleRuntime.plain) "702" 0 w res w'
              (SampleRuntime.json_response (SampleRuntime.title_json "Ethanol"))
              (SampleRuntime.json_response
                 (SampleRuntime.synonyms_json SampleRuntime.ethanol_names))
              (SampleRuntime.synonyms_json SampleRuntime.ethanol_names)
              (map JStr SampleRuntime.ethanol_names) Hrun)
    as (name & text & Hname & Hres & _ & _ & Hcount).
  - replace w' with (snd (res, w')) by reflexivity. rewrite <- Hrun.
    vm_compute. reflexivity.
  - reflexivity.
  - reflexivity.
  - reflexivity.
  - discriminate.
  - exists text. split; [exact Hres |].
    vm_compute in Hname. injection Hname as <-.
    destruct Hcount as [Hcount _]; [lia | reflexivity | reflexivity | |].
    + repeat constructor.
    + exact Hcount.
Defined.

(** X8.  On an answer that carries the synonym list [syns], a positive
    [max_results] is honoured: the text [get_compound_synonyms] builds has
    [min(max_results, len(syns))] numbered entries, provided the compound
    name, the id and the synonyms are single lines. *)
Theorem synonyms_answer_honours_limit
    {rt : PyRuntime} (cid : string) (max_results : Z) (name : Json)
    (r : Response) (data : Json) (syns : list Json) :
  is_success r = true ->
  json r = Returns data ->
  synonym_list data = Some syns ->
  syns <> [] ->
  0 < max_results ->
  has_newline (py_str name) = false ->
  has_newline cid = false ->
  Forall (fun s => has_newline (py_str s) = false) syns ->
  exists s,
    Properties.synonyms_answer cid max_results name r = Returns s /\
    count_numbered_entries s = Nat.min (Z.to_nat max_results) (length syns).
Proof.
  intros Hok Hjson Hlist Hne Hpos Hname Hcid Hs.
  rewrite (synonyms_answer_lists cid max_results name r data syns) by done.
  replace (0 <? max_results) with true by lia.
  eexists. split; [reflexivity |].
  rewrite format_synonyms_entries, length_take; auto.
  by apply Forall_take.
Qed.

Lemma synonyms_answer_honours_limit_witness :
  exists s,
    Properties.synonyms_answer (rt := SampleRuntime.plain) "702" 2 (JStr "Ethanol")
      (SampleRuntime.json_response
         (SampleRuntime.synonyms_json SampleRuntime.ethanol_names))
    = Returns s /\
    count_numbered_entries s = 2%nat.
Proof.
  destruct (synonyms_answer_honours_limit (rt := SampleRuntime.plain)
              "702" 2 (JStr "Ethanol")
              (SampleRuntime.json_response
                 (SampleRuntime.synonyms_json SampleRuntime.ethanol_names))
              (SampleRuntime.synonyms_json SampleRuntime.ethanol_names)
              (map JStr SampleRuntime.ethanol_names))
    as (s & Hs & Hc); try reflexivity; try done.
  - repeat constructor.
  - exists s. split; [exact Hs | exact Hc].
Defined.

(** * The tools of server.py *)

Section ServerTools.
Context {rt : PyRuntime}.

Lemma make_pubchem_request_eq u w :
  Server.make_pubchem_request u w
  = (Returns (payload u (upstream w (length (traffic w)) (api_request u))),
     after_call (api_request u) w).
Proof.
  unfold Server.make_pubchem_request, try_except, bind, api_request, payload.
  rewrite http_get_run.
  destruct (upstream w (length (traffic w)) (mkRequest u [] Server.request_headers))
    as [r | e]; cbn [delivered]; [| reflexivity].
  unfold lift, raise_for_status. destruct (is_success r); cbn [bind_result].
  - by destruct (json r).
  - reflexivity.
Qed.

Lemma on_exception_has_error e : py_in "error" (Server.on_exception e) = Returns true.
Proof. by destruct e. Qed.

(** After a failed request the payload is a record with the key "error". *)
Lemma payload_failing u o :
  failing o = true -> py_in "error" (payload u o) = Returns true.
Proof.
  destruct o as [r | e]; simpl.
  - intros ->%negb_true_iff. reflexivity.
  - intros _. apply on_exception_has_error.
Qed.

Lemma calls_between_after_call req w w' :
  calls_between (after_call req w) w' = calls_between w w' - 1.
Proof.
  unfold calls_between. rewrite after_call_traffic, length_app. simpl. lia.
Qed.

Lemma calls_between_after_call_self req w :
  calls_between w (after_call req w) = 1.
Proof.
  unfold calls_between. rewrite after_call_traffic, length_app. simpl. lia.
Qed.

Lemma plain_object_no_error response :
  plain_object response -> py_in "error" response = Returns false.
Proof. intros (kvs & -> & Hk). simpl. by rewrite Hk. Qed.


End ServerTools.




(** X9.  When the first request of a tool of server.py fails (a status
    outside 2xx or an exception of the transport), the tool returns exactly
    what [make_pubchem_request] returned for it, a record with the key
    "error", and makes no further request. *)
Theorem tools_stop_at_first_failure
    {rt : PyRuntime} (query : string) (max_results cid sid : Z) (w : World) :
  (failing (upstream w (length (traffic w))
              (api_request (ServerTools.search_url query max_results))) = true ->
   ServerTools.search_compound query max_results w
   = Server.make_pubchem_request (ServerTools.search_url query max_results) w) /\
  (failing (upstream w (length (traffic w))
              (api_request (ServerTools.record_url cid))) = true ->
   ServerTools.get_compound_details cid w
   = Server.make_pubchem_request (ServerTools.record_url cid) w) /\
  (failing (upstream w (length (traffic w))
              (api_request (ServerTools.assay_search_url query max_results))) = true ->
   ServerTools.search_bioassay query max_results w
   = Server.make_pubchem_request (ServerTools.assay_search_url query max_results) w) /\
  (failing (upstream w (length (traffic w))
              (api_request (ServerTools.substance_url sid))) = true ->
   ServerTools.get_substance_details sid w
   = Server.make_pubchem_request (ServerTools.substance_url sid) w) /\
  (failing (upstream w (length (traffic w))
              (api_request (Server.properties_url cid))) = true ->
   Server.get_compound_properties cid w
   = Server.make_pubchem_request (Server.properties_url cid) w).
Proof.
  repeat split; intros Hf;
    unfold ServerTools.search_compound, ServerTools.get_compound_details,
      ServerTools.search_bioassay, ServerTools.get_substance_details,
      Server.get_compound_properties, bind;
    rewrite make_pubchem_request_eq; unfold lift;
    rewrite ?(payload_failing _ _ Hf); cbn [bind_result]; reflexivity.
Qed.

Lemma tools_stop_at_first_failure_witness :
  fst (ServerTools.search_compound (rt := SampleRuntime.plain)
         "aspirin" 10 SampleWorlds.offline)
  = Returns (Server.error_record "Request error" "All connection attempts failed") /\
  calls_between SampleWorlds.offline
    (snd (ServerTools.search_compound (rt := SampleRuntime.plain)
            "aspirin" 10 SampleWorlds.offline)) = 1.
Proof.
  destruct (tools_stop_at_first_failure (rt := SampleRuntime.plain)
              "aspirin" 10 0 0 SampleWorlds.offline) as (Hs & _).
  rewrite Hs by reflexivity. split; reflexivity.
Defined.

Section SearchCompound.
Context {rt : PyRuntime}.

(** The loop makes one request per identifier, stops at the first
    exception, and appends at most one entry per identifier. *)
Lemma compound_infos_run (cids : list Json) : forall acc w res w',
  ServerTools.compound_infos cids acc w = (res, w') ->
  0 <= calls_between w w' <= Z.of_nat (length cids) /\
  forall out, res = Returns out ->
    calls_between w w' = Z.of_nat (length cids) /\
    exists added, out = acc ++ added /\ (length added <= length cids)%nat.
Proof.
  induction cids as [| cid rest IH]; intros acc w res w'.
  - intros [= <- <-]. rewrite calls_between_refl. split; [simpl; lia |].
    intros out [= <-]. split; [done |]. exists []. by rewrite app_nil_r.
  - cbn [ServerTools.compound_infos]. unfold bind at 1.
    rewrite make_pubchem_request_eq.
    set (w1 := after_call _ w). set (info := payload _ _).
    unfold bind at 1, lift at 1.
    destruct (py_and (py_not_in "error" info) (py_in "PropertyTable" info))
      as [keep | e].
    2:{ intros [= <- <-]. unfold w1. rewrite calls_between_after_call_self.
        split; [simpl length; lia | discriminate]. }
    assert (forall acc1, ServerTools.compound_infos rest acc1 w1 = (res, w') ->
              (length acc1 <= length acc + 1)%nat ->
              (exists l, acc1 = acc ++ l /\ (length l <= 1)%nat) ->
              0 <= calls_between w w' <= Z.of_nat (length (cid :: rest)) /\
              forall out, res = Returns out ->
                calls_between w w' = Z.of_nat (length (cid :: rest)) /\
                exists added, out = acc ++ added /\
                              (length added <= length (cid :: rest))%nat) as Hrest.
    { intros acc1 Hrun _ (l & -> & Hl).
      destruct (IH _ _ _ _ Hrun) as [Hc Hout].
      unfold w1 in Hc, Hout. rewrite calls_between_after_call in Hc, Hout.
      split; [simpl length; lia |]. intros out Hres.
      destruct (Hout out Hres) as (Hn & added & -> & Ha).
      split; [simpl length; lia |]. exists (l ++ added).
      rewrite app_assoc, length_app. simpl length. split; [done | lia]. }
    destruct keep.
    + unfold bind at 1, lift at 1.
      destruct (props <~ ServerTools.first_properties info;;
                ServerTools.compound_entry cid props) as [entry | e].
      * unfold bind at 1, ret at 1. intros Hrun.
        apply (Hrest _ Hrun); [rewrite length_app; simpl; lia |].
        exists [entry]. split; [done | simpl; lia].
      * unfold bind at 1. intros [= <- <-]. unfold w1.
        rewrite calls_between_after_call_self.
        split; [simpl length; lia | discriminate].
    + unfold bind at 1, ret at 1. intros Hrun.
      apply (Hrest _ Hrun); [lia |]. exists [].
      split; [by rewrite app_nil_r | simpl; lia].
Qed.

End SearchCompound.

(** X10.  [search_compound] makes one request for the search and then one
    per identifier found: on an answer without "error" that lists the
    identifiers [cids], a run that returns has made [1 + len(cids)]
    requests and returns the query, a list [compounds] of at most
    [len(cids)] entries (identifiers whose lookup failed are left out) and
    [count = len(compounds)]; a run that raises has made no more requests
    than that. *)
Theorem search_compound_requests
    {rt : PyRuntime} (query : string) (max_results : Z) (w : World)
    (response : Json) (cids : list Json)
    (res : PyResult Json) (w' : World) :
  response = payload (ServerTools.search_url query max_results)
               (upstream w (length (traffic w))
                  (api_request (ServerTools.search_url query max_results))) ->
  plain_object response ->
  listed_ids "CID" response = Some cids ->
  ServerTools.search_compound query max_results w = (res, w') ->
  1 <= calls_between w w' <= 1 + Z.of_nat (length cids) /\
  forall j, res = Returns j ->
    calls_between w w' = 1 + Z.of_nat (length cids) /\
    exists compounds,
      j = JObj [("query", JStr query);
                ("count", JInt (Z.of_nat (length compounds)));
                ("compounds", JArr compounds)] /\
      (length compounds <= length cids)%nat.
Proof.
  intros Hresp Hplain Hlist. unfold ServerTools.search_compound, bind.
  rewrite make_pubchem_request_eq, <- Hresp. unfold lift.
  rewrite (plain_object_no_error _ Hplain).
  destruct response as [| | | | | | kvs]; try discriminate. simpl in Hlist.
  destruct (assoc "IdentifierList" kvs) as [[| | | | | | il] |] eqn:Eil;
    try discriminate.
  destruct (assoc "CID" il) as [[| | | | | ids |] |] eqn:Ecid; try discriminate.
  injection Hlist as ->.
  unfold py_and, py_in, getitem. rewrite Eil. cbn [bind_result bool_decide decide_rel].
  simpl. rewrite Ecid. simpl.
  set (w1 := after_call _ w).
  destruct (ServerTools.compound_infos cids [] w1) as [[compounds | e] w2] eqn:Eloop;
    intros [= <- <-];
    destruct (compound_infos_run _ _ _ _ _ Eloop) as [Hc Hout];
    unfold w1 in Hc, Hout; rewrite calls_between_after_call in Hc, Hout.
  - split; [lia |]. intros j [= <-].
    destruct (Hout compounds eq_refl) as (Hn & added & -> & Ha).
    split; [lia |]. by exists added.
  - split; [lia | discriminate].
Qed.

Lemma search_compound_requests_witness :
  let run := ServerTools.search_compound (rt := SampleRuntime.plain) "ethanol" 10
               (Sample.steady SampleTools.search_upstream 100) in
  calls_between (Sample.steady SampleTools.search_upstream 100) (snd run) = 3 /\
  exists compounds,
    fst run = Returns (JObj [("query", JStr "ethanol");
                             ("count", JInt (Z.of_nat (length compounds)));
                             ("compounds", JArr compounds)]) /\
    (length compounds <= 2)%nat.
Proof.
  intros run. destruct run as [res w'] eqn:Hrun. subst run.
  destruct (search_compound_requests (rt := SampleRuntime.plain)
              "ethanol" 10 (Sample.steady SampleTools.search_upstream 100)
              SampleTools.found [JInt 702; JInt 887] res w'
              eq_refl) as [_ Hout]; [| reflexivity | exact Hrun |].
  { eexists. split; reflexivity. }
  assert (exists j, res = Returns j) as [j ->].
  { replace res with (fst (res, w')) by reflexivity. rewrite <- Hrun.
    vm_compute. by eexists. }
  destruct (Hout j eq_refl) as (Hn & compounds & -> & Hlen).
  split; [exact Hn |]. by exists compounds.
Defined.

(** X11.  [search_compound] does not catch what its loop raises.  When the
    description of the first identifier found is an object without "error"
    whose "PropertyTable" has no "Properties", the tool raises [KeyError]
    after two requests and looks up none of the other identifiers. *)
Theorem search_compound_raises_on_missing_properties
    {rt : PyRuntime} (query : string) (max_results : Z) (w : World)
    (response info : Json) (cid : Json) (others : list Json)
    (fields table : list (string * Json)) :
  response = payload (ServerTools.search_url query max_results)
               (upstream w (length (traffic w))
                  (api_request (ServerTools.search_url query max_results))) ->
  plain_object response ->
  listed_ids "CID" response = Some (cid :: others) ->
  info = payload (ServerTools.info_url cid)
           (upstream w (S (length (traffic w)))
              (api_request (ServerTools.info_url cid))) ->
  info = JObj fields ->
  assoc "error" fields = None ->
  assoc "PropertyTable" fields = Some (JObj table) ->
  assoc "Properties" table = None ->
  fst (ServerTools.search_compound query max_results w)
  = Raises (KeyError "'Properties'") /\
  calls_between w (snd (ServerTools.search_compound query max_results w)) = 2.
Proof.
  intros Hresp Hplain Hlist Hinfo -> Herr Hpt Hps.
  unfold ServerTools.search_compound, bind.
  rewrite make_pubchem_request_eq, <- Hresp. unfold lift.
  rewrite (plain_object_no_error _ Hplain).
  destruct response as [| | | | | | kvs]; try discriminate. simpl in Hlist.
  destruct (assoc "IdentifierList" kvs) as [[| | | | | | il] |] eqn:Eil;
    try discriminate.
  destruct (assoc "CID" il) as [[| | | | | ids |] |] eqn:Ecid; try discriminate.
  injection Hlist as ->.
  unfold py_and, py_in, getitem. rewrite Eil. cbn [bind_result bool_decide decide_rel].
  simpl. rewrite Ecid. simpl.
  unfold bind. rewrite make_pubchem_request_eq.
  rewrite after_call_upstream, after_call_traffic, length_app, Nat.add_1_r.
  simpl length. rewrite <- Hinfo. unfold lift.
  unfold py_and, py_not_in, py_not, py_in. rewrite Herr, Hpt. simpl.
  unfold ServerTools.first_properties, getitem. rewrite Hpt. simpl.
  rewrite Hps. simpl. split; [reflexivity |].
  unfold calls_between. rewrite !after_call_traffic, !length_app. simpl. lia.
Qed.

Lemma search_compound_raises_on_missing_properties_witness :
  fst (ServerTools.search_compound (rt := SampleRuntime.plain) "ethanol" 10
         (Sample.steady SampleTools.broken_upstream 100))
  = Raises (KeyError "'Properties'").
Proof.
  eapply (search_compound_raises_on_missing_properties
            (rt := SampleRuntime.plain) "ethanol" 10
            (Sample.steady SampleTools.broken_upstream 100)
            SampleTools.found SampleTools.broken_info (JInt 702) [JInt 887]);
    try reflexivity.
  eexists. split; reflexivity.
Defined.

Section CompoundDetails.
Context {rt : PyRuntime}.

Lemma py_slice_to_length (v : Json) (n : Z) (xs : list Json) :
  0 <= n -> py_slice_to v n = Returns (JArr xs) -> Z.of_nat (length xs) <= n.
Proof.
  intros Hn. destruct v as [| | | | | ys |]; try discriminate.
  simpl. intros [= <-]. rewrite length_take. unfold slice_stop.
  destruct (0 <=? n) eqn:E; lia.
Qed.

Lemma compound_details_shape (cid : Z) (response props synonyms j : Json) :
  ServerTools.compound_details cid response props synonyms = Returns j ->
  exists result,
    j = JObj result /\
    assoc "CID" result = Some (JInt cid) /\
    assoc "error" result = None /\
    forall names, assoc "synonyms" result = Some (JArr names) ->
      (length names <= 10)%nat.
Proof.
  unfold ServerTools.compound_details. intros H.
  destruct (ServerTools.first_record _ response) as [record |];
    cbn [bind_result] in H; [| discriminate].
  destruct (py_and _ (py_in "PropertyTable" props)) as [with_props |];
    cbn [bind_result] in H; [| discriminate].
  set (base := [("CID", JInt cid); ("record", record)]) in H.
  assert (exists more,
            (if with_props
             then ps <~ ServerTools.first_properties props ;;
                  Returns (base ++ [("properties", ps)])
             else Returns base) = more /\
            forall result, more = Returns result ->
              assoc "CID" result = Some (JInt cid) /\
              assoc "error" result = None /\
              assoc "synonyms" result = None)
    as (more & Hmore & Hshape).
  { eexists. split; [reflexivity |]. intros result.
    destruct with_props; [destruct (ServerTools.first_properties props) |];
      cbn [bind_result]; intros [= <-]; by repeat split. }
  rewrite Hmore in H. destruct more as [result |];
    cbn [bind_result] in H; [| discriminate].
  destruct (Hshape result eq_refl) as (Hcid & Herr & Hsyn).
  destruct (py_and _ (py_in "InformationList" synonyms)) as [with_synonyms |];
    cbn [bind_result] in H; [| discriminate].
  assert (forall k v, k <> "CID" -> assoc "CID" (result ++ [(k, v)]) = Some (JInt cid))
    as Hcid'.
  { clear -Hcid. intros k v Hk. revert Hcid.
    induction result as [| [k' v'] rest IH]; [discriminate |].
    cbn [assoc app]. destruct (String.eqb "CID" k'); [done | apply IH]. }
  assert (forall k v, assoc k result = None ->
            assoc k (result ++ [("synonyms", v)])
            = if String.eqb k "synonyms" then Some v else None) as Happ.
  { clear. induction result as [| [k' v'] rest IH]; intros k v; cbn [assoc app].
    - done.
    - destruct (String.eqb k k'); [discriminate | apply IH]. }
  destruct with_synonyms.
  - destruct (getitem synonyms "InformationList") as [il |];
      cbn [bind_result] in H; [| discriminate].
    destruct (dict_get il "Information" _) as [info |];
      cbn [bind_result] in H; [| discriminate].
    destruct (getitem0 info) as [first |];
      cbn [bind_result] in H; [| discriminate].
    destruct (dict_get first "Synonym" _) as [found |];
      cbn [bind_result] in H; [| discriminate].
    destruct (py_slice_to found 10) as [shown |] eqn:Hslice;
      cbn [bind_result] in H; [| discriminate].
    injection H as <-. eexists. split; [reflexivity |].
    split; [by apply Hcid' |]. split; [by rewrite Happ |].
    rewrite (Happ _ _ Hsyn). simpl. intros names [= ->].
    apply py_slice_to_length in Hslice; lia.
  - cbn [bind_result] in H. injection H as <-. exists result.
    repeat split; try done. intros names. by rewrite Hsyn.
Qed.

End CompoundDetails.

(** X12.  [get_compound_details] makes one request or three.  A run that
    returns after one request returns that request's answer, which has
    "error" in it.  A run that returns after three returns a dictionary
    with the "CID" asked for and no "error" key, whatever became of the
    second and third requests, and a list under "synonyms" has at most
    ten entries. *)
Theorem get_compound_details_outcomes
    {rt : PyRuntime} (cid : Z) (w : World) (j : Json) (w' : World) :
  ServerTools.get_compound_details cid w = (Returns j, w') ->
  (calls_between w w' = 1 /\ py_in "error" j = Returns true) \/
  (calls_between w w' = 3 /\
   exists result,
     j = JObj result /\
     assoc "CID" result = Some (JInt cid) /\
     assoc "error" result = None /\
     forall names, assoc "synonyms" result = Some (JArr names) ->
       (length names <= 10)%nat).
Proof.
  unfold ServerTools.get_compound_details, bind.
  rewrite make_pubchem_request_eq. unfold lift.
  set (response := payload _ _).
  destruct (py_in "error" response) as [[|] |] eqn:Herr; [| | discriminate].
  - intros [= <- <-]. left. by rewrite calls_between_after_call_self.
  - rewrite !make_pubchem_request_eq.
    set (props := payload _ _). set (synonyms := payload _ _).
    destruct (ServerTools.compound_details cid response props synonyms)
      as [out |] eqn:Hout; [| discriminate].
    intros [= <- <-]. right. split.
    + unfold calls_between. rewrite !after_call_traffic, !length_app. simpl. lia.
    + by apply (compound_details_shape cid response props synonyms).
Qed.

Lemma get_compound_details_outcomes_witness :
  let w := Sample.steady SampleTools.synonyms_upstream 100 in
  let run := ServerTools.get_compound_details (rt := SampleRuntime.plain) 702 w in
  exists j,
    fst run = Returns j /\
    ((calls_between w (snd run) = 1 /\ py_in "error" j = Returns true) \/
     (calls_between w (snd run) = 3 /\
      exists result,
        j = JObj result /\
        assoc "CID" result = Some (JInt 702) /\
        assoc "error" result = None /\
        forall names, assoc "synonyms" result = Some (JArr names) ->
          (length names <= 10)%nat)).
Proof.
  intros w run. eexists. split; [vm_compute; reflexivity |].
  apply (get_compound_details_outcomes (rt := SampleRuntime.plain) 702 w).
  vm_compute. reflexivity.
Defined.

(** X13.  The tool [get_compound_properties] of server.py makes exactly
    one request, whether it returns or raises.  What it returns either has
    "error" in it or is the dictionary of the "CID" asked for and its
    "properties".  An answer that is an object with neither "error" nor
    "PropertyTable" is reported as the error "No properties found", although
    the request itself succeeded. *)
Theorem server_properties_outcomes
    {rt : PyRuntime} (cid : Z) (w : World)
    (res : PyResult Json) (w' : World) :
  Server.get_compound_properties cid w = (res, w') ->
  calls_between w w' = 1 /\
  (forall j, res = Returns j ->
     py_in "error" j = Returns true \/
     exists first, j = JObj [("CID", JInt cid); ("properties", first)]) /\
  (forall fields,
     payload (Server.properties_url cid)
       (upstream w (length (traffic w)) (api_request (Server.properties_url cid)))
     = JObj fields ->
     assoc "error" fields = None ->
     assoc "PropertyTable" fields = None ->
     res = Returns (JObj [("error", JStr "No properties found");
                          ("CID", JInt cid)])).
Proof.
  unfold Server.get_compound_properties, bind.
  rewrite make_pubchem_request_eq. unfold lift.
  set (response := payload _ _).
  destruct (bind_result (py_in "error" response) _) as [out | e] eqn:Hout;
    intros [= <- <-]; (split; [apply calls_between_after_call_self |]).
  - split.
    + intros j [= <-].
      destruct (py_in "error" response) as [[|] |] eqn:Herr;
        cbn [bind_result] in Hout; [| | discriminate].
      { injection Hout as <-. by left. }
      destruct (py_and _ _) as [[|] |]; cbn [bind_result] in Hout;
        [| | discriminate].
      * destruct (getitem response "PropertyTable") as [pt |];
          cbn [bind_result] in Hout; [| discriminate].
        destruct (getitem pt "Properties") as [ps |];
          cbn [bind_result] in Hout; [| discriminate].
        destruct (if truthy ps then getitem0 ps else Returns (JObj []))
          as [first |]; cbn [bind_result] in Hout; [| discriminate].
        injection Hout as <-. right. by exists first.
      * injection Hout as <-. by left.
    + intros fields Hfields Herr Hpt. rewrite Hfields in Hout.
      simpl in Hout. rewrite Herr in Hout. simpl in Hout.
      unfold py_and, py_in in Hout. rewrite Hpt in Hout. simpl in Hout.
      by injection Hout as <-.
  - split; [discriminate |].
    intros fields Hfields Herr Hpt. rewrite Hfields in Hout.
    simpl in Hout. rewrite Herr in Hout. simpl in Hout.
    unfold py_and, py_in in Hout. rewrite Hpt in Hout. simpl in Hout.
    discriminate.
Qed.

Lemma server_properties_outcomes_witness :
  let w := Sample.steady SampleTools.synonyms_upstream 100 in
  let run := Server.get_compound_properties (rt := SampleRuntime.plain) 702 w in
  calls_between w (snd run) = 1 /\
  fst run = Returns (JObj [("error", JStr "No properties found");
                           ("CID", JInt 702)]).
Proof.
  intros w run.
  destruct (server_properties_outcomes (rt := SampleRuntime.plain) 702 w
              (fst run) (snd run)) as (Hn & _ & Hmissing).
  - subst run. by destruct (Server.get_compound_properties 702 w).
  - split; [exact Hn |].
    apply (Hmissing [("InformationList",
                      JObj [("Information",
                             JArr [JObj [("CID", JInt 702);
                                         ("Synonym",
                                          JArr (map JInt [1; 2; 3; 4; 5; 6; 7; 8;
                                                          9; 10; 11; 12]))]])])]);
      reflexivity.
Defined.

Section SearchBioassay.
Context {rt : PyRuntime}.

Lemma assay_entry_id (aid info entry : Json) :
  ServerTools.assay_entry aid info = Returns entry ->
  entry_id "AID" entry = Some aid.
Proof.
  unfold ServerTools.assay_entry. intros H.
  destruct (getitem info "PC_AssayContainer") as [container |];
    cbn [bind_result] in H; [| discriminate].
  destruct (if truthy container then _ else _) as [assay_data |];
    cbn [bind_result] in H; [| discriminate].
  destruct (dict_get assay_data _ _) as [description |];
    cbn [bind_result] in H; [| discriminate].
  destruct (dict_get description "PC_AssayDescriptionName" _) as [name |];
    cbn [bind_result] in H; [| discriminate].
  destruct (dict_get description "PC_AssayDescriptionComment" _) as [comment |];
    cbn [bind_result] in H; [| discriminate].
  destruct (dict_get description "PC_AssayDescriptionProtocol" _) as [protocol |];
    cbn [bind_result] in H; [| discriminate].
  destruct (dict_get description "PC_AssayDescriptionActivityOutcome" _)
    as [outcome |]; cbn [bind_result] in H; [| discriminate].
  by injection H as <-.
Qed.

(** The loop makes one request per identifier, stops at the first
    exception, and appends the entries of a sublist of the identifiers, in
    their order. *)
Lemma assay_infos_run (aids : list Json) : forall acc w res w',
  ServerTools.assay_infos aids acc w = (res, w') ->
  0 <= calls_between w w' <= Z.of_nat (length aids) /\
  forall out, res = Returns out ->
    calls_between w w' = Z.of_nat (length aids) /\
    exists kept added,
      out = acc ++ added /\ sublist kept aids /\ describes "AID" kept added.
Proof.
  induction aids as [| aid rest IH]; intros acc w res w'.
  - intros [= <- <-]. rewrite calls_between_refl. split; [simpl; lia |].
    intros out [= <-]. split; [done |]. exists [], [].
    rewrite app_nil_r. repeat split; constructor.
  - cbn [ServerTools.assay_infos]. unfold bind at 1.
    rewrite make_pubchem_request_eq.
    set (w1 := after_call _ w). set (info := payload _ _).
    unfold bind at 1, lift at 1.
    destruct (py_and (py_not_in "error" info) (py_in "PC_AssayContainer" info))
      as [keep | e].
    2:{ intros [= <- <-]. unfold w1. rewrite calls_between_after_call_self.
        split; [simpl length; lia | discriminate]. }
    assert (forall first entries,
              ServerTools.assay_infos rest (acc ++ entries) w1 = (res, w') ->
              sublist first [aid] ->
              describes "AID" first entries ->
              0 <= calls_between w w' <= Z.of_nat (length (aid :: rest)) /\
              forall out, res = Returns out ->
                calls_between w w' = Z.of_nat (length (aid :: rest)) /\
                exists kept added,
                  out = acc ++ added /\ sublist kept (aid :: rest) /\
                  describes "AID" kept added) as Hrest.
    { intros first entries Hrun Hsub Hdesc.
      destruct (IH _ _ _ _ Hrun) as [Hc Hout].
      unfold w1 in Hc, Hout. rewrite calls_between_after_call in Hc, Hout.
      split; [simpl length; lia |]. intros out Hres.
      destruct (Hout out Hres) as (Hn & kept & added & -> & Hk & Ha).
      split; [simpl length; lia |]. exists (first ++ kept), (entries ++ added).
      rewrite app_assoc. split; [done |]. split.
      - change (aid :: rest) with ([aid] ++ rest). by apply sublist_app.
      - by apply Forall2_app. }
    destruct keep.
    + unfold bind at 1, lift at 1.
      destruct (ServerTools.assay_entry aid info) as [entry | e] eqn:Hentry.
      * unfold bind at 1, ret at 1. intros Hrun.
        apply (Hrest [aid] [entry] Hrun); [done |].
        constructor; [by apply (assay_entry_id _ info) | constructor].
      * unfold bind at 1. intros [= <- <-]. unfold w1.
        rewrite calls_between_after_call_self.
        split; [simpl length; lia | discriminate].
    + unfold bind at 1, ret at 1. intros Hrun.
      apply (Hrest [] []); [by rewrite app_nil_r | | constructor].
      apply sublist_nil_l.
Qed.

End SearchBioassay.

(** X14.  [search_bioassay] makes one request for the search and then one
    per assay identifier found.  On an answer without "error" that lists the
    identifiers [aids], a run that returns has made [1 + len(aids)] requests
    and returns the query, the list [assays] and [count = len(assays)];
    the "AID"s of [assays] are a sublist of [aids] in the order of the
    answer, the identifiers whose description failed being left out. *)
Theorem search_bioassay_keeps_order
    {rt : PyRuntime} (query : string) (max_results : Z) (w : World)
    (response : Json) (aids : list Json)
    (res : PyResult Json) (w' : World) :
  response = payload (ServerTools.assay_search_url query max_results)
               (upstream w (length (traffic w))
                  (api_request (ServerTools.assay_search_url query max_results))) ->
  plain_object response ->
  listed_ids "AID" response = Some aids ->
  ServerTools.search_bioassay query max_results w = (res, w') ->
  1 <= calls_between w w' <= 1 + Z.of_nat (length aids) /\
  forall j, res = Returns j ->
    calls_between w w' = 1 + Z.of_nat (length aids) /\
    exists kept assays,
      j = JObj [("query", JStr query);
                ("count", JInt (Z.of_nat (length assays)));
                ("assays", JArr assays)] /\
      sublist kept aids /\ describes "AID" kept assays.
Proof.
  intros Hresp Hplain Hlist. unfold ServerTools.search_bioassay, bind.
  rewrite make_pubchem_request_eq, <- Hresp. unfold lift.
  rewrite (plain_object_no_error _ Hplain).
  destruct response as [| | | | | | kvs]; try discriminate. simpl in Hlist.
  destruct (assoc "IdentifierList" kvs) as [[| | | | | | il] |] eqn:Eil;
    try discriminate.
  destruct (assoc "AID" il) as [[| | | | | ids |] |] eqn:Eaid; try discriminate.
  injection Hlist as ->.
  unfold py_and, py_in, getitem. rewrite Eil. cbn [bind_result bool_decide decide_rel].
  simpl. rewrite Eaid. simpl.
  set (w1 := after_call _ w).
  destruct (ServerTools.assay_infos aids [] w1) as [[assays | e] w2] eqn:Eloop;
    intros [= <- <-];
    destruct (assay_infos_run _ _ _ _ _ Eloop) as [Hc Hout];
    unfold w1 in Hc, Hout; rewrite calls_between_after_call in Hc, Hout.
  - split; [lia |]. intros j [= <-].
    destruct (Hout assays eq_refl) as (Hn & kept & added & -> & Hk & Ha).
    split; [lia |]. by exists kept, added.
  - split; [lia | discriminate].
Qed.

Lemma search_bioassay_keeps_order_witness :
  let w := Sample.steady SampleTools.assay_upstream 100 in
  let run := ServerTools.search_bioassay (rt := SampleRuntime.plain) "kinase" 5 w in
  exists j,
    fst run = Returns j /\
    calls_between w (snd run) = 1 + Z.of_nat 3 /\
    exists kept assays,
      j = JObj [("query", JStr "kinase");
                ("count", JInt (Z.of_nat (length assays)));
                ("assays", JArr assays)] /\
      sublist kept [JInt 1000; JInt 1001; JInt 1002] /\
      describes "AID" kept assays.
Proof.
  intros w run. eexists. split; [vm_compute; reflexivity |].
  refine (proj2 (search_bioassay_keeps_order (rt := SampleRuntime.plain)
                   "kinase" 5 w SampleTools.found_assays
                   [JInt 1000; JInt 1001; JInt 1002] (fst run) (snd run)
                   eq_refl _ eq_refl _) _ _).
  - eexists. split; reflexivity.
  - subst run. by destruct (ServerTools.search_bioassay "kinase" 5 w).
  - vm_compute. reflexivity.
Defined.

Section SubstanceDetails.
Context {rt : PyRuntime}.

Lemma substance_details_shape (sid : Z) (response cid_response j : Json) :
  ServerTools.substance_details sid response cid_response = Returns j ->
  exists result,
    j = JObj result /\
    assoc "SID" result = Some (JInt sid) /\
    assoc "error" result = None /\
    (py_in "error" cid_response = Returns true -> assoc "CIDs" result = None).
Proof.
  unfold ServerTools.substance_details. intros H.
  destruct (ServerTools.first_record _ response) as [record |];
    cbn [bind_result] in H; [| discriminate].
  destruct (py_and _ (py_in "InformationList" cid_response))
    as [with_cids |] eqn:Hwith; cbn [bind_result] in H; [| discriminate].
  destruct with_cids.
  - destruct (getitem cid_response "InformationList") as [il |];
      cbn [bind_result] in H; [| discriminate].
    destruct (dict_get il "Information" _) as [information |];
      cbn [bind_result] in H; [| discriminate].
    destruct (getitem0 information) as [info |];
      cbn [bind_result] in H; [| discriminate].
    destruct (dict_get info "CID" _) as [cids |];
      cbn [bind_result] in H; [| discriminate].
    injection H as <-. eexists. split; [reflexivity |].
    repeat split. intros Herr. unfold py_and, py_not_in, py_not in Hwith.
    rewrite Herr in Hwith. discriminate.
  - cbn [bind_result] in H. injection H as <-. eexists.
    split; [reflexivity |]. by repeat split.
Qed.

End SubstanceDetails.

(** X15.  [get_substance_details] makes one request or two.  A run that
    returns after one request returns that request's answer, which has
    "error" in it.  A run that returns after two returns a dictionary with
    the "SID" asked for and no "error" key; when the second request, for
    the related compounds, failed, the failure is dropped and the
    dictionary has no "CIDs". *)
Theorem get_substance_details_outcomes
    {rt : PyRuntime} (sid : Z) (w : World) (j : Json) (w' : World) :
  ServerTools.get_substance_details sid w = (Returns j, w') ->
  (calls_between w w' = 1 /\ py_in "error" j = Returns true) \/
  (calls_between w w' = 2 /\
   exists result,
     j = JObj result /\
     assoc "SID" result = Some (JInt sid) /\
     assoc "error" result = None /\
     (failing (upstream w (S (length (traffic w)))
                 (api_request (ServerTools.substance_cids_url sid))) = true ->
      assoc "CIDs" result = None)).
Proof.
  unfold ServerTools.get_substance_details, bind.
  rewrite make_pubchem_request_eq. unfold lift.
  set (response := payload _ _).
  destruct (py_in "error" response) as [[|] |] eqn:Herr; [| | discriminate].
  - intros [= <- <-]. left. by rewrite calls_between_after_call_self.
  - rewrite make_pubchem_request_eq.
    rewrite after_call_upstream, after_call_traffic, length_app, Nat.add_1_r.
    set (cid_response := payload _ _).
    destruct (ServerTools.substance_details sid response cid_response)
      as [out |] eqn:Hout; [| discriminate].
    intros [= <- <-]. right. split.
    + unfold calls_between. rewrite !after_call_traffic, !length_app. simpl. lia.
    + destruct (substance_details_shape _ _ _ _ Hout)
        as (result & -> & Hsid & Hnone & Hcids).
      exists result. repeat split; try done.
      intros Hf. apply Hcids. by apply payload_failing.
Qed.

Lemma get_substance_details_outcomes_witness :
  let w := Sample.steady SampleTools.substance_upstream 100 in
  let run := ServerTools.get_substance_details (rt := SampleRuntime.plain) 5 w in
  exists j,
    fst run = Returns j /\
    ((calls_between w (snd run) = 1 /\ py_in "error" j = Returns true) \/
     (calls_between w (snd run) = 2 /\
      exists result,
        j = JObj result /\
        assoc "SID" result = Some (JInt 5) /\
        assoc "error" result = None /\
        (failing (upstream w (S (length (traffic w)))
                    (api_request (ServerTools.substance_cids_url 5))) = true ->
         assoc "CIDs" result = None))).
Proof.
  intros w run. eexists. split; [vm_compute; reflexivity |].
  apply (get_substance_details_outcomes (rt := SampleRuntime.plain) 5 w).
  vm_compute. reflexivity.
Defined.

(** ** The table formatter *)

Section FormatTable.

Lemma string_app_length (a b : string) :
  String.length (a +:+ b) = (String.length a + String.length b)%nat.
Proof.
  induction a as [| x a IH]; [done |]. rewrite string_app_cons. simpl.
  by rewrite IH.
Qed.

Lemma repeat_char_length (c : Ascii.ascii) (n : nat) :
  String.length (Format.repeat_char c n) = n.
Proof. induction n; simpl; congruence. Qed.

Lemma ljust_returns (s : string) (w : Z) :
  0 <= w ->
  exists p, Format.ljust s w = Returns p /\
            String.length p = Nat.max (String.length s) (Z.to_nat w).
Proof.
  intros Hw. unfold Format.ljust. destruct (w <? 0) eqn:E; [lia |].
  eexists. split; [done |]. rewrite string_app_length, repeat_char_length. lia.
Qed.

Lemma fold_left_add (ws : list Z) : forall a,
  fold_left Z.add ws a = a + fold_left Z.add ws 0.
Proof.
  induction ws as [| w ws IH]; intros a; simpl; [lia |].
  rewrite (IH (a + w)), (IH (0 + w)). lia.
Qed.

Lemma sum_widths_cons (w : Z) (ws : list Z) :
  Format.sum_widths (w :: ws) = w + Format.sum_widths ws.
Proof. unfold Format.sum_widths. simpl. by rewrite fold_left_add. Qed.

Lemma sum_widths_ge (ws : list Z) (low : Z) :
  Forall (fun w => low <= w) ws ->
  low * Z.of_nat (length ws) <= Format.sum_widths ws.
Proof.
  induction 1 as [| w ws Hw _ IH]; [simpl; unfold Format.sum_widths; simpl; lia |].
  rewrite sum_widths_cons. simpl length. lia.
Qed.

Lemma auto_width_header (i : nat) (header : string) (rows : list (list string)) :
  Format.len header + 2 <= Format.auto_width i header rows.
Proof.
  unfold Format.auto_width. generalize (Format.len header) as acc.
  induction rows as [| row rows IH]; intros acc; simpl; [lia |].
  destruct (row !! i); [| apply IH].
  etransitivity; [| apply IH]. lia.
Qed.

Lemma auto_width_cell (i : nat) (header : string) (rows : list (list string))
      (row : list string) (cell : string) :
  row ∈ rows -> row !! i = Some cell ->
  Format.len cell + 2 <= Format.auto_width i header rows.
Proof.
  unfold Format.auto_width. intros Hin Hcell.
  generalize (Format.len header) as acc.
  induction rows as [| r rows IH]; intros acc; [by apply elem_of_nil in Hin |].
  apply elem_of_cons in Hin as [<- | Hin]; simpl.
  - rewrite Hcell.
    pose proof (auto_width_header i "" rows) as Hge.
    unfold Format.auto_width in Hge.
    assert (forall a, a + 2 <= fold_left
              (fun col_width row0 =>
                 match row0 !! i with
                 | Some c => Z.max col_width (Format.len c)
                 | None => col_width
                 end) rows a + 2) as Hmono.
    { clear. induction rows as [| r rows IH]; intros a; simpl; [lia |].
      destruct (r !! i); [| apply IH]. etransitivity; [| apply IH]. lia. }
    etransitivity; [| apply Hmono]. lia.
  - by apply IH.
Qed.

Lemma auto_widths_lookup (headers : list string) (rows : list (list string))
      (i : nat) (header : string) :
  headers !! i = Some header ->
  Format.auto_widths headers rows !! i = Some (Format.auto_width i header rows).
Proof.
  intros H. unfold Format.auto_widths. by rewrite list_lookup_imap, H.
Qed.

Lemma auto_widths_length (headers : list string) (rows : list (list string)) :
  length (Format.auto_widths headers rows) = length headers.
Proof. unfold Format.auto_widths. apply length_imap. Qed.

Lemma auto_widths_ge (headers : list string) (rows : list (list string)) :
  Forall (fun w => 2 <= w) (Format.auto_widths headers rows).
Proof.
  apply Forall_lookup. intros i w Hw.
  destruct (headers !! i) as [header |] eqn:Hh.
  - rewrite (auto_widths_lookup _ _ _ _ Hh) in Hw. injection Hw as <-.
    pose proof (auto_width_header i header rows). unfold Format.len in *. lia.
  - apply lookup_lt_Some in Hw. rewrite auto_widths_length in Hw.
    apply lookup_ge_None in Hh. lia.
Qed.

(** The cells of a line whose widths fit: each takes its width, and all
    but the last are followed by the three characters of " | ". *)
Lemma header_cells_length (ws : list Z) (n : nat) : forall hs k acc,
  (k + length hs = n)%nat ->
  (forall i h, hs !! i = Some h ->
     exists w, ws !! (k + i)%nat = Some w /\ Format.len h <= w) ->
  exists out,
    Format.header_cells ws n (enumerate k hs) acc = Returns out /\
    Z.of_nat (String.length out)
    = Z.of_nat (String.length acc)
      + Format.sum_widths (take (length hs) (drop k ws))
      + 3 * Z.of_nat (pred (length hs)).
Proof.
  induction hs as [| h rest IH]; intros k acc Hn Hfit.
  - eexists. split; [reflexivity |]. simpl. unfold Format.sum_widths. simpl. lia.
  - destruct (Hfit 0%nat h eq_refl) as (w & Hw & Hle).
    rewrite Nat.add_0_r in Hw.
    cbn [enumerate Format.header_cells]. rewrite Hw.
    destruct (ljust_returns h w) as (p & -> & Hp);
      [unfold Format.len in Hle; lia |].
    cbn [bind_result].
    edestruct (IH (S k)) as (out & -> & Hout).
    + simpl in Hn. lia.
    + intros i h' Hh'. destruct (Hfit (S i) h' Hh') as (w' & Hw' & Hle').
      exists w'. split; [| done]. by rewrite <- Nat.add_succ_comm in Hw'.
    + eexists. split; [reflexivity |]. rewrite Hout.
      rewrite (drop_S _ _ _ Hw). cbn [length take]. rewrite sum_widths_cons.
      simpl in Hn. unfold Format.len in Hle.
      destruct (Z.of_nat k <? Z.of_nat n - 1) eqn:E.
      * rewrite !string_app_length. simpl String.length.
        destruct rest; simpl length in *; lia.
      * rewrite !string_app_length.
        destruct rest; simpl length in *; lia.
Qed.

Lemma data_cells_length (ws : list Z) (n : nat) : forall cells k acc,
  (k + length cells = n)%nat ->
  (forall i c, cells !! i = Some c ->
     exists w, ws !! (k + i)%nat = Some w /\ Format.len c <= w) ->
  exists out,
    Format.data_cells ws n n (enumerate k cells) acc = Returns out /\
    Z.of_nat (String.length out)
    = Z.of_nat (String.length acc)
      + Format.sum_widths (take (length cells) (drop k ws))
      + 3 * Z.of_nat (pred (length cells)).
Proof.
  induction cells as [| c rest IH]; intros k acc Hn Hfit.
  - eexists. split; [reflexivity |]. simpl. unfold Format.sum_widths. simpl. lia.
  - destruct (Hfit 0%nat c eq_refl) as (w & Hw & Hle).
    rewrite Nat.add_0_r in Hw.
    cbn [enumerate Format.data_cells]. rewrite Hw.
    destruct (ljust_returns c w) as (p & -> & Hp);
      [unfold Format.len in Hle; lia |].
    cbn [bind_result].
    edestruct (IH (S k)) as (out & -> & Hout).
    + simpl in Hn. lia.
    + intros i c' Hc'. destruct (Hfit (S i) c' Hc') as (w' & Hw' & Hle').
      exists w'. split; [| done]. by rewrite <- Nat.add_succ_comm in Hw'.
    + eexists. split; [reflexivity |]. rewrite Hout.
      rewrite (drop_S _ _ _ Hw). cbn [length take]. rewrite sum_widths_cons.
      simpl in Hn. unfold Format.len in Hle.
      destruct (Z.of_nat k <? Z.of_nat n - 1) eqn:E; cbn [andb].
      * rewrite !string_app_length. simpl String.length.
        destruct rest; simpl length in *; lia.
      * rewrite !string_app_length.
        destruct rest; simpl length in *; lia.
Qed.

(** With widths that are not negative a data row is always rendered. *)
Lemma data_cells_total (ws : list Z) (nh nr : nat) :
  Forall (fun w => 0 <= w) ws ->
  forall entries acc, exists d, Format.data_cells ws nh nr entries acc = Returns d.
Proof.
  intros Hws. induction entries as [| [i cell] rest IH]; intros acc.
  - by eexists.
  - cbn [Format.data_cells]. destruct (ws !! i) as [w |] eqn:Hw; [| apply IH].
    destruct (ljust_returns cell w) as (p & -> & _).
    + by apply (Forall_lookup_1 _ _ _ _ Hws Hw).
    + cbn [bind_result]. apply IH.
Qed.

Lemma data_rows_run (ws : list Z) (headers : list string)
      (P : list string -> string -> Prop) (rows : list (list string)) :
  (forall row, row ∈ rows ->
     exists d, Format.data_row ws headers row = Returns d /\ P row d) ->
  forall acc, exists ds,
    Format.data_rows ws headers rows acc
    = Returns (acc +:+ flatten (map (fun d => d +:+ nl) ds)) /\
    Forall2 P rows ds.
Proof.
  induction rows as [| row rows IH]; intros Hrows acc.
  - exists []. split; [| constructor]. simpl. by rewrite string_app_nil_r.
  - destruct (Hrows row) as (d & Hd & HP); [apply elem_of_cons; by left |].
    destruct (IH (fun r Hr => Hrows r (proj2 (elem_of_cons rows r row) (or_intror Hr)))
                 (acc +:+ d +:+ nl)) as (ds & Hds & HF).
    exists (d :: ds). split; [| by constructor].
    cbn [Format.data_rows]. rewrite Hd. cbn [bind_result]. rewrite Hds.
    cbn [map flatten fold_right]. by rewrite !string_app_assoc.
Qed.

End FormatTable.

(** X16.  With no widths given, [format_table] never raises: it returns
    the title, a separator, the header row, the separator again and one
    line per row.  The header row and every row with as many cells as there
    are headers have the same length, the sum of the widths plus three per
    column gap; the separator counts one per gap only, so it is
    [2 * (len(headers) - 1)] dashes shorter than the lines it rules off. *)
Theorem format_table_auto_widths
    (title : string) (headers : list string) (rows : list (list string)) :
  let ws := Format.auto_widths headers rows in
  let sep := Format.separator ws headers in
  exists line lines,
    Format.format_table title headers rows None
    = Returns (title +:+ nl +:+ sep +:+ line +:+ nl +:+ sep
               +:+ flatten (map (fun d => d +:+ nl) lines)) /\
    Z.of_nat (String.length line)
    = Format.sum_widths ws + 3 * Z.of_nat (pred (length headers)) /\
    Forall2 (fun row d => length row = length headers ->
                          String.length d = String.length line) rows lines /\
    Z.of_nat (String.length sep)
    = Z.of_nat (String.length line) - 2 * Z.of_nat (pred (length headers)) + 1.
Proof.
  intros ws sep.
  pose proof (auto_widths_ge headers rows) as Hge. fold ws in Hge.
  pose proof (auto_widths_length headers rows) as Hlen. fold ws in Hlen.
  destruct (header_cells_length ws (length headers) headers 0 "")
    as (line & Hline & Hsize); [done | |].
  { intros i h Hh. cbn [Nat.add]. eexists.
    split; [by apply auto_widths_lookup |].
    pose proof (auto_width_header i h rows). lia. }
  rewrite drop_0, <- Hlen, firstn_all in Hsize. simpl in Hsize.
  destruct (data_rows_run ws headers
              (fun row d => length row = length headers ->
                            String.length d = String.length line) rows)
    with (acc := (((title +:+ nl) +:+ sep) +:+ line +:+ nl) +:+ sep)
    as (lines & Hlines & HF).
  { intros row Hrow. unfold Format.data_row.
    destruct (data_cells_total ws (length headers) (length row))
      with (entries := enumerate 0 row) (acc := "") as (d & Hd).
    { eapply Forall_impl; [exact Hge |]. simpl. intros. lia. }
    exists d. split; [done |]. intros Hsame. rewrite Hsame in Hd.
    destruct (data_cells_length ws (length headers) row 0 "")
      as (d' & Hd' & Hsize'); [done | |].
    { intros i c Hc. cbn [Nat.add]. destruct (headers !! i) as [h |] eqn:Hh.
      - eexists. split; [by apply auto_widths_lookup |].
        pose proof (auto_width_cell i h rows row c Hrow Hc). lia.
      - apply lookup_lt_Some in Hc. apply lookup_ge_None in Hh. lia. }
    rewrite Hd in Hd'. injection Hd' as <-.
    rewrite drop_0, Hsame, <- Hlen, firstn_all in Hsize'. simpl in Hsize'. lia. }
  exists line, lines. split; [| split; [lia | split; [done |]]].
  - unfold Format.format_table. fold ws. fold sep.
    unfold Format.header_row. rewrite Hline. cbn [bind_result].
    rewrite Hlines. by rewrite !string_app_assoc.
  - unfold sep, Format.separator.
    rewrite string_app_length, repeat_char_length.
    pose proof (sum_widths_ge ws 2 Hge) as Hsum. rewrite Hlen in Hsum.
    change (String.length nl) with 1%nat. rewrite Hlen in Hsize.
    assert (length headers = 0%nat -> Format.sum_widths ws = 0) as Hnone.
    { intros Hno. rewrite Hno in Hlen. by destruct ws. }
    lia.
Qed.

Section GivenWidths.

Lemma header_cells_short (ws : list Z) (n : nat) : forall hs k acc,
  (k <= length ws < k + length hs)%nat ->
  (exists e, Format.header_cells ws n (enumerate k hs) acc = Raises e) /\
  (Forall (fun w => 0 <= w) ws ->
   Format.header_cells ws n (enumerate k hs) acc
   = Raises (IndexError "list index out of range")).
Proof.
  induction hs as [| h rest IH]; intros k acc Hk; [simpl in Hk; lia |].
  cbn [enumerate Format.header_cells].
  destruct (ws !! k) as [w |] eqn:Hw.
  - apply lookup_lt_Some in Hw as Hlt.
    unfold Format.ljust. destruct (w <? 0) eqn:Hneg; cbn [bind_result].
    + split; [by eexists |]. intros Hws.
      pose proof (Forall_lookup_1 _ _ _ _ Hws Hw) as Hpos. cbv beta in Hpos. lia.
    + apply IH. simpl in Hk. lia.
  - split; [by eexists | done].
Qed.

End GivenWidths.

(** X17.  [format_table] indexes the widths it is given by the position of
    each header and never checks their number: with fewer widths than
    headers it never returns, and when no width is negative what it raises
    is the [IndexError] of the missing width. *)
Theorem format_table_too_few_widths
    (title : string) (headers : list string) (rows : list (list string))
    (col_widths : list Z) :
  (length col_widths < length headers)%nat ->
  (exists e, Format.format_table title headers rows (Some col_widths) = Raises e) /\
  (Forall (fun w => 0 <= w) col_widths ->
   Format.format_table title headers rows (Some col_widths)
   = Raises (IndexError "list index out of range")).
Proof.
  intros Hshort. unfold Format.format_table, Format.header_row.
  destruct (header_cells_short col_widths (length headers) headers 0 "")
    as [[e He] Hindex]; [lia |].
  split.
  - exists e. by rewrite He.
  - intros Hws. by rewrite (Hindex Hws).
Qed.

Lemma format_table_too_few_widths_witness :
  Format.format_table "Compounds" ["CID"; "Name"] [["702"; "ethanol"]] (Some [6])
  = Raises (IndexError "list index out of range").
Proof.
  apply (format_table_too_few_widths "Compounds" ["CID"; "Name"]
           [["702"; "ethanol"]] [6]).
  - simpl. lia.
  - repeat constructor; lia.
Defined.

(** X18.  In [get_compound_properties] of compounds/properties.py the
    request for the compound's name is optional.  When the request for the
    properties succeeds with a property table and the one for the name
    raises, has a status other than 200 or has no JSON body, the handler
    still returns the formatted properties, under the name "Unknown", after
    its two requests. *)
Theorem properties_survive_name_failure
    {rt : PyRuntime} (cid property_list : string) (w : World)
    (r : Response) (data : Json) (items : list (string * Json)) :
  String.eqb cid "2244" && String.eqb (lower property_list) "basic" = false ->
  upstream w (length (traffic w))
    (GET (Properties.properties_url cid
            (Properties.requested_properties property_list)))
  = NetResponse r ->
  is_success r = true ->
  json r = Returns data ->
  property_items data = Some items ->
  nameless (upstream w (S (length (traffic w))) (GET (Properties.title_url cid))) ->
  fst (Properties.get_compound_properties cid property_list w)
  = Returns (Properties.format_properties (JStr "Unknown") cid items) /\
  calls_between w (snd (Properties.get_compound_properties cid property_list w)) = 2.
Proof.
  intros Hmock Hfirst Hok Hjson Hitems Hname.
  assert (Properties.get_compound_properties cid property_list w
          = (Returns (Properties.format_properties (JStr "Unknown") cid items),
             after_call (GET (Properties.title_url cid))
               (after_call
                  (GET (Properties.properties_url cid
                          (Properties.requested_properties property_list))) w)))
    as ->.
  { unfold Properties.get_compound_properties. rewrite Hmock.
    unfold try_except, bind at 1. rewrite http_get_run, Hfirst. cbn [delivered].
    assert ((status_code r =? 404) = false) as ->.
    { unfold is_success in Hok. apply andb_true_iff in Hok as [_ Hhi]. lia. }
    unfold bind at 1, lift at 1, raise_for_status. rewrite Hok, Hjson.
    cbn [bind_result].
    destruct data as [| | | | | | kvs]; try discriminate. simpl in Hitems.
    destruct (assoc "PropertyTable" kvs) as [[| | | | | | pt] |] eqn:Ept;
      try discriminate.
    destruct (assoc "Properties" pt)
      as [[| | | | | [| [| | | | | | first] rest] |] |] eqn:Eps; try discriminate.
    injection Hitems as ->.
    unfold bind at 1, lift at 1.
    unfold py_or, py_not_in, py_not, py_in, getitem.
    rewrite Ept. cbn [bind_result negb bool_decide decide_rel].
    rewrite Eps. simpl.
    unfold bind at 1, Properties.lookup_name, try_except, bind at 1.
    rewrite http_get_run, after_call_upstream, after_call_traffic, length_app,
      Nat.add_1_r.
    simpl length.
    destruct (upstream w (S (length (traffic w))) (GET (Properties.title_url cid)))
      as [r2 | e2]; cbn [delivered].
    - destruct Hname as [Hstatus | [e He]].
      + assert ((status_code r2 =? 200) = false) as -> by lia.
        unfold ret, lift. rewrite ?Ept. simpl. rewrite ?Eps. reflexivity.
      + destruct (status_code r2 =? 200); unfold ret, lift; rewrite ?He;
          cbn [bind_result]; rewrite ?Ept; simpl; rewrite ?Eps; reflexivity.
    - unfold lift. rewrite ?Ept. simpl. rewrite ?Eps. reflexivity. }
  split; [reflexivity |]. cbn [snd].
  unfold calls_between. rewrite !after_call_traffic, !length_app. simpl. lia.
Qed.

Lemma properties_survive_name_failure_witness :
  let w := Sample.steady SampleTools.properties_only 100 in
  fst (Properties.get_compound_properties (rt := SampleRuntime.plain) "702" "basic" w)
  = Returns (Properties.format_properties (rt := SampleRuntime.plain)
               (JStr "Unknown") "702"
               [("CID", JInt 702); ("MolecularFormula", JStr "C2H6O");
                ("IUPACName", JStr "ethanol")]) /\
  calls_between w
    (snd (Properties.get_compound_properties (rt := SampleRuntime.plain)
            "702" "basic" w)) = 2.
Proof.
  intros w.
  apply (properties_survive_name_failure (rt := SampleRuntime.plain)
           "702" "basic" w (SampleRuntime.json_response SampleTools.ethanol_info)
           SampleTools.ethanol_info); reflexivity.
Defined.

(** X19.  A [cache_ttl] of zero or less switches the cache off for reading
    but not for writing: a call whose key has no entry stamped later than
    the present loop time goes to the network even when an entry is there,
    and stores a status-200 answer all the same. *)
Theorem get_nonpositive_ttl_always_fetches
    (self : PubChemClient.t) (u : string) (ck : option string) (ttl : Z)
    (w : World) (res : PyResult Response) (self1 : PubChemClient.t) (w1 : World) :
  ttl <= 0 ->
  (forall e, PubChemClient._cache self !! PubChemClient.effective_key ck u = Some e ->
             (PubChemClient.time e <= clock w)%Q) ->
  PubChemClient.get self u ck ttl w = (res, self1, w1) ->
  calls_between w w1 = 1 /\
  forall r, res = Returns r -> status_code r = 200 ->
    PubChemClient._cache self1 !! PubChemClient.effective_key ck u
    = Some (PubChemClient.mkEntry (clock w1) r).
Proof.
  intros Httl Hpast Hget.
  assert (PubChemClient.live_entry self (PubChemClient.effective_key ck u)
            ttl (clock w) = None) as Hmiss.
  { unfold PubChemClient.live_entry.
    destruct (PubChemClient._cache self !! PubChemClient.effective_key ck u)
      as [e |] eqn:He; [| done].
    assert (Qltb (clock w - PubChemClient.time e) (inject_Z ttl) = false) as ->;
      [| done].
    apply Qltb_ge. specialize (Hpast e eq_refl).
    assert (inject_Z ttl <= 0)%Q by (unfold Qle; simpl; lia).
    lra. }
  split.
  - rewrite (get_calls _ _ _ _ _ _ _ _ Hget). by rewrite Hmiss.
  - intros r -> H200.
    destruct (get_miss _ _ _ _ _ Hmiss) as (rl & wa & o & wb & Ha & Hn & Hg).
    rewrite Hg in Hget. destruct o as [r' | ex]; [| discriminate].
    destruct (status_code r' =? 200) eqn:E.
    + injection Hget as -> <- <-. simpl. by rewrite lookup_insert_eq.
    + injection Hget as -> _ _. lia.
Qed.

Lemma get_nonpositive_ttl_always_fetches_witness :
  let w := Sample.steady (fun _ => NetResponse Sample.ok_response) 100 in
  let run := PubChemClient.get SampleTools.cached_client Sample.ethanol_url None 0 w in
  calls_between w (snd run) = 1.
Proof.
  intros w run.
  destruct run as [[res self1] w1] eqn:Hrun. subst run.
  refine (proj1 (get_nonpositive_ttl_always_fetches
                   SampleTools.cached_client Sample.ethanol_url None 0 w
                   res self1 w1 _ _ Hrun)).
  - lia.
  - intros e. unfold SampleTools.cached_client. simpl.
    rewrite lookup_singleton_eq. intros [= <-]. simpl. unfold w. simpl. lra.
Defined.

Section SimilarSearch.
Context {rt : PyRuntime}.

(** The search proper makes its one request and nothing else. *)
Lemma search_with_name_world cid threshold percent max_results name w :
  snd (Similarity.search_with_name cid threshold percent max_results name w)
  = after_call (Similarity.similarity_request cid percent max_results) w.
Proof.
  unfold Similarity.search_with_name, bind. rewrite http_get_run.
  destruct (upstream w (length (traffic w))
              (Similarity.similarity_request cid percent max_results))
    as [r | e]; cbn [delivered]; [| reflexivity].
  by destruct (status_code r =? 404).
Qed.

End SimilarSearch.

(** X20.  [search_similar_compounds_by_cid] first computes
    [int(threshold * 100)]; a threshold for which that raises (a NaN, an
    infinity, a product beyond the largest double) ends the call with
    "Error searching similar compounds: <detail>" before any request.
    Otherwise the handler gives up on the name of the query compound only
    after a 404: after any other status that is not 200 (a 500, say) it
    goes on under the name "Unknown", sends the similarity request with
    that integer and [max_results] in its query string, and returns what the
    search returns for that name. *)
Theorem similar_search_ignores_name_status
    {rt : PyRuntime} (cid : string) (threshold : PyFloat) (max_results : Z)
    (w : World) :
  String.eqb cid "2244" = false ->
  let run := Similarity.search_similar_compounds_by_cid cid threshold max_results w in
  (forall e, Similarity.pubchem_threshold threshold = Raises e ->
     run = (Returns ("Error searching similar compounds: " +:+ exn_str e), w)) /\
  (forall percent r,
     Similarity.pubchem_threshold threshold = Returns percent ->
     upstream w (length (traffic w)) (GET (Similarity.title_url cid))
     = NetResponse r ->
     status_code r <> 200 ->
     status_code r <> 404 ->
     let search := Similarity.similarity_request cid percent max_results in
     traffic (snd run)
     = traffic w ++ [(GET (Similarity.title_url cid), NetResponse r);
                     (search, upstream w (S (length (traffic w))) search)] /\
     request_url search
     = Similarity.similarity_url cid +:+ "?Threshold=" +:+ pretty percent
       +:+ "&MaxRecords=" +:+ pretty max_results /\
     fst run
     = fst (try_except
              (Similarity.search_with_name cid (finite_value threshold) percent
                 max_results (JStr "Unknown"))
              (fun e => "Error searching similar compounds: " +:+ exn_str e)
              (after_call (GET (Similarity.title_url cid)) w))).
Proof.
  intros Hmock run. subst run.
  unfold Similarity.search_similar_compounds_by_cid. rewrite Hmock.
  rewrite try_except_lift. split.
  { by intros e ->. }
  intros percent r Hpercent Hfirst H200 H404. rewrite Hpercent. cbv zeta.
  assert (forall (k : Response -> Py string) (h : Exn -> string),
            try_except (bind (http_get (GET (Similarity.title_url cid))) k) h w
            = try_except (k r) h (after_call (GET (Similarity.title_url cid)) w))
    as Hstep.
  { intros k h. unfold try_except at 1, bind at 1.
    rewrite http_get_run, Hfirst. reflexivity. }
  unfold Similarity.search_from_name. rewrite Hstep.
  assert ((status_code r =? 200) = false) as -> by lia.
  assert ((status_code r =? 404) = false) as -> by lia.
  split; [| split; reflexivity].
  rewrite try_except_world, search_with_name_world, !after_call_traffic.
  rewrite after_call_upstream, length_app, Nat.add_1_r, Hfirst.
  by rewrite <- app_assoc.
Qed.

(** Python reads 0.29 as a double below it, and [int(0.29 * 100)] is 28. *)
Lemma similar_search_ignores_name_status_witness :
  let w := Sample.steady (fun _ => NetResponse (mkResponse 500 "" (Returns JNull))) 100 in
  let run := Similarity.search_similar_compounds_by_cid
               (rt := SampleRuntime.plain) "702" (Finite (29 # 100)) 10 w in
  Similarity.pubchem_threshold (Finite (29 # 100)) = Returns 28 /\
  map (fun call => request_url (fst call)) (traffic (snd run))
  = [Similarity.title_url "702";
     Similarity.similarity_url "702" +:+ "?Threshold=28&MaxRecords=10"].
Proof.
  intros w run. split; [vm_compute; reflexivity |].
  destruct (similar_search_ignores_name_status (rt := SampleRuntime.plain)
              "702" (Finite (29 # 100)) 10 w eq_refl) as [_ Hgo].
  destruct (Hgo 28 (mkResponse 500 "" (Returns JNull)))
    as (Htraffic & _ & _); [vm_compute; reflexivity | reflexivity
                           | simpl; lia | simpl; lia |].
  subst run. rewrite Htraffic. reflexivity.
Defined.
